(** * Attendance tracker: the ledger, the rating and the request board

    A shallow embedding of [src/app.py].  The relational store is a record
    of tables, every table a list of rows in insertion order; a view
    function is a function from the store to a result in an error monad,
    and Flask's dispatcher turns what a view raises into an HTTP error. *)

From Stdlib Require Import ZArith List String Ascii Bool Lia Lqa.
From Stdlib Require Import Permutation Sorted QArith.
From Stdlib Require Import Uint63 PrimFloat SpecFloat FloatOps.
Import ListNotations.

Local Open Scope Z_scope.
Local Open Scope string_scope.

(** ** Python values the views rely on *)

Module Py.

(** Truth value of a [str]: only the empty string is false. *)
Definition truthy (s : string) : bool := negb (s =? "").

(** Truth value of a value that may be [None]. *)
Definition truthy_opt (o : option string) : bool :=
  match o with
  | Some s => truthy s
  | None => false
  end.

(** A calendar date, as [datetime.date]. *)
Record date := mkDate { year : Z; month : Z; day : Z }.

Definition date_eqb (a b : date) : bool :=
  (year a =? year b)%Z && (month a =? month b)%Z && (day a =? day b)%Z.

(** [a <= b] on dates, lexicographic on year, month and day. *)
Definition date_leb (a b : date) : bool :=
  (year a <? year b)%Z
  || ((year a =? year b)%Z
      && ((month a <? month b)%Z
          || ((month a =? month b)%Z && (day a <=? day b)%Z))).

(** A wall-clock time of day, as the fields of [datetime.now()] that
    [strftime("%H:%M:%S")] reads. *)
Record time := mkTime { hour : nat; minute : nat; second : nat }.

Definition digit (n : nat) : ascii := ascii_of_nat (48 + n mod 10).

(** [%H], [%M] and [%S]: two decimal digits, zero padded. *)
Definition two_digits (n : nat) : string :=
  String (digit (n / 10)) (String (digit n) "").

(** [t.strftime("%H:%M:%S")] *)
Definition strftime_HMS (t : time) : string :=
  two_digits (hour t) ++ ":" ++ two_digits (minute t) ++ ":"
  ++ two_digits (second t).

(** *** Text

    A [str] is kept as the bytes of its UTF-8 encoding.  On ASCII text the
    functions below are those of Python; what [isdigit], [int] and
    [strptime] answer to digits and spaces outside ASCII is not modelled,
    and a statement that depends on their answer assumes [is_ascii]. *)

(** [s.isascii()] *)
Fixpoint is_ascii (s : string) : bool :=
  match s with
  | EmptyString => true
  | String c rest => (nat_of_ascii c <? 128)%nat && is_ascii rest
  end.

Definition is_digit (c : ascii) : bool :=
  ((48 <=? nat_of_ascii c) && (nat_of_ascii c <=? 57))%nat.

Definition digit_val (c : ascii) : Z := Z.of_nat (nat_of_ascii c) - 48.

Definition in_range (lo hi : Z) (c : ascii) : bool :=
  is_digit c && (lo <=? digit_val c)%Z && (digit_val c <=? hi)%Z.

Fixpoint all_digits (s : string) : bool :=
  match s with
  | EmptyString => true
  | String c rest => is_digit c && all_digits rest
  end.

(** [s.isdigit()] on ASCII text: every character is a digit and there is
    at least one. *)
Definition isdigit (s : string) : bool := truthy s && all_digits s.

Definition lower_char (c : ascii) : ascii :=
  let n := nat_of_ascii c in
  if ((65 <=? n) && (n <=? 90))%nat then ascii_of_nat (n + 32) else c.

(** [s.lower()] *)
Fixpoint lower (s : string) : string :=
  match s with
  | EmptyString => EmptyString
  | String c rest => String (lower_char c) (lower rest)
  end.

(** *** [int(s)] *)

(** The white space [int] skips around the number in ASCII text: tab, line
    feed, vertical tab, form feed, carriage return and the space. *)
Definition is_space (c : ascii) : bool :=
  let n := nat_of_ascii c in
  ((9 <=? n) && (n <=? 13) || (n =? 32))%nat.

Fixpoint lstrip (s : string) : string :=
  match s with
  | String c rest => if is_space c then lstrip rest else s
  | EmptyString => s
  end.

(** Drops trailing white space; [None] when nothing else is left. *)
Fixpoint rstrip_aux (s : string) : option string :=
  match s with
  | EmptyString => None
  | String c rest =>
      match rstrip_aux rest with
      | Some r => Some (String c r)
      | None => if is_space c then None else Some (String c EmptyString)
      end
  end.

Definition strip (s : string) : string :=
  match rstrip_aux (lstrip s) with
  | Some r => r
  | None => EmptyString
  end.

(** Decimal digits with single underscores between them; [prev] tells
    whether the previous character was a digit. *)
Fixpoint digits_value (prev : bool) (acc : Z) (s : string) : option Z :=
  match s with
  | EmptyString => if prev then Some acc else None
  | String c rest =>
      if is_digit c then digits_value true (10 * acc + digit_val c) rest
      else if (c =? "_")%char && prev then digits_value false acc rest
      else None
  end.

(** [int(s)] in base 10 on ASCII text; [None] stands for [ValueError].
    (The interpreter also refuses a text of more than 4300 digits; the
    statements that need a value keep to shorter texts.) *)
Definition int (s : string) : option Z :=
  match strip s with
  | String "-" rest => option_map Z.opp (digits_value false 0 rest)
  | String "+" rest => digits_value false 0 rest
  | body => digits_value false 0 body
  end.

(** *** [datetime.strptime(s, "%Y-%m-%d").date()] *)

(** [\d\d\d\d] *)
Definition re_Y (s : string) : option (Z * string) :=
  match s with
  | String a (String b (String c (String d rest))) =>
      if is_digit a && is_digit b && is_digit c && is_digit d
      then Some (1000 * digit_val a + 100 * digit_val b
                 + 10 * digit_val c + digit_val d, rest)
      else None
  | _ => None
  end.

(** One literal character. *)
Definition re_lit (c : ascii) (s : string) : option string :=
  match s with
  | String a rest => if (a =? c)%char then Some rest else None
  | EmptyString => None
  end.

(** Two characters, the first a given one and the second a digit of a
    range: its value and what follows, when it matches. *)
Definition re_pair (c : ascii) (tens lo hi : Z) (s : string)
  : list (Z * string) :=
  match s with
  | String a (String b rest) =>
      if (a =? c)%char && in_range lo hi b
      then [(tens + digit_val b, rest)] else []
  | _ => []
  end.

Definition re_one (lo hi : Z) (s : string) : list (Z * string) :=
  match s with
  | String a rest => if in_range lo hi a then [(digit_val a, rest)] else []
  | EmptyString => []
  end.

(** [1[0-2]|0[1-9]|[1-9]], the matches in the order they are tried. *)
Definition re_m (s : string) : list (Z * string) :=
  re_pair "1" 10 0 2 s ++ re_pair "0" 0 1 9 s ++ re_one 1 9 s.

(** [3[0-1]|[1-2]\d|0[1-9]|[1-9]| [1-9]] *)
Definition re_d (s : string) : list (Z * string) :=
  re_pair "3" 30 0 1 s ++ re_pair "1" 10 0 9 s ++ re_pair "2" 20 0 9 s
  ++ re_pair "0" 0 1 9 s ++ re_one 1 9 s ++ re_pair " " 0 1 9 s.

(** The first alternative after which the rest of the pattern matches. *)
Fixpoint first_match {A B : Type} (alts : list A) (k : A -> option B)
  : option B :=
  match alts with
  | [] => None
  | a :: rest =>
      match k a with
      | Some b => Some b
      | None => first_match rest k
      end
  end.

(** The compiled pattern of ["%Y-%m-%d"] matched at the start of [s]:
    the three fields and the text left over. *)
Definition re_match_ymd (s : string) : option (Z * Z * Z * string) :=
  match re_Y s with
  | None => None
  | Some (y, s1) =>
      match re_lit "-" s1 with
      | None => None
      | Some s2 =>
          first_match (re_m s2) (fun '(m, s3) =>
            match re_lit "-" s3 with
            | None => None
            | Some s4 =>
                first_match (re_d s4) (fun '(d, s5) => Some (y, m, d, s5))
            end)
      end
  end.

Definition is_leap (y : Z) : bool :=
  ((y mod 4 =? 0) && (negb (y mod 100 =? 0) || (y mod 400 =? 0)))%Z.

Definition days_in_month (y m : Z) : Z :=
  if (m =? 2)%Z then (if is_leap y then 29 else 28)
  else if ((m =? 4) || (m =? 6) || (m =? 9) || (m =? 11))%Z then 30
  else 31.

(** [datetime.date(y, m, d)] accepts the triple. *)
Definition valid_date (y m d : Z) : bool :=
  ((1 <=? y) && (y <=? 9999) && (1 <=? m) && (m <=? 12)
   && (1 <=? d) && (d <=? days_in_month y m))%Z.

(** On ASCII text.  [None] stands for [ValueError]: the text does not
    match, some of it is left unconverted, or the triple is not a date. *)
Definition strptime_ymd (s : string) : option date :=
  match re_match_ymd s with
  | Some (y, m, d, EmptyString) =>
      if valid_date y m d then Some (mkDate y m d) else None
  | _ => None
  end.

(** *** Numbers: [int] and [float]

    A finite [float] is kept as the rational it denotes.  Every operation
    is the exact operation followed by rounding to the nearest binary64
    number, ties to the even significand. *)

Inductive number :=
| Int (z : Z)
| Float (q : Q).

Definition value (x : number) : Q :=
  match x with
  | Int z => inject_Z z
  | Float q => q
  end.

(** The integer nearest to [a / b] for [0 < b], ties to the even one. *)
Definition round_half_even (a b : Z) : Z :=
  let q := (a / b)%Z in
  let r := (a mod b)%Z in
  if (2 * r <? b)%Z then q
  else if (b <? 2 * r)%Z then (q + 1)%Z
  else if Z.even q then q else (q + 1)%Z.

(** The exponent [k] of the binade of [n / d]: [2^k <= n / d < 2^(k+1)],
    for [0 < n] and [0 < d]. *)
Definition ilog2 (n d : Z) : Z :=
  let k := (Z.log2 n - Z.log2 d)%Z in
  if (if (0 <=? k)%Z then (d * 2 ^ k <=? n)%Z else (d <=? n * 2 ^ (- k))%Z)
  then k else (k - 1)%Z.

(** The rational [m * 2^e]. *)
Definition dyadic (m e : Z) : Q :=
  if (0 <=? e)%Z then inject_Z (m * 2 ^ e)
  else Qmake m (Z.to_pos (2 ^ (- e))).

(** The binary64 number nearest to [n / d], for [0 < n] and [0 < d]:
    53 significant bits, the least exponent that of the subnormal
    numbers.  (Below [2^1024], which is all the rating needs.) *)
Definition nearest_pos (n d : Z) : Q :=
  let e := Z.max (ilog2 n d - 52) (- 1074) in
  let m := if (0 <=? e)%Z then round_half_even n (d * 2 ^ e)
           else round_half_even (n * 2 ^ (- e)) d in
  dyadic m e.

Definition nearest (q : Q) : Q :=
  match Qnum q with
  | Z0 => 0%Q
  | Zpos n => nearest_pos (Zpos n) (Zpos (Qden q))
  | Zneg n => Qopp (nearest_pos (Zpos n) (Zpos (Qden q)))
  end.

(** [a / b] on two [int], for [0 < b]: the exact quotient, rounded once. *)
Definition truediv (a b : Z) : Q := nearest (Qmake a (Z.to_pos b)).

(** [x * n] for a [float] and an [int] that is a [float] exactly. *)
Definition fmul (x : Q) (n : Z) : Q := nearest (x * inject_Z n)%Q.

(** [round(x, 2)]: the decimal with two places nearest to the exact value
    of [x], ties to the even last digit, converted back to a [float]. *)
Definition round2 (x : Q) : Q :=
  nearest (Qmake (round_half_even (100 * Qnum x) (Zpos (Qden x))) 100).

End Py.

(** ** The tables (the [db.Model] classes) *)

Module Employee.
Record t := mk {
  id : Z;
  name : string;
  emp_id : string;
  image : option string;
  gender : option string;
  address : option string;
  mobile_number : option string;
  date_of_birth : option Py.date;
  email : option string;
  password_hash : string;
  unique_phrase : option string
}.
End Employee.

Module AttendanceRecord.
Record t := mk {
  id : Z;
  employee_id : Z;
  date : Py.date;
  status : string;
  check_in : option string;
  check_out : option string
}.

(** [record.check_out = v] *)
Definition set_check_out (v : string) (r : t) : t :=
  mk (id r) (employee_id r) (date r) (status r) (check_in r) (Some v).
End AttendanceRecord.

Module Notification.
Record t := mk {
  id : Z;
  message : string;
  employee_id : option Z;   (* None means all employees *)
  timestamp : Z
}.
End Notification.

Module EmployeeRequest.
Record t := mk {
  id : Z;
  employee_id : Z;
  request_type : string;
  message : string;
  status : string;
  timestamp : Z
}.

(** [req.status = v] *)
Definition set_status (v : string) (r : t) : t :=
  mk (id r) (employee_id r) (request_type r) (message r) v (timestamp r).
End EmployeeRequest.

Record database := mkDb {
  employees : list Employee.t;
  attendance : list AttendanceRecord.t;
  notifications : list Notification.t;
  requests : list EmployeeRequest.t
}.

(** The store after [db.create_all()]. *)
Definition empty_db : database := mkDb [] [] [] [].

Definition with_attendance (l : list AttendanceRecord.t) (db : database) :=
  mkDb (employees db) l (notifications db) (requests db).
Definition with_notifications (l : list Notification.t) (db : database) :=
  mkDb (employees db) (attendance db) l (requests db).
Definition with_requests (l : list EmployeeRequest.t) (db : database) :=
  mkDb (employees db) (attendance db) (notifications db) l.
Definition with_employees (l : list Employee.t) (db : database) :=
  mkDb l (attendance db) (notifications db) (requests db).

(** ** Queries *)

Section Query.
Context {A : Type}.

(** The integer primary key the store gives a new row: one more than the
    largest key of the table, 1 in an empty table. *)
Definition next_id (key : A -> Z) (rows : list A) : Z :=
  1 + fold_right (fun r m => Z.max (key r) m) 0 rows.

(** [Model.query.get(pk)] *)
Definition get (key : A -> Z) (pk : Z) (rows : list A) : option A :=
  find (fun r => (key r =? pk)%Z) rows.

(** Replace the row whose primary key is [pk] (the UPDATE a commit
    issues for a modified object). *)
Fixpoint update (key : A -> Z) (pk : Z) (f : A -> A) (rows : list A)
  : list A :=
  match rows with
  | [] => []
  | r :: rest =>
      if (key r =? pk)%Z then f r :: rest
      else r :: update key pk f rest
  end.

(** [order_by(col.desc())]: a row is put in front of the first row whose
    key is not larger, so rows with equal keys keep their table order (the
    store promises no order among them; the properties below hold for any
    such order). *)
Fixpoint insert_desc (leb : A -> A -> bool) (x : A) (l : list A) : list A :=
  match l with
  | [] => [x]
  | y :: rest =>
      if leb y x then x :: l
      else y :: insert_desc leb x rest
  end.

Definition order_by_desc (leb : A -> A -> bool) (l : list A) : list A :=
  fold_right (fun x acc => insert_desc leb x acc) [] l.

End Query.

(** ** Requests, responses and what a view can raise *)

Inductive exn :=
| NotFound                              (* [get_or_404] *)
| BadRequestKeyError (key : string)     (* [request.form[key]], key missing *)
| ValueError
| AttributeError
| IntegrityError
| OverflowError
| IsADirectoryError.

Inductive result (A : Type) :=
| Ok (a : A)
| Raise (e : exn).
Arguments Ok {A} a.
Arguments Raise {A} e.

Definition bind {A B : Type} (c : result A) (k : A -> result B) : result B :=
  match c with
  | Ok a => k a
  | Raise e => Raise e
  end.

Notation "x <- c ;; k" := (bind c (fun x => k))
  (at level 61, c at next level, right associativity).

Inductive http_method := GET | POST.

Module Session.
(** The keys the application keeps in the signed cookie. *)
Record t := mk {
  admin_logged_in : bool;
  employee_logged_in : bool;
  employee_id : option Z
}.
End Session.

Record request := mkRequest {
  method : http_method;
  form : list (string * string);
  files : list (string * string);   (* field name, name of the uploaded file *)
  session : Session.t
}.

(** What the views read from the clock of the server. *)
Record clock := mkClock {
  today : Py.date;         (* [datetime.today().date()] *)
  now : Py.time;           (* [datetime.now()] *)
  utcnow : Z               (* [datetime.utcnow()], the column default *)
}.

(** Library functions the views call whose result the views only store. *)
Record env := mkEnv {
  generate_password_hash : string -> string;
  secure_filename : string -> string;
  random_phrase : string     (* the eight characters [random.choices] draws *)
}.

Fixpoint assoc (k : string) (l : list (string * string)) : option string :=
  match l with
  | [] => None
  | (k', v) :: rest => if k' =? k then Some v else assoc k rest
  end.

(** [request.form.get(k)] *)
Definition form_get (rq : request) (k : string) : option string :=
  assoc k (form rq).

(** [request.form[k]] *)
Definition form_item (rq : request) (k : string) : result string :=
  match assoc k (form rq) with
  | Some v => Ok v
  | None => Raise (BadRequestKeyError k)
  end.

(** [v == s] for a value that may be [None]. *)
Definition is_str (v : option string) (s : string) : bool :=
  match v with
  | Some x => x =? s
  | None => false
  end.

(** A flashed message and its category. *)
Definition flash := (string * string)%type.

(** The values a template is rendered with. *)
Module Ctx.
Record t := mk {
  emp : option Employee.t;
  employees : list Employee.t;
  attendance : list AttendanceRecord.t;
  notifications : list Notification.t;
  requests : list EmployeeRequest.t
}.
Definition empty : t := mk None [] [] [] [].
End Ctx.

Inductive response :=
| render_template (template : string) (ctx : Ctx.t)
| redirect (endpoint : string)
| http_error (code : Z).

(** A view maps the store to the committed store, the messages flashed and
    the response, or raises. *)
Definition view := database -> result (database * list flash * response).

(** The request boundary: an [HTTPException] becomes its own response, any
    other exception the 500 response; nothing was committed, nothing is
    flashed. *)
Definition status_of_exn (e : exn) : Z :=
  match e with
  | NotFound => 404
  | BadRequestKeyError _ => 400
  | _ => 500
  end.

Definition handle (v : view) (db : database)
  : database * list flash * response :=
  match v db with
  | Ok out => out
  | Raise e => (db, [], http_error (status_of_exn e))
  end.

(** The integers the store can hold in an INTEGER column. *)
Definition fits_int64 (n : Z) : bool :=
  ((- 2 ^ 63 <=? n) && (n <? 2 ^ 63))%Z.

(** [Model.query.get_or_404(pk)].  The key of a row is an INTEGER of the
    store, so a key that is found is one the driver can send; a key that
    no row has is answered 404 when the driver can send it, and with the
    driver's [OverflowError] when it is outside the 64 bits of an
    INTEGER. *)
Definition get_or_404 {A : Type} (key : A -> Z) (pk : option Z)
  (rows : list A) : result A :=
  match pk with
  | None => Raise NotFound
  | Some k =>
      match get key k rows with
      | Some r => Ok r
      | None => if fits_int64 k then Raise NotFound else Raise OverflowError
      end
  end.

(** ** Decorators *)

Definition admin_required (rq : request) (f : view) : view :=
  fun db =>
    if negb (Session.admin_logged_in (session rq)) then
      Ok (db, [("You must be logged in as admin", "warning")],
          redirect "admin_login")
    else f db.

Definition employee_required (rq : request) (f : view) : view :=
  fun db =>
    if negb (Session.employee_logged_in (session rq)) then
      Ok (db, [("You must be logged in as employee", "warning")],
          redirect "employee_login")
    else f db.

(** ** The views *)

Definition attendance_date_leb (a b : AttendanceRecord.t) : bool :=
  Py.date_leb (AttendanceRecord.date a) (AttendanceRecord.date b).

Definition notification_leb (a b : Notification.t) : bool :=
  (Notification.timestamp a <=? Notification.timestamp b)%Z.

Definition request_leb (a b : EmployeeRequest.t) : bool :=
  (EmployeeRequest.timestamp a <=? EmployeeRequest.timestamp b)%Z.

(** [(Notification.employee_id == e) | (Notification.employee_id == None)] *)
Definition addressed_to (e : Z) (n : Notification.t) : bool :=
  match Notification.employee_id n with
  | Some t => (t =? e)%Z
  | None => true
  end.

(** The notifications the dashboard lists for employee [e] (line 293). *)
Definition inbox (e : Z) (db : database) : list Notification.t :=
  order_by_desc notification_leb (filter (addressed_to e) (notifications db)).

(** The attendance history the dashboard lists for employee [e] (line 292). *)
Definition history (e : Z) (db : database) : list AttendanceRecord.t :=
  order_by_desc attendance_date_leb
    (filter (fun a => (AttendanceRecord.employee_id a =? e)%Z) (attendance db)).

(** [AttendanceRecord.query.filter_by(employee_id=e, date=d).first()] *)
Definition todays_record (e : Z) (d : Py.date) (db : database)
  : option AttendanceRecord.t :=
  find (fun a => (AttendanceRecord.employee_id a =? e)%Z
                 && Py.date_eqb (AttendanceRecord.date a) d)
       (attendance db).

(** The objects of a query result are those of the session: after a commit
    they show the committed row of the same primary key. *)
Definition reload (db : database) (a : AttendanceRecord.t)
  : AttendanceRecord.t :=
  match get AttendanceRecord.id (AttendanceRecord.id a) (attendance db) with
  | Some a' => a'
  | None => a
  end.

(** Lines 297 to 317: the POST part of the dashboard, the store it commits
    and the message it flashes. *)
Definition check_in_out (c : clock) (rq : request) (emp : Employee.t)
  (db : database) : database * list flash :=
  let action := form_get rq "action" in
  let record := todays_record (Employee.id emp) (today c) db in
  if is_str action "check_in" then
    match record with
    | None =>
        let new_record :=
          AttendanceRecord.mk
            (next_id AttendanceRecord.id (attendance db))
            (Employee.id emp) (today c) "Present"
            (Some (Py.strftime_HMS (now c))) None in
        (with_attendance (attendance db ++ [new_record]) db,
         [("Checked in successfully!", "success")])
    | Some _ => (db, [("Already checked in today!", "warning")])
    end
  else if is_str action "check_out" then
    match record with
    | Some r =>
        if negb (Py.truthy_opt (AttendanceRecord.check_out r)) then
          (with_attendance
             (update AttendanceRecord.id (AttendanceRecord.id r)
                (AttendanceRecord.set_check_out (Py.strftime_HMS (now c)))
                (attendance db)) db,
           [("Checked out successfully!", "success")])
        else (db, [("Cannot check out before checking in!", "danger")])
    | None => (db, [("Cannot check out before checking in!", "danger")])
    end
  else (db, []).

Definition employee_dashboard (c : clock) (rq : request) : view :=
  employee_required rq (fun db =>
    emp <- get_or_404 Employee.id (Session.employee_id (session rq))
             (employees db) ;;
    let attendance := history (Employee.id emp) db in
    let notifications := inbox (Employee.id emp) db in
    let requests :=
      order_by_desc request_leb
        (filter (fun r => (EmployeeRequest.employee_id r =? Employee.id emp)%Z)
           (requests db)) in
    let '(db', flashes) :=
      match method rq with
      | POST => check_in_out c rq emp db
      | GET => (db, [])
      end in
    Ok (db', flashes,
        render_template "employee_dashboard.html"
          (Ctx.mk (Some emp) [] (map (reload db') attendance)
             notifications requests))).

(** A new request row: the store fills in the key and the column defaults
    (status ["Pending"], timestamp [utcnow]). *)
Definition new_request (c : clock) (e : Z) (request_type message : string)
  (db : database) : EmployeeRequest.t :=
  EmployeeRequest.mk (next_id EmployeeRequest.id (requests db)) e
    request_type message "Pending" (utcnow c).

Definition add_request (r : EmployeeRequest.t) (db : database) : database :=
  with_requests (requests db ++ [r]) db.

Definition employee_create_request (c : clock) (rq : request) : view :=
  employee_required rq (fun db =>
    emp <- get_or_404 Employee.id (Session.employee_id (session rq))
             (employees db) ;;
    match method rq with
    | POST =>
        let request_type := form_get rq "request_type" in
        let message := form_get rq "message" in
        if negb (Py.truthy_opt request_type) || negb (Py.truthy_opt message)
        then Ok (db, [("All fields are required!", "danger")],
                 redirect "employee_create_request")
        else
          match request_type, message with
          | Some t, Some m =>
              Ok (add_request (new_request c (Employee.id emp) t m db) db,
                  [("Request submitted successfully!", "success")],
                  redirect "employee_dashboard")
          | _, _ => Raise IntegrityError   (* not reached: both are truthy *)
          end
    | GET => Ok (db, [], render_template "employee_create_request.html"
                           Ctx.empty)
    end).

Definition employee_request (c : clock) (rq : request) : view :=
  employee_required rq (fun db =>
    emp <- get_or_404 Employee.id (Session.employee_id (session rq))
             (employees db) ;;
    match method rq with
    | POST =>
        request_type <- form_item rq "request_type" ;;
        message <- form_item rq "message" ;;
        Ok (add_request
              (new_request c (Employee.id emp) request_type message db) db,
            [("Request submitted successfully!", "success")],
            redirect "employee_dashboard")
    | GET => Ok (db, [], render_template "employee_request.html"
                           (Ctx.mk (Some emp) [] [] [] []))
    end).

Definition update_employee_request_status (rq : request) (request_id : Z)
  (new_status : string) : view :=
  admin_required rq (fun db =>
    req <- get_or_404 EmployeeRequest.id (Some request_id) (requests db) ;;
    if negb (existsb (String.eqb new_status) ["Approved"; "Declined"]) then
      Ok (db, [("Invalid status", "danger")],
          redirect "admin_employee_requests")
    else
      Ok (with_requests
            (update EmployeeRequest.id (EmployeeRequest.id req)
               (EmployeeRequest.set_status new_status) (requests db)) db,
          [("Request " ++ Py.lower new_status ++ " successfully!", "success")],
          redirect "admin_employee_requests")).

Definition add_notification (c : clock) (message : string)
  (target : option Z) (db : database) : database :=
  with_notifications
    (notifications db
     ++ [Notification.mk (next_id Notification.id (notifications db))
           message target (utcnow c)]) db.

Definition admin_notifications (c : clock) (rq : request) : view :=
  admin_required rq (fun db =>
    let employees := employees db in
    match method rq with
    | POST =>
        message <- form_item rq "message" ;;
        let recipient_type := form_get rq "recipient" in
        let selected_emp_id := form_get rq "employee_id" in
        if negb (Py.truthy message) then
          Ok (db, [("Message cannot be empty!", "danger")],
              redirect "admin_notifications")
        else if is_str recipient_type "all" then
          Ok (add_notification c message None db,
              [("Notification sent to all employees!", "success")],
              redirect "admin_notifications")
        else if is_str recipient_type "selected"
                && Py.truthy_opt selected_emp_id then
          match selected_emp_id with
          | Some s =>
              match Py.int s with
              | None => Raise ValueError
              | Some n =>
                  if fits_int64 n then
                    Ok (add_notification c message (Some n) db,
                        [("Notification sent to selected employee!",
                          "success")],
                        redirect "admin_notifications")
                  else Raise OverflowError
              end
          | None => Raise ValueError   (* not reached: the value is truthy *)
          end
        else
          Ok (db, [("Please select a valid employee!", "danger")],
              redirect "admin_notifications")
    | GET =>
        Ok (db, [],
            render_template "admin_notifications.html"
              (Ctx.mk None employees []
                 (order_by_desc notification_leb (notifications db)) []))
    end).

(** The unique constraints of the employee table: no other row has the
    code or the e-mail address of [e]. *)
Definition unique_ok (e : Employee.t) (rows : list Employee.t) : bool :=
  forallb (fun o =>
             (Employee.id o =? Employee.id e)%Z
             || (negb (Employee.emp_id o =? Employee.emp_id e)
                 && match Employee.email o, Employee.email e with
                    | Some a, Some b => negb (a =? b)
                    | _, _ => true
                    end)) rows.

(** The image upload of the employee forms: when a file with a name was
    sent, it is saved under [secure_filename] of its name, which is the
    name the row gets.  [image_file.save] opens the path in the upload
    folder for writing: when the secured name is empty the path is the
    folder itself and [open] raises. *)
Definition uploaded_image (e : env) (rq : request) : result (option string) :=
  match assoc "image" (files rq) with
  | Some f =>
      if Py.truthy f then
        let filename := secure_filename e f in
        if Py.truthy filename then Ok (Some filename)
        else Raise IsADirectoryError
      else Ok None
  | None => Ok None
  end.

Definition add_employee (e : env) (rq : request) : view :=
  admin_required rq (fun db =>
    match method rq with
    | GET => Ok (db, [], render_template "add_employee.html" Ctx.empty)
    | POST =>
        let name := form_get rq "name" in
        let emp_id_str := form_get rq "emp_id" in
        let gender := form_get rq "gender" in
        let address := form_get rq "address" in
        let mobile_number := form_get rq "mobile_number" in
        let date_of_birth_str := form_get rq "date_of_birth" in
        let email := form_get rq "email" in
        let password := form_get rq "password" in
        (* the date of birth, or the early return of the except clause *)
        let parsed :=
          match date_of_birth_str with
          | Some s =>
              if Py.truthy s then
                match Py.strptime_ymd s with
                | Some d => Some (Some d)
                | None => None
                end
              else Some None
          | None => Some None
          end in
        match parsed with
        | None =>
            Ok (db, [("Invalid date format for Date of Birth", "danger")],
                redirect "add_employee")
        | Some date_of_birth =>
            filename <- uploaded_image e rq ;;
            match emp_id_str with
            | None => Raise AttributeError
            | Some emp_id_s =>
            if negb (Py.isdigit emp_id_s) then
              Ok (db, [("Employee ID must be numeric", "danger")],
                  redirect "add_employee")
            else
            match mobile_number with
            | None => Raise AttributeError
            | Some mobile =>
            if negb (Py.isdigit mobile) then
              Ok (db, [("Mobile Number must be numeric", "danger")],
                  redirect "add_employee")
            else
            match password with
            | None => Raise AttributeError
            | Some pw =>
            match name with
            | None => Raise IntegrityError
            | Some nm =>
                let new_emp :=
                  Employee.mk (next_id Employee.id (employees db)) nm
                    emp_id_s filename gender address (Some mobile)
                    date_of_birth email (generate_password_hash e pw)
                    (Some (random_phrase e)) in
                if unique_ok new_emp (employees db) then
                  Ok (with_employees (employees db ++ [new_emp]) db,
                      [("Employee added! Unique Phrase: " ++ random_phrase e,
                        "success")],
                      redirect "admin_employees")
                else Raise IntegrityError
            end end end end
        end
    end).

Definition edit_employee (e : env) (rq : request) (emp_id : Z) : view :=
  admin_required rq (fun db =>
    emp <- get_or_404 Employee.id (Some emp_id) (employees db) ;;
    match method rq with
    | GET => Ok (db, [], render_template "edit_employee.html"
                           (Ctx.mk (Some emp) [] [] [] []))
    | POST =>
        name <- form_item rq "name" ;;
        code <- form_item rq "emp_id" ;;
        gender <- form_item rq "gender" ;;
        address <- form_item rq "address" ;;
        mobile_number <- form_item rq "mobile_number" ;;
        email <- form_item rq "email" ;;
        dob <- form_item rq "date_of_birth" ;;
        date_of_birth <-
          (if Py.truthy dob then
             match Py.strptime_ymd dob with
             | Some d => Ok (Some d)
             | None => Raise ValueError
             end
           else Ok None) ;;
        let password_hash :=
          match form_get rq "password" with
          | Some pw => if Py.truthy pw then generate_password_hash e pw
                       else Employee.password_hash emp
          | None => Employee.password_hash emp
          end in
        uploaded <- uploaded_image e rq ;;
        let image :=
          match uploaded with
          | Some f => Some f
          | None => Employee.image emp
          end in
        let unique_phrase :=
          match form_get rq "unique_phrase" with
          | Some p => if Py.truthy p then Some p else Employee.unique_phrase emp
          | None => Employee.unique_phrase emp
          end in
        let emp' :=
          Employee.mk (Employee.id emp) name code image (Some gender)
            (Some address) (Some mobile_number) date_of_birth (Some email)
            password_hash unique_phrase in
        if unique_ok emp' (employees db) then
          Ok (with_employees
                (update Employee.id (Employee.id emp) (fun _ => emp')
                   (employees db)) db,
              [("Employee updated successfully!", "success")],
              redirect "admin_employees")
        else Raise IntegrityError
    end).

(** Lines 349 to 378: the employee of the session edits the own row; the
    code and the recovery phrase are not in the form. *)
Definition edit_employee_profile (e : env) (rq : request) : view :=
  employee_required rq (fun db =>
    emp <- get_or_404 Employee.id (Session.employee_id (session rq))
             (employees db) ;;
    match method rq with
    | GET => Ok (db, [], render_template "edit_employee_profile.html"
                           (Ctx.mk (Some emp) [] [] [] []))
    | POST =>
        name <- form_item rq "name" ;;
        gender <- form_item rq "gender" ;;
        address <- form_item rq "address" ;;
        mobile_number <- form_item rq "mobile_number" ;;
        email <- form_item rq "email" ;;
        dob <- form_item rq "date_of_birth" ;;
        date_of_birth <-
          (if Py.truthy dob then
             match Py.strptime_ymd dob with
             | Some d => Ok (Some d)
             | None => Raise ValueError
             end
           else Ok None) ;;
        let password_hash :=
          match form_get rq "password" with
          | Some pw => if Py.truthy pw then generate_password_hash e pw
                       else Employee.password_hash emp
          | None => Employee.password_hash emp
          end in
        uploaded <- uploaded_image e rq ;;
        let image :=
          match uploaded with
          | Some f => Some f
          | None => Employee.image emp
          end in
        let emp' :=
          Employee.mk (Employee.id emp) name (Employee.emp_id emp) image
            (Some gender) (Some address) (Some mobile_number) date_of_birth
            (Some email) password_hash (Employee.unique_phrase emp) in
        if unique_ok emp' (employees db) then
          Ok (with_employees
                (update Employee.id (Employee.id emp) (fun _ => emp')
                   (employees db)) db,
              [("Profile updated successfully!", "success")],
              redirect "employee_dashboard")
        else Raise IntegrityError
    end).

(** Lines 109 to 112, 135 to 139 and 472 to 474: pages that only read. *)
Definition index : view :=
  fun db =>
    Ok (db, [], render_template "index.html"
                  (Ctx.mk None (employees db) [] [] [])).

Definition admin_employees (rq : request) : view :=
  admin_required rq (fun db =>
    Ok (db, [], render_template "admin_employees.html"
                  (Ctx.mk None (employees db) [] [] []))).

Definition test_hub : view :=
  fun db => Ok (db, [], render_template "test_hub.html" Ctx.empty).

(** Lines 448 to 453: the requests joined with the employees, so those
    whose employee is in the table, the newest first. *)
Definition admin_employee_requests (rq : request) : view :=
  admin_required rq (fun db =>
    let requests :=
      order_by_desc request_leb
        (filter (fun r =>
                   existsb (fun o => (Employee.id o
                                      =? EmployeeRequest.employee_id r)%Z)
                     (employees db))
           (requests db)) in
    Ok (db, [], render_template "admin_employee_requests.html"
                  (Ctx.mk None [] [] [] requests))).

(** Lines 477 to 483. *)
Definition calculate_rating (emp_id : Z) (db : database) : Py.number :=
  let attendance :=
    filter (fun a => (AttendanceRecord.employee_id a =? emp_id)%Z)
      (attendance db) in
  let total_days := Z.of_nat (List.length attendance) in
  let present_days :=
    Z.of_nat
      (List.length
         (filter (fun a => AttendanceRecord.status a =? "Present")
            attendance)) in
  if (total_days =? 0)%Z then Py.Int 0
  else Py.Float (Py.round2 (Py.fmul (Py.truediv present_days total_days) 10)).

(** What [inject_ratings] adds to the context of every template. *)
Definition inject_ratings (s : Session.t) (db : database)
  : option Py.number :=
  match Session.employee_id s with
  | Some emp_id => Some (calculate_rating emp_id db)
  | None => None
  end.

(** ** The application: routes and runs

    The routes that read or write the tables with the session as it is.
    The routes that open and close a session ([admin_login],
    [employee_login], the two logouts) and [employee_forgot_password]
    write no table and are modelled further down; [delete_employee] and
    [admin_edit_profile] are not modelled. *)

Inductive url :=
| url_employee_dashboard
| url_employee_create_request
| url_employee_request
| url_update_employee_request_status (request_id : Z) (new_status : string)
| url_admin_notifications
| url_add_employee
| url_edit_employee (emp_id : Z)
| url_edit_employee_profile
| url_index
| url_admin_employees
| url_admin_employee_requests
| url_test_hub.

(** The [methods] of the route; GET where the route names none. *)
Definition methods (u : url) : list http_method :=
  match u with
  | url_update_employee_request_status _ _ => [POST]
  | url_index | url_admin_employees | url_admin_employee_requests
  | url_test_hub => [GET]
  | _ => [GET; POST]
  end.

Fixpoint has_slash (s : string) : bool :=
  match s with
  | EmptyString => false
  | String c rest => (c =? "/")%char || has_slash rest
  end.

(** The converters of the rule: [<int:...>] matches digits only, so no
    negative number, and [<string:...>] a text that is not empty and has
    no slash.  A path no rule matches is answered 404. *)
Definition routable (u : url) : bool :=
  match u with
  | url_update_employee_request_status request_id new_status =>
      (0 <=? request_id)%Z && Py.truthy new_status
      && negb (has_slash new_status)
  | url_edit_employee emp_id => (0 <=? emp_id)%Z
  | _ => true
  end.

Definition method_eqb (a b : http_method) : bool :=
  match a, b with
  | GET, GET | POST, POST => true
  | _, _ => false
  end.


(** One inbound call: the route, the request, and what the server reads
    from its clock and its libraries while it serves the call. *)
Record call := mkCall {
  call_env : env;
  call_clock : clock;
  call_url : url;
  call_request : request
}.

Definition dispatch (k : call) : view :=
  let e := call_env k in
  let c := call_clock k in
  let rq := call_request k in
  match call_url k with
  | url_employee_dashboard => employee_dashboard c rq
  | url_employee_create_request => employee_create_request c rq
  | url_employee_request => employee_request c rq
  | url_update_employee_request_status request_id new_status =>
      update_employee_request_status rq request_id new_status
  | url_admin_notifications => admin_notifications c rq
  | url_add_employee => add_employee e rq
  | url_edit_employee emp_id => edit_employee e rq emp_id
  | url_edit_employee_profile => edit_employee_profile e rq
  | url_index => index
  | url_admin_employees => admin_employees rq
  | url_admin_employee_requests => admin_employee_requests rq
  | url_test_hub => test_hub
  end.

(** The router and the request boundary: 404 for a path no rule matches,
    405 for a method the rule does not accept, and otherwise what the view
    answers. *)
Definition serve (k : call) (db : database)
  : database * list flash * response :=
  if routable (call_url k) then
    if existsb (method_eqb (method (call_request k))) (methods (call_url k))
    then handle (dispatch k) db
    else (db, [], http_error 405)
  else (db, [], http_error 404).

(** The store a call leaves. *)
Definition step (k : call) (db : database) : database :=
  fst (fst (serve k db)).

(** The store a sequence of calls leaves, one call served after the
    other. *)
Definition run (ks : list call) (db : database) : database :=
  fold_left (fun d k => step k d) ks db.

(** * The vocabulary of the statements *)

(** Keys go down along the list. *)
Definition descending {A : Type} (key : A -> Z) (l : list A) : Prop :=
  StronglySorted (fun a b => (key b <= key a)%Z) l.

(** The local variables of [calculate_rating]. *)
Definition records_of (e : Z) (db : database) : list AttendanceRecord.t :=
  filter (fun a => (AttendanceRecord.employee_id a =? e)%Z) (attendance db).

Definition total_days (e : Z) (db : database) : Z :=
  Z.of_nat (List.length (records_of e db)).

Definition present_days (e : Z) (db : database) : Z :=
  Z.of_nat
    (List.length
       (filter (fun a => AttendanceRecord.status a =? "Present")
          (records_of e db))).

(** The float the rating is for [p] present days out of [t]. *)
Definition rating_of_counts (p t : Z) : Q :=
  Py.round2 (Py.fmul (Py.truediv p t) 10).

(** Half a unit in the last place of the floats below 16. *)
Definition half_ulp : Q := 1 # 562949953421312.

(** The record is the one of employee [e] for day [d]. *)
Definition is_for (e : Z) (d : Py.date) (a : AttendanceRecord.t) : bool :=
  (AttendanceRecord.employee_id a =? e)%Z
  && Py.date_eqb (AttendanceRecord.date a) d.

(** The number of records of employee [e] for day [d]. *)
Definition records_for (e : Z) (d : Py.date) (db : database) : nat :=
  List.length (filter (is_for e d) (attendance db)).

(** What the ledger keeps: primary keys are distinct, an employee has at
    most one record a day, and every record has a check-in time. *)
Record ledger_ok (db : database) : Prop := {
  keys_distinct : NoDup (map AttendanceRecord.id (attendance db));
  one_per_day : forall e d, (records_for e d db <= 1)%nat;
  checked_in : forall r, In r (attendance db) ->
                 Py.truthy_opt (AttendanceRecord.check_in r) = true
}.

(** The record a check-in creates. *)
Definition checked_in_record (c : clock) (e : Z) (db : database)
  : AttendanceRecord.t :=
  AttendanceRecord.mk (next_id AttendanceRecord.id (attendance db)) e
    (today c) "Present" (Some (Py.strftime_HMS (now c))) None.

(** The parts of what a served call yields. *)
Definition committed (out : database * list flash * response) : database :=
  fst (fst out).
Definition flashed (out : database * list flash * response) : list flash :=
  snd (fst out).
Definition responded (out : database * list flash * response) : response :=
  snd out.

(** The request is a POST of the dashboard form with the given action, sent
    with the session of employee [emp]. *)
Definition posts_action (rq : request) (emp : Employee.t) (action : string)
  (db : database) : Prop :=
  method rq = POST
  /\ Session.employee_logged_in (session rq) = true
  /\ get_or_404 Employee.id (Session.employee_id (session rq)) (employees db)
     = Ok emp
  /\ form_get rq "action" = Some action.

(** Employee [e] has a record for day [d]. *)
Definition has_record (e : Z) (d : Py.date) (db : database) : Prop :=
  exists r, In r (attendance db)
            /\ AttendanceRecord.employee_id r = e
            /\ AttendanceRecord.date r = d.

(** The message of the only refusal a check-out has. *)
Definition cannot_check_out : list flash :=
  [("Cannot check out before checking in!", "danger")].

Module Day.

Definition emp : Employee.t :=
  Employee.mk 1 "Asha" "1001" None None None (Some "5550100") None
    (Some "asha@example.org") "pbkdf2:sha256:1$salt$hash" (Some "Xy12Zw34").

Definition day : Py.date := Py.mkDate 2024 1 10.

Definition at_0900 : clock := mkClock day (Py.mkTime 9 0 0) 1704877200.
Definition at_1730 : clock := mkClock day (Py.mkTime 17 30 0) 1704907800.
Definition at_1800 : clock := mkClock day (Py.mkTime 18 0 0) 1704909600.

Definition employee_session : Session.t := Session.mk false true (Some 1).
Definition admin_session : Session.t := Session.mk true false None.

Definition post (s : Session.t) (fields : list (string * string)) : request :=
  mkRequest POST fields [] s.

Definition check_in : request := post employee_session [("action", "check_in")].
Definition check_out : request :=
  post employee_session [("action", "check_out")].

(** The store with the employee and nothing else. *)
Definition morning : database := with_employees [emp] empty_db.

Definition record_in : AttendanceRecord.t :=
  AttendanceRecord.mk 1 1 day "Present" (Some "09:00:00") None.
Definition record_out : AttendanceRecord.t :=
  AttendanceRecord.mk 1 1 day "Present" (Some "09:00:00") (Some "17:30:00").

Definition noon : database := with_attendance [record_in] morning.
Definition evening : database := with_attendance [record_out] morning.

(** A request of the employee, and the admin's answers to it. *)
Definition leave : EmployeeRequest.t :=
  EmployeeRequest.mk 1 1 "Leave" "Two days off" "Pending" 1704877200.

Definition board : database := with_requests [leave] morning.

Definition libraries : env :=
  mkEnv (fun pw => "pbkdf2:sha256:1$salt$" ++ pw) (fun f => f) "Qw3rTy7u".

Definition resolve (decision : string) : call :=
  mkCall libraries at_1800 (url_update_employee_request_status 1 decision)
    (post admin_session []).

End Day.

(** The ledger failures the specification names. *)
Inductive ledger_failure := AlreadyCheckedIn | NotCheckedIn | AlreadyCheckedOut.

(** The request comes with the session of employee [emp]. *)
Definition sent_by (rq : request) (emp : Employee.t) (db : database) : Prop :=
  Session.employee_logged_in (session rq) = true
  /\ get_or_404 Employee.id (Session.employee_id (session rq)) (employees db)
     = Ok emp.

(** The request has been decided. *)
Definition resolved (r : EmployeeRequest.t) : Prop :=
  EmployeeRequest.status r = "Approved"
  \/ EmployeeRequest.status r = "Declined".

(** The same request, whatever its status. *)
Definition same_request (r r' : EmployeeRequest.t) : Prop :=
  EmployeeRequest.id r' = EmployeeRequest.id r
  /\ EmployeeRequest.employee_id r' = EmployeeRequest.employee_id r
  /\ EmployeeRequest.request_type r' = EmployeeRequest.request_type r
  /\ EmployeeRequest.message r' = EmployeeRequest.message r
  /\ EmployeeRequest.timestamp r' = EmployeeRequest.timestamp r.

(** The answer is a flashed message and a redirect. *)
Definition recovered (out : database * list flash * response) : Prop :=
  flashed out <> [] /\ exists endpoint, responded out = redirect endpoint.

(** The rational a primitive float denotes, when it is finite. *)
Definition float_value (f : PrimFloat.float) : option Q :=
  match Prim2SF f with
  | S754_zero _ => Some 0%Q
  | S754_finite s m e =>
      Some (if s then Qopp (Py.dyadic (Zpos m) e) else Py.dyadic (Zpos m) e)
  | _ => None
  end.

Definition float_of_Z (n : Z) : PrimFloat.float :=
  PrimFloat.of_uint63 (Uint63.of_Z n).

(** [(p / t) * 10] on the machine and in the model. *)
Definition same_product (p t : Z) : bool :=
  match float_value
          (PrimFloat.mul (PrimFloat.div (float_of_Z p) (float_of_Z t))
             (float_of_Z 10)) with
  | Some q => Qeq_bool q (Py.fmul (Py.truediv p t) 10)
  | None => false
  end.

(** The pairs [(p, t)] with [0 <= p <= t] and [1 <= t <= n]. *)
Definition counts_upto (n : nat) : list (Z * Z) :=
  flat_map (fun t => map (fun p => (Z.of_nat p, Z.of_nat t)) (seq 0 (S t)))
    (seq 1 n).

(** The same attendance record, whatever its check-out time. *)
Definition same_record (r r' : AttendanceRecord.t) : Prop :=
  AttendanceRecord.id r' = AttendanceRecord.id r
  /\ AttendanceRecord.employee_id r' = AttendanceRecord.employee_id r
  /\ AttendanceRecord.date r' = AttendanceRecord.date r
  /\ AttendanceRecord.status r' = AttendanceRecord.status r
  /\ AttendanceRecord.check_in r' = AttendanceRecord.check_in r.

(** The admin posts the notification form with a message that is not
    empty. *)
Definition posts_notification (rq : request) (message : string) : Prop :=
  Session.admin_logged_in (session rq) = true
  /\ method rq = POST
  /\ form_get rq "message" = Some message
  /\ Py.truthy message = true.


(** Primary keys are distinct in every table, and so are the codes of the
    employees. *)
Record keys_ok (db : database) : Prop := {
  employee_keys : NoDup (map Employee.id (employees db));
  employee_codes : NoDup (map Employee.emp_id (employees db));
  attendance_keys : NoDup (map AttendanceRecord.id (attendance db));
  notification_keys : NoDup (map Notification.id (notifications db));
  request_keys : NoDup (map EmployeeRequest.id (requests db))
}.

(** * Logging in, profiles and provisioning *)

Module Admin.
Record t := mk {
  id : Z;
  username : string;
  password_hash : string
}.
End Admin.

(** [session['employee_logged_in'] = True; session['employee_id'] = pk] *)
Definition log_employee_in (pk : Z) (s : Session.t) : Session.t :=
  Session.mk (Session.admin_logged_in s) true (Some pk).

(** [session.pop('employee_logged_in', None); session.pop('employee_id',
    None)] *)
Definition log_employee_out (s : Session.t) : Session.t :=
  Session.mk (Session.admin_logged_in s) false None.

(** [session['admin_logged_in'] = True] *)
Definition log_admin_in (s : Session.t) : Session.t :=
  Session.mk true (Session.employee_logged_in s) (Session.employee_id s).

(** [session.pop('admin_logged_in', None)] *)
Definition log_admin_out (s : Session.t) : Session.t :=
  Session.mk false (Session.employee_logged_in s) (Session.employee_id s).

(** A view of the session: the session it leaves, the messages flashed and
    the response.  These views write no table. *)
Definition session_answer := (Session.t * list flash * response)%type.

(** The routes declared without [methods] answer GET only. *)
Definition get_only (rq : request) (a : result session_answer)
  : result session_answer :=
  match method rq with
  | GET => a
  | POST => Ok (session rq, [], http_error 405)
  end.

Section Passwords.
(** [werkzeug.security.check_password_hash] *)
Variable check_password_hash : string -> string -> bool.

(** [Employee.check_password] *)
Definition employee_check_password (emp : Employee.t) (password : string)
  : bool :=
  check_password_hash (Employee.password_hash emp) password.

(** [Admin.check_password] *)
Definition admin_check_password (a : Admin.t) (password : string) : bool :=
  check_password_hash (Admin.password_hash a) password.

(** Lines 251 to 263. *)
Definition employee_login (rq : request) (db : database)
  : result session_answer :=
  match method rq with
  | POST =>
      emp_id <- form_item rq "emp_id" ;;
      password <- form_item rq "password" ;;
      let emp := find (fun o => Employee.emp_id o =? emp_id) (employees db) in
      match emp with
      | Some emp =>
          if employee_check_password emp password then
            Ok (log_employee_in (Employee.id emp) (session rq), [],
                redirect "employee_dashboard")
          else
            Ok (session rq, [("Invalid Employee ID or password", "danger")],
                render_template "employee_login.html" Ctx.empty)
      | None =>
          Ok (session rq, [("Invalid Employee ID or password", "danger")],
              render_template "employee_login.html" Ctx.empty)
      end
  | GET => Ok (session rq, [], render_template "employee_login.html" Ctx.empty)
  end.

(** Lines 115 to 126. *)
Definition admin_login (rq : request) (admins : list Admin.t)
  : result session_answer :=
  match method rq with
  | POST =>
      username <- form_item rq "username" ;;
      password <- form_item rq "password" ;;
      let admin := find (fun a => Admin.username a =? username) admins in
      match admin with
      | Some a =>
          if admin_check_password a password then
            Ok (log_admin_in (session rq), [], redirect "admin_employees")
          else
            Ok (session rq, [("Invalid username or password", "danger")],
                render_template "admin_login.html" Ctx.empty)
      | None =>
          Ok (session rq, [("Invalid username or password", "danger")],
              render_template "admin_login.html" Ctx.empty)
      end
  | GET => Ok (session rq, [], render_template "admin_login.html" Ctx.empty)
  end.

End Passwords.

(** Lines 265 to 270. *)
Definition employee_logout (rq : request) : result session_answer :=
  get_only rq
    (Ok (log_employee_out (session rq),
         [("Logged out successfully", "success")],
         redirect "employee_login")).

(** Lines 128 to 132. *)
Definition admin_logout (rq : request) : result session_answer :=
  get_only rq
    (Ok (log_admin_out (session rq),
         [("Logged out successfully", "success")],
         redirect "admin_login")).

(** Lines 381 to 393: the view writes neither a table nor the session. *)
Definition employee_forgot_password (rq : request) (db : database)
  : result (list flash * response) :=
  match method rq with
  | POST =>
      emp_id <- form_item rq "emp_id" ;;
      email <- form_item rq "email" ;;
      unique_phrase <- form_item rq "unique_phrase" ;;
      let emp :=
        find (fun o => (Employee.emp_id o =? emp_id)
                       && is_str (Employee.email o) email
                       && is_str (Employee.unique_phrase o) unique_phrase)
          (employees db) in
      match emp with
      | Some emp =>
          Ok ([("Your password is: " ++ Employee.password_hash emp,
                "success")],
              render_template "employee_forgot_password.html" Ctx.empty)
      | None =>
          Ok ([("Invalid credentials or unique phrase", "danger")],
              render_template "employee_forgot_password.html" Ctx.empty)
      end
  | GET => Ok ([], render_template "employee_forgot_password.html" Ctx.empty)
  end.

(** What the provisioning commands print: that an admin of the user name
    is there already, or that the admin has been created. *)
Inductive printed :=
| already_exists (username : string)
| created (username : string).

(** Lines 495 to 515, the [create-admin] command: the table it leaves and
    the line it prints. *)
Definition create_admin (e : env) (username password : string)
  (admins : list Admin.t) : list Admin.t * printed :=
  let hashed_pw := generate_password_hash e password in
  match find (fun a => Admin.username a =? username) admins with
  | Some _ => (admins, already_exists username)
  | None =>
      ((admins ++ [Admin.mk (next_id Admin.id admins) username hashed_pw])%list,
       created username)
  end.

(** [src/create_admins.py]: the script adds admin1 without looking, so the
    unique constraint on the user name answers an admin1 that is there. *)
Definition create_admins (e : env) (admins : list Admin.t)
  : result (list Admin.t * printed) :=
  let admin1 :=
    Admin.mk (next_id Admin.id admins) "admin1"
      (generate_password_hash e "password123") in
  if existsb (fun a => Admin.username a =? "admin1") admins then
    Raise IntegrityError
  else Ok ((admins ++ [admin1])%list, created "admin1").

(** What the decorators answer to a session that is not logged in. *)
Definition employee_refused (db : database)
  : database * list flash * response :=
  (db, [("You must be logged in as employee", "warning")],
   redirect "employee_login").

Definition admin_refused (db : database) : database * list flash * response :=
  (db, [("You must be logged in as admin", "warning")],
   redirect "admin_login").

(** Requests, sessions and stores the statements are tried on. *)
Module Demo.

(** A password checks when the hash is the one [Day.libraries] gives it. *)
Definition check (hash password : string) : bool :=
  hash =? generate_password_hash Day.libraries password.

Definition anonymous : Session.t := Session.mk false false None.

Definition get (s : Session.t) : request := mkRequest GET [] [] s.

Definition call_of (u : url) (rq : request) : call :=
  mkCall Day.libraries Day.at_0900 u rq.

Definition employee_form : list (string * string) :=
  [("name", "Bo"); ("emp_id", "1002"); ("gender", "M");
   ("address", "3 Mill Lane"); ("mobile_number", "5550101");
   ("email", "bo@example.org"); ("date_of_birth", "1990-01-10");
   ("password", "secret")].

Definition add_bo : request := Day.post Day.admin_session employee_form.

Definition rename_asha : request :=
  Day.post Day.admin_session
    [("name", "Asha K"); ("emp_id", "2001"); ("gender", "F");
     ("address", "12 Hill Road"); ("mobile_number", "5550100");
     ("email", "asha@example.org"); ("date_of_birth", "")].

Definition login (code password : string) : request :=
  Day.post anonymous [("emp_id", code); ("password", password)].

Definition admin_login_form (username password : string) : request :=
  Day.post anonymous [("username", username); ("password", password)].

Definition file_leave : request :=
  Day.post Day.employee_session
    [("request_type", "Leave"); ("message", "Two days off")].

Definition notify (fields : list (string * string)) : request :=
  Day.post Day.admin_session (("message", "Meeting at noon") :: fields).

Definition bad_profile : request :=
  Day.post Day.employee_session
    [("name", "Asha"); ("gender", "F"); ("address", "12 Hill Road");
     ("mobile_number", "5550100"); ("email", "asha@example.org");
     ("date_of_birth", "10/01/1990")].

Definition forgot : request :=
  Day.post anonymous
    [("emp_id", "1001"); ("email", "asha@example.org");
     ("unique_phrase", "Xy12Zw34")].

Definition new_address : request :=
  Day.post Day.employee_session
    [("name", "Asha"); ("gender", "F"); ("address", "7 Lake View");
     ("mobile_number", "5550100"); ("email", "asha@example.org");
     ("date_of_birth", "1990-01-10")].

(** A second employee, who has checked in already. *)
Definition bo : Employee.t :=
  Employee.mk 2 "Bo" "1002" None None None (Some "5550101") None
    (Some "bo@example.org") "pbkdf2:sha256:1$salt$secret" (Some "Qw3rTy7u").

Definition bo_record : AttendanceRecord.t :=
  AttendanceRecord.mk 1 2 Day.day "Present" (Some "08:45:10") None.

Definition two : database := mkDb [Day.emp; bo] [bo_record] [] [].

(** An upload whose secured name is empty. *)
Definition dots : request :=
  mkRequest POST employee_form [("image", "...")] Day.admin_session.

Definition edit_address : call :=
  call_of url_edit_employee_profile new_address.

Definition strict : env :=
  mkEnv (generate_password_hash Day.libraries)
    (fun f => if f =? "..." then "" else f) "Qw3rTy7u".

End Demo.

(** * Properties *)

(** ** Rounding *)

Section Rounding.
Local Open Scope Z_scope.

Lemma round_half_even_exact (N b : Z) :
  0 < b -> Py.round_half_even (N * b) b = N.
Proof.
  intros Hb. unfold Py.round_half_even.
  rewrite Z.div_mul, Z.mod_mul by lia.
  destruct (2 * 0 <? b) eqn:E; [reflexivity|].
  apply Z.ltb_ge in E. lia.
Qed.

Lemma round_half_even_le (a b N : Z) :
  0 < b -> a <= N * b -> Py.round_half_even a b <= N.
Proof.
  intros Hb Ha. unfold Py.round_half_even.
  pose proof (Z.div_mod a b ltac:(lia)) as Hdm.
  pose proof (Z.mod_pos_bound a b Hb) as Hr.
  assert (Hq : a / b <= N) by (apply Z.div_le_upper_bound; lia).
  destruct (Z.eq_dec (a / b) N) as [Heq|Hne].
  - assert (a mod b = 0) by nia.
    replace (2 * (a mod b) <? b) with true by (symmetry; apply Z.ltb_lt; lia).
    lia.
  - repeat match goal with |- context [if ?c then _ else _] => destruct c end;
      lia.
Qed.

Lemma round_half_even_nonneg (a b : Z) :
  0 < b -> 0 <= a -> 0 <= Py.round_half_even a b.
Proof.
  intros Hb Ha. unfold Py.round_half_even.
  assert (0 <= a / b) by (apply Z.div_pos; lia).
  repeat match goal with |- context [if ?c then _ else _] => destruct c end;
    lia.
Qed.

Lemma ilog2_le (n d : Z) :
  0 < n -> 0 < d -> n <= 16 * d -> Py.ilog2 n d <= 4.
Proof.
  intros Hn Hd H. unfold Py.ilog2.
  assert (Z.log2 n <= Z.log2 d + 4).
  { replace (Z.log2 d + 4) with (Z.log2 (d * 2 ^ 4))
      by (rewrite Z.log2_mul_pow2; lia).
    apply Z.log2_le_mono. lia. }
  repeat match goal with |- context [if ?c then _ else _] => destruct c end;
    lia.
Qed.

(** A quotient of two equal integers is the float 1.0. *)
Lemma nearest_pos_diag (n : Z) :
  0 < n -> Py.nearest_pos n n = Py.dyadic (2 ^ 52) (- 52).
Proof.
  intros Hn. unfold Py.nearest_pos, Py.ilog2.
  rewrite Z.sub_diag. cbn [Z.leb Z.compare Z.pow Z.pow_pos Pos.iter].
  replace (n * 1 <=? n) with true by (symmetry; apply Z.leb_le; lia).
  change (Z.max (0 - 52) (- 1074)) with (- 52).
  change (0 <=? - 52) with false. cbv iota.
  change (2 ^ (- - 52)) with (2 ^ 52).
  rewrite Z.mul_comm, round_half_even_exact by lia. reflexivity.
Qed.

(** The quotient of an integer and its double is the float 0.5. *)
Lemma nearest_pos_half (n : Z) :
  0 < n -> Py.nearest_pos n (2 * n) = Py.dyadic (2 ^ 52) (- 53).
Proof.
  intros Hn. unfold Py.nearest_pos, Py.ilog2.
  rewrite Z.log2_double by lia.
  replace (Z.log2 n - Z.succ (Z.log2 n)) with (- 1) by lia.
  change (0 <=? - 1) with false. cbv iota.
  change (2 ^ (- - 1)) with 2.
  replace (2 * n <=? n * 2) with true by (symmetry; apply Z.leb_le; lia).
  change (Z.max (- 1 - 52) (- 1074)) with (- 53).
  change (0 <=? - 53) with false. cbv iota.
  change (2 ^ (- - 53)) with (2 ^ 53).
  replace (n * 2 ^ 53) with (2 ^ 52 * (2 * n)) by (change (2 ^ 53) with (2 * 2 ^ 52); ring).
  rewrite round_half_even_exact by lia. reflexivity.
Qed.

(** Rounding keeps a number of [[0, C]] in [[0, C]], for a small integer
    [C]. *)
Lemma nearest_pos_bounds (n d C : Z) :
  0 < n -> 0 < d -> n <= C * d -> C <= 16 ->
  (0 <= Py.nearest_pos n d <= inject_Z C)%Q.
Proof.
  intros Hn Hd H HC.
  pose proof (ilog2_le n d Hn Hd ltac:(nia)) as Hk.
  unfold Py.nearest_pos.
  set (e := Z.max (Py.ilog2 n d - 52) (- 1074)).
  assert (He : e < 0) by lia.
  replace (0 <=? e) with false by (symmetry; apply Z.leb_gt; lia).
  unfold Py.dyadic.
  replace (0 <=? e) with false by (symmetry; apply Z.leb_gt; lia).
  assert (Hp : 0 < 2 ^ (- e)) by (apply Z.pow_pos_nonneg; lia).
  unfold Qle; cbn [Qnum Qden inject_Z].
  rewrite Z2Pos.id by exact Hp.
  split.
  - assert (0 <= Py.round_half_even (n * 2 ^ (- e)) d)
      by (apply round_half_even_nonneg; nia).
    lia.
  - assert (Py.round_half_even (n * 2 ^ (- e)) d <= C * 2 ^ (- e))
      by (apply round_half_even_le; nia).
    lia.
Qed.

Lemma nearest_bounds (q : Q) (C : Z) :
  (0 <= q)%Q -> (q <= inject_Z C)%Q -> C <= 16 ->
  (0 <= Py.nearest q <= inject_Z C)%Q.
Proof.
  destruct q as [n d]. unfold Qle; cbn [Qnum Qden inject_Z].
  intros H0 HC H16. unfold Py.nearest; cbn [Qnum Qden].
  destruct n as [|n|n].
  - unfold Qle; cbn. lia.
  - apply nearest_pos_bounds; lia.
  - lia.
Qed.

(** The rounded quotient is within one half of the quotient. *)
Lemma round_half_even_near (a b : Z) :
  0 < b -> - b <= 2 * (Py.round_half_even a b * b - a) <= b.
Proof.
  intros Hb. unfold Py.round_half_even.
  pose proof (Z.div_mod a b ltac:(lia)) as Hdm.
  pose proof (Z.mod_pos_bound a b Hb) as Hr.
  destruct (2 * (a mod b) <? b) eqn:E1; [apply Z.ltb_lt in E1; nia|].
  apply Z.ltb_ge in E1.
  destruct (b <? 2 * (a mod b)) eqn:E2; [apply Z.ltb_lt in E2; nia|].
  apply Z.ltb_ge in E2.
  destruct (Z.even (a / b)); nia.
Qed.

Lemma round_half_even_near_Q (x : Q) :
  (100 * x - (1 # 2)
   <= inject_Z (Py.round_half_even (100 * Qnum x) (Zpos (Qden x)))
   <= 100 * x + (1 # 2))%Q.
Proof.
  destruct x as [n d]. cbn [Qnum Qden].
  pose proof (round_half_even_near (100 * n) (Zpos d) ltac:(lia)) as H.
  unfold Qle, Qminus, Qplus, Qopp, Qmult, inject_Z; cbn [Qnum Qden].
  rewrite !Pos2Z.inj_mul. split; nia.
Qed.

Lemma nearest_pos_near (n d : Z) :
  0 < n -> 0 < d -> n <= 16 * d ->
  exists m P, Py.nearest_pos n d = Qmake m P
    /\ 2 ^ 48 <= Zpos P
    /\ - d <= 2 * (m * d - n * Zpos P) <= d.
Proof.
  intros Hn Hd H.
  pose proof (ilog2_le n d Hn Hd H) as Hk.
  unfold Py.nearest_pos.
  set (e := Z.max (Py.ilog2 n d - 52) (- 1074)).
  assert (He : e <= -48) by lia.
  replace (0 <=? e) with false by (symmetry; apply Z.leb_gt; lia).
  unfold Py.dyadic.
  replace (0 <=? e) with false by (symmetry; apply Z.leb_gt; lia).
  assert (Hp : 2 ^ 48 <= 2 ^ (- e)) by (apply Z.pow_le_mono_r; lia).
  eexists _, _. split; [reflexivity|].
  rewrite Z2Pos.id by lia. split; [exact Hp|].
  apply round_half_even_near. exact Hd.
Qed.

(** Rounding moves a number of [[0, 16]] by at most half a unit in the
    last place. *)
Lemma nearest_near (q : Q) :
  (0 <= q)%Q -> (q <= 16)%Q ->
  (q - half_ulp <= Py.nearest q <= q + half_ulp)%Q.
Proof.
  destruct q as [n d]. unfold Qle at 1 2; cbn [Qnum Qden].
  intros H0 H16. unfold Py.nearest; cbn [Qnum Qden].
  destruct n as [|n|n]; [unfold half_ulp; split; unfold Qle; cbn; lia| |lia].
  destruct (nearest_pos_near (Zpos n) (Zpos d)) as [m [P [E [HP Hm]]]];
    try lia.
  rewrite E. unfold half_ulp, Qle, Qminus, Qplus, Qopp; cbn [Qnum Qden].
  rewrite !Pos2Z.inj_mul.
  change (2 ^ 48) with 281474976710656 in HP.
  split; nia.
Qed.

End Rounding.

(** ** The rating *)

Lemma rating_of_counts_all (t : Z) :
  (0 < t)%Z -> (rating_of_counts t t == 10)%Q.
Proof.
  intros Ht. destruct t as [|p|p]; try lia.
  unfold rating_of_counts, Py.truediv.
  change (Py.nearest (Z.pos p # Z.to_pos (Z.pos p)))
    with (Py.nearest_pos (Z.pos p) (Z.pos p)).
  rewrite nearest_pos_diag by lia. vm_compute. reflexivity.
Qed.

Lemma rating_of_counts_half (p : Z) :
  (0 < p)%Z -> (rating_of_counts p (2 * p) == 5)%Q.
Proof.
  intros Hp. destruct p as [|p|p]; try lia.
  unfold rating_of_counts, Py.truediv.
  change (Py.nearest (Z.pos p # Z.to_pos (2 * Z.pos p)))
    with (Py.nearest_pos (Z.pos p) (2 * Z.pos p)).
  rewrite nearest_pos_half by lia. vm_compute. reflexivity.
Qed.

Lemma rating_of_counts_bounds (p t : Z) :
  (0 <= p <= t)%Z -> (0 < t)%Z -> (0 <= rating_of_counts p t <= 10)%Q.
Proof.
  intros Hp Ht. unfold rating_of_counts.
  assert (Hz : (0 <= Py.truediv p t <= inject_Z 1)%Q).
  { unfold Py.truediv. apply nearest_bounds; try lia.
    - unfold Qle; cbn. lia.
    - unfold Qle; cbn. rewrite Z2Pos.id by lia. lia. }
  assert (Hx : (0 <= Py.fmul (Py.truediv p t) 10 <= inject_Z 10)%Q).
  { unfold Py.fmul. destruct (Py.truediv p t) as [n d].
    revert Hz. unfold Qle; cbn [Qnum Qden inject_Z Qmult]. intros Hz.
    apply nearest_bounds; try lia; unfold Qle; cbn [Qnum Qden inject_Z Qmult];
      lia. }
  unfold Py.round2. destruct (Py.fmul (Py.truediv p t) 10) as [n d].
  revert Hx. unfold Qle at 1 2; cbn [Qnum Qden inject_Z]. intros Hx.
  assert (0 <= Py.round_half_even (100 * n) (Z.pos d))%Z
    by (apply round_half_even_nonneg; lia).
  assert (Py.round_half_even (100 * n) (Z.pos d) <= 1000)%Z
    by (apply round_half_even_le; lia).
  change 10%Q with (inject_Z 10).
  apply nearest_bounds; try lia; unfold Qle; cbn [Qnum Qden inject_Z]; lia.
Qed.

(** Up to [2^37] records the rating is the float of [k / 100] for an
    integer [k] nearest to [1000 * p / t]. *)
Lemma rating_of_counts_nearest (p t : Z) :
  0 <= p <= t -> 0 < t -> t < 2 ^ 37 ->
  exists k, rating_of_counts p t = Py.nearest (k # 100)%Q
            /\ - t <= 2 * (k * t - 1000 * p) <= t.
Proof.
  intros Hp Ht Hbig. unfold rating_of_counts, Py.round2.
  set (z := Py.truediv p t).
  set (x := Py.fmul z 10).
  exists (Py.round_half_even (100 * Qnum x) (Zpos (Qden x))).
  split; [reflexivity|].
  set (q := (p # Z.to_pos t)%Q).
  assert (Hq : (0 <= q <= 1)%Q).
  { unfold q, Qle; cbn. rewrite Z2Pos.id by lia. lia. }
  assert (Hz : (q - half_ulp <= z <= q + half_ulp)%Q)
    by (apply nearest_near; lra).
  assert (Hz1 : (0 <= z <= inject_Z 1)%Q).
  { apply nearest_bounds; [apply Hq|apply Hq|lia]. }
  change (inject_Z 1) with 1%Q in Hz1.
  assert (Hx : (z * inject_Z 10 - half_ulp <= x
                <= z * inject_Z 10 + half_ulp)%Q).
  { apply nearest_near; change (inject_Z 10) with 10%Q; lra. }
  change (inject_Z 10) with 10%Q in Hx.
  pose proof (round_half_even_near_Q x) as Hk.
  set (k := Py.round_half_even (100 * Qnum x) (Zpos (Qden x))) in *.
  assert (Hkq : (1000 * q - (1 # 2) - 1100 * half_ulp <= inject_Z k
                 <= 1000 * q + (1 # 2) + 1100 * half_ulp)%Q) by lra.
  clearbody k. clear - Hkq Ht Hbig Hp.
  unfold q, half_ulp in Hkq. destruct Hkq as [H1 H2]. revert H1 H2.
  unfold Qle, Qminus, Qplus, Qopp, Qmult, inject_Z; cbn [Qnum Qden].
  rewrite !Pos2Z.inj_mul, !Z2Pos.id by lia.
  change (2 ^ 37) with 137438953472 in Hbig.
  intros H1 H2. split; nia.
Qed.

(** Ties of the exact quotient: 1 of 16 is 0.625 and gives 0.62, 1 of 400
    is 0.025 and gives 0.03, whose float lies above it. *)
Example rating_of_counts_ties :
  (rating_of_counts 1 16 == Py.nearest (62 # 100))%Q
  /\ (rating_of_counts 1 400 == Py.nearest (3 # 100))%Q.
Proof. split; vm_compute; reflexivity. Qed.

Lemma present_le_total (e : Z) (db : database) :
  (0 <= present_days e db <= total_days e db)%Z.
Proof.
  unfold present_days, total_days. split; [lia|].
  apply Nat2Z.inj_le, filter_length_le.
Qed.

Lemma calculate_rating_counts (e : Z) (db : database) :
  calculate_rating e db =
  if (total_days e db =? 0)%Z then Py.Int 0
  else Py.Float (rating_of_counts (present_days e db) (total_days e db)).
Proof. reflexivity. Qed.

Lemma all_present_days (e : Z) (db : database) :
  (forall r, In r (attendance db) -> AttendanceRecord.employee_id r = e ->
             AttendanceRecord.status r = "Present") ->
  present_days e db = total_days e db.
Proof.
  intros H. unfold present_days, total_days. f_equal. f_equal.
  apply forallb_filter_id. apply forallb_forall. intros r Hr.
  unfold records_of in Hr. apply filter_In in Hr. destruct Hr as [Hin He].
  apply Z.eqb_eq in He. apply String.eqb_eq. auto.
Qed.

(** C4.  The rating of an employee is 0 when the employee has no attendance
    record; otherwise it is the float [round((p / t) * 10, 2)] of the
    number [p] of records with status Present and the number [t] of all
    records of the employee, which, up to [2^37] records, is the float of
    [k / 100] for an integer [k] nearest to [1000 * p / t]: ten times
    [p / t], rounded to two decimals.  It lies between 0 and 10, is 10.0
    when all the records (at least one) are Present and 5.0 when exactly
    half of them are. *)
Theorem C4_rating (e : Z) (db : database) :
  (total_days e db = 0%Z -> calculate_rating e db = Py.Int 0)
  /\ ((0 < total_days e db)%Z ->
      calculate_rating e db =
      Py.Float (Py.round2
                  (Py.fmul (Py.truediv (present_days e db) (total_days e db))
                     10)))
  /\ ((0 < total_days e db)%Z -> (total_days e db < 2 ^ 37)%Z ->
      exists k, calculate_rating e db = Py.Float (Py.nearest (k # 100)%Q)
                /\ (- total_days e db
                    <= 2 * (k * total_days e db - 1000 * present_days e db)
                    <= total_days e db)%Z)
  /\ (0 <= Py.value (calculate_rating e db) <= 10)%Q
  /\ ((0 < total_days e db)%Z ->
      (forall r, In r (attendance db) -> AttendanceRecord.employee_id r = e ->
                 AttendanceRecord.status r = "Present") ->
      exists x, calculate_rating e db = Py.Float x /\ (x == 10)%Q)
  /\ ((0 < total_days e db)%Z ->
      (2 * present_days e db = total_days e db)%Z ->
      exists x, calculate_rating e db = Py.Float x /\ (x == 5)%Q).
Proof.
  rewrite calculate_rating_counts.
  pose proof (present_le_total e db) as Hle.
  destruct (total_days e db =? 0)%Z eqn:E.
  - apply Z.eqb_eq in E. repeat split; try lia; cbn; unfold Qle; cbn; lia.
  - apply Z.eqb_neq in E. split; [lia|]. split; [reflexivity|].
    split; [|split; [|split]].
    + intros Ht Hbig.
      destruct (rating_of_counts_nearest (present_days e db)
                  (total_days e db) Hle Ht Hbig) as [k [Hk1 Hk2]].
      exists k. rewrite Hk1. split; [reflexivity|exact Hk2].
    + cbn [Py.value]. apply rating_of_counts_bounds; lia.
    + intros Ht Hall. eexists; split; [reflexivity|].
      rewrite (all_present_days e db Hall).
      apply rating_of_counts_all; lia.
    + intros Ht Hhalf. eexists; split; [reflexivity|].
      rewrite <- Hhalf. apply rating_of_counts_half; lia.
Qed.

(** ** The attendance ledger *)

Lemma date_eqb_eq (a b : Py.date) : Py.date_eqb a b = true <-> a = b.
Proof.
  unfold Py.date_eqb. destruct a, b; cbn. rewrite !andb_true_iff, !Z.eqb_eq.
  split; [intros [[-> ->] ->]; reflexivity | intros [= -> -> ->]; auto].
Qed.

Lemma is_for_spec (e : Z) (d : Py.date) (a : AttendanceRecord.t) :
  is_for e d a = true <->
  AttendanceRecord.employee_id a = e /\ AttendanceRecord.date a = d.
Proof.
  unfold is_for. rewrite andb_true_iff, Z.eqb_eq, date_eqb_eq. tauto.
Qed.

Lemma todays_record_find (e : Z) (d : Py.date) (db : database) :
  todays_record e d db = find (is_for e d) (attendance db).
Proof. reflexivity. Qed.

Lemma next_id_above {A : Type} (key : A -> Z) (rows : list A) (r : A) :
  In r rows -> (key r < next_id key rows)%Z.
Proof.
  unfold next_id. induction rows as [|x rows IH]; cbn [fold_right In];
    [tauto|].
  intros [->|H]; [lia|]. specialize (IH H). lia.
Qed.

Lemma next_id_fresh {A : Type} (key : A -> Z) (rows : list A) :
  ~ In (next_id key rows) (map key rows).
Proof.
  intros H. apply in_map_iff in H. destruct H as [r [Hk Hr]].
  apply (next_id_above key) in Hr. lia.
Qed.

Lemma find_none_filter {A : Type} (P : A -> bool) (l : list A) :
  find P l = None -> filter P l = [].
Proof.
  induction l as [|x l IH]; cbn; [reflexivity|].
  destruct (P x); [discriminate|exact IH].
Qed.

(** [update] on a list with distinct keys rewrites exactly the row that
    holds the key. *)
Lemma update_split {A : Type} (key : A -> Z) (f : A -> A) (l : list A)
  (r : A) :
  In r l -> NoDup (map key l) ->
  exists l1 l2, l = (l1 ++ r :: l2)%list
    /\ update key (key r) f l = (l1 ++ f r :: l2)%list.
Proof.
  induction l as [|x l IH]; cbn; [tauto|].
  intros Hin Hnd. inversion Hnd as [|? ? Hx Hnd']; subst.
  destruct Hin as [->|Hin].
  - exists [], l. rewrite Z.eqb_refl. split; reflexivity.
  - destruct (key x =? key r)%Z eqn:E.
    + apply Z.eqb_eq in E. exfalso. apply Hx. rewrite E.
      apply in_map. exact Hin.
    + destruct (IH Hin Hnd') as [l1 [l2 [-> Hu]]].
      exists (x :: l1), l2. cbn. rewrite Hu. split; reflexivity.
Qed.

Lemma update_map_key {A : Type} (key : A -> Z) (pk : Z) (f : A -> A)
  (l : list A) :
  (forall r, key (f r) = key r) -> map key (update key pk f l) = map key l.
Proof.
  intros Hf. induction l as [|x l IH]; cbn; [reflexivity|].
  destruct (key x =? pk)%Z; cbn; [rewrite Hf|rewrite IH]; reflexivity.
Qed.

Lemma update_filter_length {A : Type} (key : A -> Z) (pk : Z) (f : A -> A)
  (P : A -> bool) (l : list A) :
  (forall r, P (f r) = P r) ->
  List.length (filter P (update key pk f l)) = List.length (filter P l).
Proof.
  intros Hf. induction l as [|x l IH]; cbn; [reflexivity|].
  destruct (key x =? pk)%Z; cbn.
  - rewrite Hf. destruct (P x); reflexivity.
  - destruct (P x); cbn; rewrite IH; reflexivity.
Qed.

Lemma update_In {A : Type} (key : A -> Z) (pk : Z) (f : A -> A) (l : list A)
  (r : A) :
  In r (update key pk f l) -> In r l \/ exists r0, In r0 l /\ r = f r0.
Proof.
  induction l as [|x l IH]; cbn; [tauto|].
  destruct (key x =? pk)%Z; cbn.
  - intros [<-|H]; [right; exists x; auto | left; auto].
  - intros [<-|H]; [left; auto|].
    destruct (IH H) as [H'|[r0 [H1 H2]]]; [left; auto | right; exists r0; auto].
Qed.

Lemma strftime_HMS_truthy (t : Py.time) :
  Py.truthy (Py.strftime_HMS t) = true.
Proof. reflexivity. Qed.

Lemma check_in_new (c : clock) (rq : request) (emp : Employee.t)
  (db : database) :
  form_get rq "action" = Some "check_in" ->
  todays_record (Employee.id emp) (today c) db = None ->
  check_in_out c rq emp db =
  (with_attendance
     (attendance db ++ [checked_in_record c (Employee.id emp) db]) db,
   [("Checked in successfully!", "success")]).
Proof. intros Ha Hr. unfold check_in_out. rewrite Ha, Hr. reflexivity. Qed.

Lemma check_in_again (c : clock) (rq : request) (emp : Employee.t)
  (db : database) (r : AttendanceRecord.t) :
  form_get rq "action" = Some "check_in" ->
  todays_record (Employee.id emp) (today c) db = Some r ->
  check_in_out c rq emp db = (db, [("Already checked in today!", "warning")]).
Proof. intros Ha Hr. unfold check_in_out. rewrite Ha, Hr. reflexivity. Qed.

Lemma check_out_done (c : clock) (rq : request) (emp : Employee.t)
  (db : database) (r : AttendanceRecord.t) :
  form_get rq "action" = Some "check_out" ->
  todays_record (Employee.id emp) (today c) db = Some r ->
  Py.truthy_opt (AttendanceRecord.check_out r) = false ->
  check_in_out c rq emp db =
  (with_attendance
     (update AttendanceRecord.id (AttendanceRecord.id r)
        (AttendanceRecord.set_check_out (Py.strftime_HMS (now c)))
        (attendance db)) db,
   [("Checked out successfully!", "success")]).
Proof.
  intros Ha Hr Ho. unfold check_in_out. rewrite Ha, Hr, Ho. reflexivity.
Qed.

Lemma check_out_refused (c : clock) (rq : request) (emp : Employee.t)
  (db : database) :
  form_get rq "action" = Some "check_out" ->
  match todays_record (Employee.id emp) (today c) db with
  | Some r => Py.truthy_opt (AttendanceRecord.check_out r) = true
  | None => True
  end ->
  check_in_out c rq emp db =
  (db, [("Cannot check out before checking in!", "danger")]).
Proof.
  intros Ha Hr. unfold check_in_out. rewrite Ha.
  destruct (todays_record (Employee.id emp) (today c) db);
    [rewrite Hr|]; reflexivity.
Qed.

Lemma ledger_ok_ext (db db' : database) :
  attendance db' = attendance db -> ledger_ok db -> ledger_ok db'.
Proof.
  intros E [H1 H2 H3].
  split; unfold records_for in *; rewrite E; assumption.
Qed.

Lemma ledger_ok_empty : ledger_ok empty_db.
Proof.
  split; cbn.
  - constructor.
  - intros; lia.
  - tauto.
Qed.

Lemma ledger_ok_check_in (c : clock) (e : Z) (db : database) :
  ledger_ok db -> todays_record e (today c) db = None ->
  ledger_ok
    (with_attendance (attendance db ++ [checked_in_record c e db]) db).
Proof.
  intros [H1 H2 H3] Hnone. split; cbn [attendance with_attendance].
  - rewrite map_app. cbn [map].
    apply NoDup_rev in H1. rewrite <- rev_involutive.
    apply NoDup_rev. rewrite rev_app_distr. cbn [rev app].
    constructor; [|exact H1].
    rewrite <- in_rev. cbn [checked_in_record AttendanceRecord.id].
    apply next_id_fresh.
  - intros e' d'. unfold records_for; cbn [attendance with_attendance].
    rewrite filter_app, length_app. cbn [filter].
    destruct (is_for e' d' (checked_in_record c e db)) eqn:E.
    + apply is_for_spec in E. cbn in E. destruct E as [<- <-].
      rewrite todays_record_find in Hnone.
      rewrite (find_none_filter _ _ Hnone). cbn. lia.
    + specialize (H2 e' d'). unfold records_for in H2. cbn. lia.
  - intros r Hr. apply in_app_or in Hr. destruct Hr as [Hr|[<-|[]]].
    + apply H3, Hr.
    + reflexivity.
Qed.

Lemma ledger_ok_check_out (v : string) (pk : Z) (db : database) :
  ledger_ok db ->
  ledger_ok
    (with_attendance
       (update AttendanceRecord.id pk (AttendanceRecord.set_check_out v)
          (attendance db)) db).
Proof.
  intros [H1 H2 H3]. split; cbn [attendance with_attendance].
  - rewrite update_map_key; [exact H1|reflexivity].
  - intros e d. unfold records_for; cbn [attendance with_attendance].
    rewrite update_filter_length; [apply H2|reflexivity].
  - intros r Hr. apply update_In in Hr.
    destruct Hr as [Hr|[r0 [Hr ->]]]; [apply H3, Hr|].
    cbn. apply H3, Hr.
Qed.

Lemma ledger_ok_check_in_out (c : clock) (rq : request) (emp : Employee.t)
  (db : database) :
  ledger_ok db -> ledger_ok (fst (check_in_out c rq emp db)).
Proof.
  intros H. unfold check_in_out.
  destruct (is_str (form_get rq "action") "check_in").
  - destruct (todays_record (Employee.id emp) (today c) db) eqn:E; cbn [fst].
    + exact H.
    + apply (ledger_ok_check_in c (Employee.id emp) db H E).
  - destruct (is_str (form_get rq "action") "check_out"); [|exact H].
    destruct (todays_record (Employee.id emp) (today c) db); [|exact H].
    destruct (negb (Py.truthy_opt (AttendanceRecord.check_out t)));
      [|exact H].
    cbn [fst]. apply ledger_ok_check_out, H.
Qed.

(** *** What each view commits *)

Ltac view_cases :=
  repeat match goal with
         | |- context [match ?x with _ => _ end] =>
             lazymatch x with
             | context [match _ with _ => _ end] => fail
             | _ => destruct x eqn:?
             end
         end.

Ltac open_view :=
  unfold handle, admin_required, employee_required, bind, form_item.

(** The views that only read. *)
Ltac open_page :=
  unfold index, admin_employees, admin_employee_requests, test_hub;
  open_view.

(** The dashboard commits what its POST part commits, or nothing. *)
Lemma employee_dashboard_commits (c : clock) (rq : request) (db : database) :
  fst (fst (handle (employee_dashboard c rq) db)) = db
  \/ exists emp, fst (fst (handle (employee_dashboard c rq) db))
                 = fst (check_in_out c rq emp db).
Proof.
  unfold employee_dashboard. open_view.
  destruct (negb (Session.employee_logged_in (session rq))); [left; reflexivity|].
  destruct (get_or_404 Employee.id (Session.employee_id (session rq))
              (employees db)) as [emp|]; [|left; reflexivity].
  destruct (method rq); [left; reflexivity|].
  right. exists emp. destruct (check_in_out c rq emp db). reflexivity.
Qed.

(** No other view writes the attendance table. *)
Lemma other_views_keep_attendance (k : call) (db : database) :
  call_url k <> url_employee_dashboard ->
  attendance (step k db) = attendance db.
Proof.
  intros Hu. unfold step, serve.
  destruct (routable _); [|reflexivity].
  destruct (existsb _ _); [|reflexivity].
  unfold dispatch. destruct (call_url k); try congruence; clear Hu.
  - unfold employee_create_request. open_view. view_cases; reflexivity.
  - unfold employee_request. open_view. view_cases; reflexivity.
  - unfold update_employee_request_status. open_view.
    view_cases; reflexivity.
  - unfold admin_notifications. open_view. view_cases; reflexivity.
  - unfold add_employee. open_view. view_cases; reflexivity.
  - unfold edit_employee. open_view. view_cases; reflexivity.
  - unfold edit_employee_profile. open_view. view_cases; reflexivity.
  - reflexivity.
  - open_page. view_cases; reflexivity.
  - open_page. view_cases; reflexivity.
  - reflexivity.
Qed.

Lemma step_ledger_ok (k : call) (db : database) :
  ledger_ok db -> ledger_ok (step k db).
Proof.
  intros H.
  destruct (call_url k) eqn:Hu;
    try (apply (ledger_ok_ext db); [|exact H];
         apply other_views_keep_attendance; congruence).
  unfold step, serve. rewrite Hu. cbn [routable].
  destruct (existsb _ _); [|exact H].
  unfold dispatch. rewrite Hu.
  destruct (employee_dashboard_commits (call_clock k) (call_request k) db)
    as [E|[emp E]]; rewrite E; [exact H|].
  apply ledger_ok_check_in_out, H.
Qed.

Lemma run_ledger_ok (ks : list call) (db : database) :
  ledger_ok db -> ledger_ok (run ks db).
Proof.
  revert db. induction ks as [|k ks IH]; intros db H; [exact H|].
  cbn. apply IH, step_ledger_ok, H.
Qed.

(** C1.  Whatever calls the application has served since the tables were
    created, an employee has at most one attendance record for a day, and
    a record that has a check-out time has a check-in time. *)
Theorem C1_ledger_invariant (ks : list call) (e : Z) (d : Py.date) :
  (records_for e d (run ks empty_db) <= 1)%nat
  /\ (forall r, In r (attendance (run ks empty_db)) ->
        AttendanceRecord.check_out r <> None ->
        AttendanceRecord.check_in r <> None).
Proof.
  pose proof (run_ledger_ok ks empty_db ledger_ok_empty) as [H1 H2 H3].
  split; [apply H2|].
  intros r Hr _ Hn. specialize (H3 r Hr). rewrite Hn in H3. discriminate.
Qed.

(** *** Check-in and check-out *)

Lemma todays_record_some (e : Z) (d : Py.date) (db : database) :
  has_record e d db <-> exists r, todays_record e d db = Some r.
Proof.
  rewrite todays_record_find. split.
  - intros [r [Hin [He Hd]]].
    destruct (find (is_for e d) (attendance db)) as [r'|] eqn:E;
      [exists r'; reflexivity|].
    pose proof (find_none _ _ E r Hin) as Hf.
    assert (is_for e d r = true) by (apply is_for_spec; auto). congruence.
  - intros [r E]. apply find_some in E. destruct E as [Hin Hf].
    apply is_for_spec in Hf. exists r. tauto.
Qed.

Lemma todays_record_none (e : Z) (d : Py.date) (db : database) :
  ~ has_record e d db <-> todays_record e d db = None.
Proof.
  rewrite todays_record_some. destruct (todays_record e d db) as [r|].
  - split; [intros H; exfalso; apply H; exists r; reflexivity|discriminate].
  - split; [reflexivity|intros _ [r E]; discriminate].
Qed.

Lemma dashboard_post (c : clock) (rq : request) (emp : Employee.t)
  (action : string) (db : database) :
  posts_action rq emp action db ->
  committed (handle (employee_dashboard c rq) db)
  = fst (check_in_out c rq emp db)
  /\ flashed (handle (employee_dashboard c rq) db)
     = snd (check_in_out c rq emp db).
Proof.
  intros [Hm [Hs [He Ha]]]. unfold employee_dashboard. open_view.
  rewrite Hs, He, Hm. cbn [negb].
  destruct (check_in_out c rq emp db). split; reflexivity.
Qed.

Lemma posts_action_after (rq : request) (emp : Employee.t) (action : string)
  (db db' : database) :
  employees db' = employees db ->
  posts_action rq emp action db -> posts_action rq emp action db'.
Proof. unfold posts_action. intros ->. tauto. Qed.

Lemma find_update {A : Type} (key : A -> Z) (f : A -> A) (P : A -> bool)
  (l : list A) (r : A) :
  NoDup (map key l) -> find P l = Some r ->
  (forall x, P (f x) = P x) ->
  find P (update key (key r) f l) = Some (f r).
Proof.
  intros Hnd Hfind HP. induction l as [|x l IH]; cbn in *; [discriminate|].
  inversion Hnd as [|? ? Hx Hnd']; subst.
  destruct (P x) eqn:Px.
  - injection Hfind as ->. rewrite Z.eqb_refl. cbn. rewrite HP, Px.
    reflexivity.
  - destruct (key x =? key r)%Z eqn:E.
    + apply Z.eqb_eq in E. exfalso. apply Hx. rewrite E.
      apply in_map. apply find_some in Hfind. tauto.
    + cbn. rewrite Px. apply IH; assumption.
Qed.

(** C2.  A check-in of employee [emp] on day [today c] is refused with the
    warning that stands for AlreadyCheckedIn, and nothing is stored, when
    the employee has a record for that day; otherwise exactly one record
    is added, with status Present, the current time as check-in time and
    no check-out time, and a second check-in of that day is refused and
    adds no second record. *)
Theorem C2_check_in (c : clock) (rq : request) (emp : Employee.t)
  (db : database) :
  posts_action rq emp "check_in" db ->
  (has_record (Employee.id emp) (today c) db ->
     committed (handle (employee_dashboard c rq) db) = db
     /\ flashed (handle (employee_dashboard c rq) db)
        = [("Already checked in today!", "warning")])
  /\ (~ has_record (Employee.id emp) (today c) db ->
      exists r,
        committed (handle (employee_dashboard c rq) db)
        = with_attendance (attendance db ++ [r]) db
        /\ flashed (handle (employee_dashboard c rq) db)
           = [("Checked in successfully!", "success")]
        /\ AttendanceRecord.employee_id r = Employee.id emp
        /\ AttendanceRecord.date r = today c
        /\ AttendanceRecord.status r = "Present"
        /\ AttendanceRecord.check_in r = Some (Py.strftime_HMS (now c))
        /\ AttendanceRecord.check_out r = None
        /\ forall c', today c' = today c ->
             committed (handle (employee_dashboard c' rq)
                          (with_attendance (attendance db ++ [r]) db))
             = with_attendance (attendance db ++ [r]) db
             /\ flashed (handle (employee_dashboard c' rq)
                           (with_attendance (attendance db ++ [r]) db))
                = [("Already checked in today!", "warning")]).
Proof.
  intros Hp. destruct (dashboard_post c rq emp _ db Hp) as [Hc Hf].
  assert (Ha : form_get rq "action" = Some "check_in") by apply Hp.
  split.
  - intros Hr. apply todays_record_some in Hr. destruct Hr as [r Hr].
    rewrite Hc, Hf, (check_in_again c rq emp db r Ha Hr). split; reflexivity.
  - intros Hr. apply todays_record_none in Hr.
    rewrite Hc, Hf, (check_in_new c rq emp db Ha Hr). cbn [fst snd].
    exists (checked_in_record c (Employee.id emp) db).
    repeat (split; [reflexivity|]).
    intros c' Hc'.
    set (db' := with_attendance _ db).
    assert (Hp' : posts_action rq emp "check_in" db')
      by (apply (posts_action_after rq emp _ db); [reflexivity|exact Hp]).
    destruct (dashboard_post c' rq emp _ db' Hp') as [Hc2 Hf2].
    assert (Hex : has_record (Employee.id emp) (today c') db').
    { exists (checked_in_record c (Employee.id emp) db). split.
      - unfold db'. cbn. apply in_or_app. right. left. reflexivity.
      - split; [reflexivity|symmetry; exact Hc']. }
    apply todays_record_some in Hex. destruct Hex as [r' Hr'].
    rewrite Hc2, Hf2, (check_in_again c' rq emp db' r' Ha Hr').
    split; reflexivity.
Qed.

(** C3 (as the code has it).  A check-out of employee [emp] on day
    [today c] is refused and stores nothing when the employee has no
    record for the day and when the record of the day has a check-out
    time, with one and the same message in both cases; otherwise it sets
    the check-out time of the record to the current time, after which a
    further check-out of that day is refused. *)
Theorem C3_check_out (c : clock) (rq : request) (emp : Employee.t)
  (db : database) :
  posts_action rq emp "check_out" db ->
  NoDup (map AttendanceRecord.id (attendance db)) ->
  (~ has_record (Employee.id emp) (today c) db ->
     committed (handle (employee_dashboard c rq) db) = db
     /\ flashed (handle (employee_dashboard c rq) db) = cannot_check_out)
  /\ (forall r,
        todays_record (Employee.id emp) (today c) db = Some r ->
        Py.truthy_opt (AttendanceRecord.check_out r) = true ->
        committed (handle (employee_dashboard c rq) db) = db
        /\ flashed (handle (employee_dashboard c rq) db) = cannot_check_out)
  /\ (forall r,
        todays_record (Employee.id emp) (today c) db = Some r ->
        Py.truthy_opt (AttendanceRecord.check_out r) = false ->
        flashed (handle (employee_dashboard c rq) db)
        = [("Checked out successfully!", "success")]
        /\ todays_record (Employee.id emp) (today c)
             (committed (handle (employee_dashboard c rq) db))
           = Some (AttendanceRecord.set_check_out (Py.strftime_HMS (now c)) r)
        /\ forall c', today c' = today c ->
             committed
               (handle (employee_dashboard c' rq)
                  (committed (handle (employee_dashboard c rq) db)))
             = committed (handle (employee_dashboard c rq) db)
             /\ flashed
                  (handle (employee_dashboard c' rq)
                     (committed (handle (employee_dashboard c rq) db)))
                = cannot_check_out).
Proof.
  intros Hp Hnd. destruct (dashboard_post c rq emp _ db Hp) as [Hc Hf].
  assert (Ha : form_get rq "action" = Some "check_out") by apply Hp.
  split; [|split].
  - intros Hr. apply todays_record_none in Hr.
    rewrite Hc, Hf, (check_out_refused c rq emp db Ha); [split; reflexivity|].
    rewrite Hr. exact I.
  - intros r Hr Ho.
    rewrite Hc, Hf, (check_out_refused c rq emp db Ha); [split; reflexivity|].
    rewrite Hr. exact Ho.
  - intros r Hr Ho.
    rewrite Hc, Hf, (check_out_done c rq emp db r Ha Hr Ho). cbn [fst snd].
    set (db' := with_attendance _ db).
    assert (Hr' : todays_record (Employee.id emp) (today c) db'
                  = Some (AttendanceRecord.set_check_out
                            (Py.strftime_HMS (now c)) r)).
    { unfold db'. rewrite todays_record_find. cbn [attendance with_attendance].
      apply find_update; [exact Hnd|exact Hr|reflexivity]. }
    split; [reflexivity|]. split; [exact Hr'|].
    intros c' Hc'.
    assert (Hp' : posts_action rq emp "check_out" db')
      by (apply (posts_action_after rq emp _ db); [reflexivity|exact Hp]).
    destruct (dashboard_post c' rq emp _ db' Hp') as [Hc2 Hf2].
    rewrite Hc2, Hf2, (check_out_refused c' rq emp db' Ha);
      [split; reflexivity|].
    rewrite Hc', Hr'. reflexivity.
Qed.

(** C10.  A check-out that succeeds rewrites one row of the attendance
    table, the record of the employee for the day: the rows before and
    after it are the same, the row keeps its key, employee, date, status
    and check-in time, and the other tables are untouched. *)
Theorem C10_check_out_frame (c : clock) (rq : request) (emp : Employee.t)
  (db : database) (r : AttendanceRecord.t) :
  posts_action rq emp "check_out" db ->
  NoDup (map AttendanceRecord.id (attendance db)) ->
  todays_record (Employee.id emp) (today c) db = Some r ->
  Py.truthy_opt (AttendanceRecord.check_out r) = false ->
  exists l1 l2 r',
    attendance db = (l1 ++ r :: l2)%list
    /\ attendance (committed (handle (employee_dashboard c rq) db))
       = (l1 ++ r' :: l2)%list
    /\ AttendanceRecord.id r' = AttendanceRecord.id r
    /\ AttendanceRecord.employee_id r' = AttendanceRecord.employee_id r
    /\ AttendanceRecord.date r' = AttendanceRecord.date r
    /\ AttendanceRecord.status r' = AttendanceRecord.status r
    /\ AttendanceRecord.check_in r' = AttendanceRecord.check_in r
    /\ AttendanceRecord.check_out r' = Some (Py.strftime_HMS (now c))
    /\ employees (committed (handle (employee_dashboard c rq) db))
       = employees db
    /\ notifications (committed (handle (employee_dashboard c rq) db))
       = notifications db
    /\ requests (committed (handle (employee_dashboard c rq) db))
       = requests db.
Proof.
  intros Hp Hnd Hr Ho. destruct (dashboard_post c rq emp _ db Hp) as [Hc _].
  assert (Ha : form_get rq "action" = Some "check_out") by apply Hp.
  rewrite Hc, (check_out_done c rq emp db r Ha Hr Ho). cbn [fst].
  assert (Hin : In r (attendance db)).
  { rewrite todays_record_find in Hr. apply find_some in Hr. tauto. }
  destruct (update_split AttendanceRecord.id
              (AttendanceRecord.set_check_out (Py.strftime_HMS (now c)))
              (attendance db) r Hin Hnd) as [l1 [l2 [E1 E2]]].
  exists l1, l2, (AttendanceRecord.set_check_out (Py.strftime_HMS (now c)) r).
  cbn [attendance with_attendance employees notifications requests].
  rewrite E2. repeat split; try reflexivity. exact E1.
Qed.

(** *** A day of employee 1001 *)

(** The scenario of the specification: check-in at 09:00, check-out at
    17:30, and a second check-in that is refused. *)
Example scenario_1001 :
  handle (employee_dashboard Day.at_0900 Day.check_in) Day.morning
  = (Day.noon, [("Checked in successfully!", "success")],
     render_template "employee_dashboard.html"
       (Ctx.mk (Some Day.emp) [] [] [] []))
  /\ committed (handle (employee_dashboard Day.at_1730 Day.check_out) Day.noon)
     = Day.evening
  /\ flashed (handle (employee_dashboard Day.at_1800 Day.check_in) Day.evening)
     = [("Already checked in today!", "warning")]
  /\ committed
       (handle (employee_dashboard Day.at_1800 Day.check_in) Day.evening)
     = Day.evening.
Proof. repeat split; reflexivity. Qed.

Lemma posts_check_in_morning :
  posts_action Day.check_in Day.emp "check_in" Day.morning.
Proof. repeat split; reflexivity. Defined.

Lemma posts_check_out_noon :
  posts_action Day.check_out Day.emp "check_out" Day.noon.
Proof. repeat split; reflexivity. Defined.

Lemma noon_keys_distinct :
  NoDup (map AttendanceRecord.id (attendance Day.noon)).
Proof. cbn. constructor; [intros []|constructor]. Defined.

Lemma C2_check_in_witness :
  posts_action Day.check_in Day.emp "check_in" Day.morning
  /\ (~ has_record 1 Day.day Day.morning ->
      exists r,
        committed (handle (employee_dashboard Day.at_0900 Day.check_in)
                     Day.morning)
        = with_attendance (attendance Day.morning ++ [r]) Day.morning
        /\ AttendanceRecord.status r = "Present"
        /\ AttendanceRecord.check_in r = Some "09:00:00").
Proof.
  split; [exact posts_check_in_morning|].
  intros Hn.
  destruct (proj2 (C2_check_in Day.at_0900 Day.check_in Day.emp Day.morning
                     posts_check_in_morning) Hn)
    as [r [H1 [_ [_ [_ [H2 [H3 _]]]]]]].
  exists r. repeat split; assumption.
Defined.

Lemma C3_check_out_witness :
  posts_action Day.check_out Day.emp "check_out" Day.noon
  /\ NoDup (map AttendanceRecord.id (attendance Day.noon))
  /\ todays_record 1 Day.day
       (committed (handle (employee_dashboard Day.at_1730 Day.check_out)
                     Day.noon))
     = Some (AttendanceRecord.set_check_out "17:30:00" Day.record_in).
Proof.
  split; [exact posts_check_out_noon|]. split; [exact noon_keys_distinct|].
  exact (proj1 (proj2 (proj2 (proj2
           (C3_check_out Day.at_1730 Day.check_out Day.emp Day.noon
              posts_check_out_noon noon_keys_distinct))
           Day.record_in eq_refl eq_refl))).
Defined.

Lemma C10_check_out_frame_witness :
  exists l1 l2 r',
    attendance Day.noon = (l1 ++ Day.record_in :: l2)%list
    /\ attendance
         (committed (handle (employee_dashboard Day.at_1730 Day.check_out)
                       Day.noon))
       = (l1 ++ r' :: l2)%list
    /\ AttendanceRecord.check_in r' = Some "09:00:00"
    /\ AttendanceRecord.check_out r' = Some "17:30:00".
Proof.
  destruct (C10_check_out_frame Day.at_1730 Day.check_out Day.emp Day.noon
              Day.record_in posts_check_out_noon noon_keys_distinct
              eq_refl eq_refl)
    as [l1 [l2 [r' [H1 [H2 [_ [_ [_ [_ [H3 [H4 _]]]]]]]]]]].
  exists l1, l2, r'. repeat split; assumption.
Defined.

(** C3, as stated, fails: a check-out with no record of the day and a
    check-out after the check-out of the day are answered with the same
    message, so nothing the employee is told tells NotCheckedIn from
    AlreadyCheckedOut. *)
Lemma C3_failures_not_distinguished :
  flashed (handle (employee_dashboard Day.at_1800 Day.check_out) Day.morning)
  = flashed (handle (employee_dashboard Day.at_1800 Day.check_out) Day.evening)
  /\ ~ exists classify : list flash -> ledger_failure,
         classify
           (flashed (handle (employee_dashboard Day.at_1800 Day.check_out)
                       Day.morning)) = NotCheckedIn
         /\ classify
              (flashed (handle (employee_dashboard Day.at_1800 Day.check_out)
                          Day.evening)) = AlreadyCheckedOut.
Proof.
  split; [reflexivity|].
  intros [classify [H1 H2]].
  change (flashed (handle (employee_dashboard Day.at_1800 Day.check_out)
                     Day.evening))
    with (flashed (handle (employee_dashboard Day.at_1800 Day.check_out)
                     Day.morning)) in H2.
  congruence.
Qed.

(** ** The inbox *)

Section OrderBy.
Context {A : Type} (key : A -> Z).

Let leb (a b : A) : bool := (key a <=? key b)%Z.

Lemma insert_desc_perm (x : A) (l : list A) :
  Permutation (x :: l) (insert_desc leb x l).
Proof.
  induction l as [|y l IH]; cbn; [reflexivity|].
  destruct (leb y x); [reflexivity|].
  rewrite perm_swap. constructor. exact IH.
Qed.

Lemma order_by_desc_perm (l : list A) :
  Permutation l (order_by_desc leb l).
Proof.
  induction l as [|x l IH]; cbn; [constructor|].
  rewrite <- insert_desc_perm. constructor. exact IH.
Qed.

Lemma insert_desc_descending (x : A) (l : list A) :
  descending key l -> descending key (insert_desc leb x l).
Proof.
  unfold descending. induction l as [|y l IH]; intros Hs; cbn.
  - constructor; constructor.
  - inversion Hs as [|? ? Hl Hy]; subst.
    destruct (leb y x) eqn:E; unfold leb in E.
    + apply Z.leb_le in E. constructor; [exact Hs|].
      constructor; [exact E|].
      rewrite Forall_forall in *. intros z Hz. specialize (Hy z Hz). lia.
    + apply Z.leb_gt in E. constructor; [apply IH, Hl|].
      rewrite Forall_forall in *. intros z Hz.
      apply (Permutation_in _ (Permutation_sym (insert_desc_perm x l))) in Hz.
      destruct Hz as [<-|Hz]; [lia|apply Hy, Hz].
Qed.

Lemma order_by_desc_descending (l : list A) :
  descending key (order_by_desc leb l).
Proof.
  induction l as [|x l IH]; cbn; [constructor|].
  apply insert_desc_descending, IH.
Qed.

End OrderBy.

(** C5.  The inbox of employee [e] holds exactly the notifications that
    are broadcast or addressed to [e], each as often as the table holds
    it, the newest first; a notification addressed to another employee is
    not in it. *)
Theorem C5_inbox (e : Z) (db : database) :
  Permutation (inbox e db) (filter (addressed_to e) (notifications db))
  /\ descending Notification.timestamp (inbox e db)
  /\ (forall n, In n (inbox e db) <->
                In n (notifications db)
                /\ (Notification.employee_id n = None
                    \/ Notification.employee_id n = Some e))
  /\ (forall n f, Notification.employee_id n = Some f -> f <> e ->
                  ~ In n (inbox e db)).
Proof.
  assert (HP : Permutation (inbox e db)
                 (filter (addressed_to e) (notifications db)))
    by (symmetry; apply (order_by_desc_perm Notification.timestamp)).
  assert (Hin : forall n, In n (inbox e db) <->
                  In n (notifications db)
                  /\ (Notification.employee_id n = None
                      \/ Notification.employee_id n = Some e)).
  { intros n. split.
    - intros H. apply (Permutation_in _ HP) in H. apply filter_In in H.
      destruct H as [H1 H2]. split; [exact H1|].
      unfold addressed_to in H2.
      destruct (Notification.employee_id n); [|left; reflexivity].
      apply Z.eqb_eq in H2. right. congruence.
    - intros [H1 H2]. apply (Permutation_in _ (Permutation_sym HP)).
      apply filter_In. split; [exact H1|]. unfold addressed_to.
      destruct H2 as [->| ->]; [reflexivity|apply Z.eqb_refl]. }
  split; [exact HP|]. split.
  - apply (order_by_desc_descending Notification.timestamp).
  - split; [exact Hin|].
    intros n f Hf Hne H. apply Hin in H. destruct H as [_ [H|H]]; congruence.
Qed.

(** The dashboard of an employee lists that inbox. *)
Lemma dashboard_lists_inbox (c : clock) (rq : request) (emp : Employee.t)
  (db : database) :
  Session.employee_logged_in (session rq) = true ->
  get_or_404 Employee.id (Session.employee_id (session rq)) (employees db)
  = Ok emp ->
  exists ctx,
    responded (handle (employee_dashboard c rq) db)
    = render_template "employee_dashboard.html" ctx
    /\ Ctx.notifications ctx = inbox (Employee.id emp) db.
Proof.
  intros Hs He. unfold employee_dashboard. open_view. rewrite Hs, He.
  cbn [negb]. destruct (method rq); [|destruct (check_in_out c rq emp db)];
    eexists; split; reflexivity.
Qed.

(** ** The request board *)

(** The form of [/employee/create_request] refuses an empty or missing
    type or message and stores nothing; otherwise it stores one request,
    whose status is Pending. *)
Lemma employee_create_request_validates (c : clock) (rq : request)
  (emp : Employee.t) (db : database) :
  sent_by rq emp db -> method rq = POST ->
  (Py.truthy_opt (form_get rq "request_type") = false
   \/ Py.truthy_opt (form_get rq "message") = false ->
   handle (employee_create_request c rq) db
   = (db, [("All fields are required!", "danger")],
      redirect "employee_create_request"))
  /\ (forall t m,
        form_get rq "request_type" = Some t -> Py.truthy t = true ->
        form_get rq "message" = Some m -> Py.truthy m = true ->
        handle (employee_create_request c rq) db
        = (add_request (new_request c (Employee.id emp) t m db) db,
           [("Request submitted successfully!", "success")],
           redirect "employee_dashboard")
        /\ EmployeeRequest.status (new_request c (Employee.id emp) t m db)
           = "Pending").
Proof.
  intros [Hs He] Hm. unfold employee_create_request. open_view.
  rewrite Hs, He, Hm. cbn [negb]. split.
  - intros [H|H]; rewrite H; cbn [negb orb]; [reflexivity|].
    rewrite orb_true_r. reflexivity.
  - intros t m Ht Htt Hmm Hmt. rewrite Ht, Hmm. cbn [Py.truthy_opt].
    rewrite Htt, Hmt. split; reflexivity.
Qed.

(** C6, on the route [/employee/request]: a request with an empty message
    is stored, with status Pending, and reported as submitted; the route
    [/employee/create_request] refuses the same form and stores nothing. *)
Theorem C6_employee_request_stores_empty_message :
  handle
    (employee_request Day.at_0900
       (Day.post Day.employee_session
          [("request_type", "Leave"); ("message", "")]))
    Day.morning
  = (with_requests [EmployeeRequest.mk 1 1 "Leave" "" "Pending" 1704877200]
       Day.morning,
     [("Request submitted successfully!", "success")],
     redirect "employee_dashboard")
  /\ handle
       (employee_create_request Day.at_0900
          (Day.post Day.employee_session
             [("request_type", "Leave"); ("message", "")]))
       Day.morning
     = (Day.morning, [("All fields are required!", "danger")],
        redirect "employee_create_request").
Proof. split; reflexivity. Qed.

Lemma allowed_status (s : string) :
  existsb (String.eqb s) ["Approved"; "Declined"] = true <->
  s = "Approved" \/ s = "Declined".
Proof.
  cbn [existsb]. rewrite !orb_true_iff, !String.eqb_eq.
  split; [intros [H|[H|H]]; [auto|auto|discriminate]|tauto].
Qed.

(** What a call does to the request table: nothing, one more Pending
    request at the end, or a new status, Approved or Declined, for the
    request of some key. *)
Lemma step_requests (k : call) (db : database) :
  requests (step k db) = requests db
  \/ (exists r, requests (step k db) = (requests db ++ [r])%list
                /\ EmployeeRequest.status r = "Pending")
  \/ (exists pk s, (s = "Approved" \/ s = "Declined")
                   /\ requests (step k db)
                      = update EmployeeRequest.id pk
                          (EmployeeRequest.set_status s) (requests db)).
Proof.
  unfold step, serve. destruct (routable _); [|left; reflexivity].
  destruct (existsb _ _); [|left; reflexivity].
  unfold dispatch. destruct (call_url k).
  - destruct (employee_dashboard_commits (call_clock k) (call_request k) db)
      as [E|[emp E]]; rewrite E; [left; reflexivity|].
    left. unfold check_in_out. view_cases; reflexivity.
  - unfold employee_create_request. open_view.
    view_cases; try (left; reflexivity).
    right; left. eexists. split; reflexivity.
  - unfold employee_request. open_view.
    view_cases; try (left; reflexivity).
    right; left. eexists. split; reflexivity.
  - unfold update_employee_request_status. open_view.
    destruct (negb (Session.admin_logged_in (session (call_request k))));
      [left; reflexivity|].
    destruct (get_or_404 EmployeeRequest.id (Some request_id) (requests db));
      [|left; reflexivity].
    destruct (existsb (String.eqb new_status) ["Approved"; "Declined"]) eqn:E;
      cbn [negb]; [|left; reflexivity].
    right; right. exists (EmployeeRequest.id a), new_status.
    split; [apply allowed_status, E|reflexivity].
  - unfold admin_notifications. open_view. view_cases; left; reflexivity.
  - unfold add_employee. open_view. view_cases; left; reflexivity.
  - unfold edit_employee. open_view. view_cases; left; reflexivity.
  - unfold edit_employee_profile. open_view. view_cases; left; reflexivity.
  - left; reflexivity.
  - open_page. view_cases; left; reflexivity.
  - open_page. view_cases; left; reflexivity.
  - left; reflexivity.
Qed.

Lemma nth_error_update {A : Type} (key : A -> Z) (pk : Z) (f : A -> A)
  (l : list A) (i : nat) (r : A) :
  nth_error l i = Some r ->
  nth_error (update key pk f l) i = Some r
  \/ nth_error (update key pk f l) i = Some (f r).
Proof.
  revert i. induction l as [|x l IH]; intros [|i] H; cbn in *;
    try discriminate.
  - injection H as ->. destruct (key r =? pk)%Z; cbn; auto.
  - destruct (key x =? pk)%Z; cbn; auto.
Qed.

Lemma step_keeps_resolved (k : call) (db : database) (i : nat)
  (r : EmployeeRequest.t) :
  nth_error (requests db) i = Some r -> resolved r ->
  exists r', nth_error (requests (step k db)) i = Some r'
             /\ resolved r' /\ same_request r r'.
Proof.
  intros Hi Hr.
  destruct (step_requests k db) as [E|[[x [E _]]|[pk [s [Hs E]]]]]; rewrite E.
  - exists r. unfold same_request. tauto.
  - exists r. rewrite nth_error_app1 by (apply nth_error_Some; congruence).
    unfold same_request. tauto.
  - destruct (nth_error_update EmployeeRequest.id pk
                (EmployeeRequest.set_status s) _ i r Hi) as [H|H].
    + exists r. unfold same_request. tauto.
    + exists (EmployeeRequest.set_status s r). split; [exact H|].
      split; [exact Hs|]. unfold same_request. cbn. tauto.
Qed.

(** C7 (as the code has it).  Through any sequence of calls a request that
    is Approved or Declined stays in the table, stays the same request and
    stays Approved or Declined: it never goes back to Pending. *)
Theorem C7_resolved_stays_resolved (ks : list call) (db : database) (i : nat)
  (r : EmployeeRequest.t) :
  nth_error (requests db) i = Some r -> resolved r ->
  exists r', nth_error (requests (run ks db)) i = Some r'
             /\ resolved r' /\ same_request r r'.
Proof.
  revert db r. induction ks as [|k ks IH]; intros db r Hi Hr.
  - exists r. unfold same_request. cbn. tauto.
  - destruct (step_keeps_resolved k db i r Hi Hr) as [r1 [H1 [H2 H3]]].
    destruct (IH (step k db) r1 H1 H2) as [r2 [H4 [H5 H6]]].
    exists r2. split; [exact H4|]. split; [exact H5|].
    unfold same_request in *. intuition congruence.
Qed.

(** C7, as stated, fails: the admin approves a request and then declines
    it, and the Approved request becomes Declined. *)
Lemma C7_approved_then_declined :
  requests (run [Day.resolve "Approved"] Day.board)
  = [EmployeeRequest.set_status "Approved" Day.leave]
  /\ requests (run [Day.resolve "Approved"; Day.resolve "Declined"] Day.board)
     = [EmployeeRequest.set_status "Declined" Day.leave].
Proof. split; reflexivity. Qed.

Lemma C7_resolved_stays_resolved_witness :
  exists r',
    nth_error
      (requests
         (run [Day.resolve "Declined"]
            (run [Day.resolve "Approved"] Day.board))) 0
    = Some r'
    /\ resolved r'
    /\ same_request (EmployeeRequest.set_status "Approved" Day.leave) r'.
Proof.
  apply (C7_resolved_stays_resolved [Day.resolve "Declined"]
           (run [Day.resolve "Approved"] Day.board) 0
           (EmployeeRequest.set_status "Approved" Day.leave)).
  - reflexivity.
  - left. reflexivity.
Defined.

(** [get] and [update] meet at the first row that has the key. *)
Lemma update_first {A : Type} (key : A -> Z) (pk : Z) (f : A -> A)
  (l : list A) (r : A) :
  get key pk l = Some r ->
  key r = pk
  /\ exists l1 l2,
       l = (l1 ++ r :: l2)%list
       /\ update key pk f l = (l1 ++ f r :: l2)%list
       /\ forall x, In x l1 -> key x <> pk.
Proof.
  unfold get. induction l as [|x l IH]; cbn; [discriminate|].
  destruct (key x =? pk)%Z eqn:E.
  - intros [= ->]. apply Z.eqb_eq in E. split; [exact E|].
    exists [], l. repeat split. intros x [].
  - intros H. destruct (IH H) as [Hk [l1 [l2 [E1 [E2 E3]]]]].
    split; [exact Hk|]. exists (x :: l1), l2. cbn. rewrite E1 at 1.
    rewrite E2. repeat split.
    intros y [<-|Hy]; [apply Z.eqb_neq, E|apply E3, Hy].
Qed.





(** Approving a Pending request makes it Approved; an unknown key is
    answered 404; a decision that is not one of the two is refused. *)
Example resolve_pending :
  handle (update_employee_request_status (Day.post Day.admin_session [])
            1 "Approved") Day.board
  = (with_requests [EmployeeRequest.set_status "Approved" Day.leave]
       Day.board,
     [("Request approved successfully!", "success")],
     redirect "admin_employee_requests")
  /\ handle (update_employee_request_status (Day.post Day.admin_session [])
               2 "Approved") Day.board
     = (Day.board, [], http_error 404)
  /\ handle (update_employee_request_status (Day.post Day.admin_session [])
               1 "Pending") Day.board
     = (Day.board, [("Invalid status", "danger")],
        redirect "admin_employee_requests").
Proof. repeat split; reflexivity. Qed.

(** The router answers before the view: a decision that is empty or has
    a slash and a negative key match no rule (404), and a GET of the
    route is a method the rule does not accept (405). *)
Example router_refuses :
  serve (Demo.call_of (url_update_employee_request_status 1 "")
           (Day.post Day.admin_session [])) Day.board
  = (Day.board, [], http_error 404)
  /\ serve (Demo.call_of (url_update_employee_request_status 1 "a/b")
              (Day.post Day.admin_session [])) Day.board
     = (Day.board, [], http_error 404)
  /\ serve (Demo.call_of (url_update_employee_request_status (-1) "Approved")
              (Day.post Day.admin_session [])) Day.board
     = (Day.board, [], http_error 404)
  /\ serve (Demo.call_of (url_update_employee_request_status 1 "Approved")
              (Demo.get Day.admin_session)) Day.board
     = (Day.board, [], http_error 405).
Proof. repeat split; reflexivity. Qed.

(** ** Errors at the request boundary *)

(** [int] skips the white space of ASCII around the number and nothing
    else: the separators 28 to 31 make it raise. *)
Example int_of_text :
  Py.int " 42 " = Some 42%Z
  /\ Py.int "-1_000" = Some (-1000)%Z
  /\ Py.int "007" = Some 7%Z
  /\ Py.int (String (ascii_of_nat 28) "1") = None
  /\ Py.int "1 2" = None
  /\ Py.int "1__0" = None
  /\ Py.int "abc" = None.
Proof. repeat split; reflexivity. Qed.

(** A date of birth in ASCII text that [strptime] refuses, and truthy,
    makes [edit_employee] raise; the answer is the 500 response. *)
Lemma edit_employee_bad_date (e : env) (rq : request) (emp_id : Z)
  (db : database) (emp : Employee.t) (name code gender address mobile email
  dob : string) :
  Session.admin_logged_in (session rq) = true ->
  get Employee.id emp_id (employees db) = Some emp ->
  method rq = POST ->
  form_get rq "name" = Some name -> form_get rq "emp_id" = Some code ->
  form_get rq "gender" = Some gender ->
  form_get rq "address" = Some address ->
  form_get rq "mobile_number" = Some mobile ->
  form_get rq "email" = Some email ->
  form_get rq "date_of_birth" = Some dob ->
  Py.is_ascii dob = true ->
  Py.truthy dob = true -> Py.strptime_ymd dob = None ->
  handle (edit_employee e rq emp_id) db = (db, [], http_error 500)
  /\ ~ recovered (handle (edit_employee e rq emp_id) db).
Proof.
  intros Ha He Hm H1 H2 H3 H4 H5 H6 H7 _ Ht Hp.
  assert (E : handle (edit_employee e rq emp_id) db = (db, [], http_error 500)).
  { unfold edit_employee, get_or_404. open_view. unfold form_get in *.
    rewrite Ha, He, Hm, H1, H2, H3, H4, H5, H6, H7, Ht, Hp. reflexivity. }
  split; [exact E|]. rewrite E. intros [H _]. apply H. reflexivity.
Qed.

(** The form of [add_employee] with the same date is answered with a
    message and a redirect to the form. *)
Lemma add_employee_bad_date (e : env) (rq : request) (db : database)
  (dob : string) :
  Session.admin_logged_in (session rq) = true ->
  method rq = POST ->
  form_get rq "date_of_birth" = Some dob ->
  Py.is_ascii dob = true ->
  Py.truthy dob = true -> Py.strptime_ymd dob = None ->
  handle (add_employee e rq) db
  = (db, [("Invalid date format for Date of Birth", "danger")],
     redirect "add_employee").
Proof.
  intros Ha Hm Hd _ Ht Hp. unfold add_employee. open_view.
  rewrite Ha, Hm, Hd, Ht, Hp. reflexivity.
Qed.

(** C9, at three requests of an admin.  A malformed date of birth sent to
    [edit_employee] and a selected employee id that is not a number sent
    to [admin_notifications] are answered with the 500 response, with no
    message and no redirect; the same date sent to [add_employee] is
    answered with a message and a redirect to the form. *)
Theorem C9_errors_not_recovered :
  handle
    (edit_employee Day.libraries
       (Day.post Day.admin_session
          [("name", "Asha"); ("emp_id", "1001"); ("gender", "F");
           ("address", "12 Hill Road"); ("mobile_number", "5550100");
           ("email", "asha@example.org"); ("date_of_birth", "10/01/1990")])
       1)
    Day.morning
  = (Day.morning, [], http_error 500)
  /\ handle
       (admin_notifications Day.at_0900
          (Day.post Day.admin_session
             [("message", "Meeting at noon"); ("recipient", "selected");
              ("employee_id", "abc")]))
       Day.morning
     = (Day.morning, [], http_error 500)
  /\ handle
       (add_employee Day.libraries
          (Day.post Day.admin_session
             [("name", "Asha"); ("emp_id", "1001"); ("gender", "F");
              ("address", "12 Hill Road"); ("mobile_number", "5550100");
              ("email", "asha@example.org");
              ("date_of_birth", "10/01/1990"); ("password", "secret")]))
       Day.morning
     = (Day.morning, [("Invalid date format for Date of Birth", "danger")],
        redirect "add_employee").
Proof. repeat split; reflexivity. Qed.

Lemma C4_rating_witness :
  (0 < total_days 1
         (with_attendance
            [AttendanceRecord.mk 1 1 (Py.mkDate 2024 1 8) "Present"
               (Some "09:00:00") None;
             AttendanceRecord.mk 2 1 (Py.mkDate 2024 1 9) "Absent" None None;
             AttendanceRecord.mk 3 1 (Py.mkDate 2024 1 10) "Present"
               (Some "09:02:11") None;
             AttendanceRecord.mk 4 1 (Py.mkDate 2024 1 11) "Absent" None None]
            Day.morning))%Z
  /\ exists x,
       calculate_rating 1
         (with_attendance
            [AttendanceRecord.mk 1 1 (Py.mkDate 2024 1 8) "Present"
               (Some "09:00:00") None;
             AttendanceRecord.mk 2 1 (Py.mkDate 2024 1 9) "Absent" None None;
             AttendanceRecord.mk 3 1 (Py.mkDate 2024 1 10) "Present"
               (Some "09:02:11") None;
             AttendanceRecord.mk 4 1 (Py.mkDate 2024 1 11) "Absent" None None]
            Day.morning)
       = Py.Float x /\ (x == 5)%Q.
Proof.
  split; [reflexivity|].
  apply (proj2 (proj2 (proj2 (proj2 (proj2 (C4_rating 1 _)))))); reflexivity.
Defined.

(** ** The float model against the machine's floats *)

(** Division and multiplication of the model are those of binary64, for
    every pair of counts up to 60 records. *)
Example model_is_binary64 :
  forallb (fun pt => same_product (fst pt) (snd pt)) (counts_upto 60) = true.
Proof. vm_compute. reflexivity. Qed.

(** * More of the application *)

(** ** Who may change what *)

(** Every view writes on POST only. *)
Lemma step_GET (k : call) (db : database) :
  method (call_request k) = GET -> step k db = db.
Proof.
  intros Hm. unfold step, serve, dispatch.
  destruct (routable _); [|reflexivity].
  destruct (call_url k); cbn [methods]; rewrite Hm;
    cbn [existsb method_eqb orb]; try reflexivity.
  - unfold employee_dashboard. open_view. rewrite Hm. view_cases; reflexivity.
  - unfold employee_create_request. open_view. rewrite Hm.
    view_cases; reflexivity.
  - unfold employee_request. open_view. rewrite Hm. view_cases; reflexivity.
  - unfold admin_notifications. open_view. rewrite Hm. view_cases; reflexivity.
  - unfold add_employee. open_view. rewrite Hm. view_cases; reflexivity.
  - unfold edit_employee. open_view. rewrite Hm. view_cases; reflexivity.
  - unfold edit_employee_profile. open_view. rewrite Hm.
    view_cases; reflexivity.
  - open_page. view_cases; reflexivity.
  - open_page. view_cases; reflexivity.
Qed.

(** A GET request changes nothing in the store, whatever the route and
    the session: every view writes on POST only.  Sent to the route that
    resolves a request, which accepts POST only, a GET is answered 405
    Method Not Allowed, and the view is not called. *)
Theorem get_changes_nothing (k : call) (db : database) :
  method (call_request k) = GET ->
  step k db = db
  /\ forall request_id new_status,
       call_url k = url_update_employee_request_status request_id new_status ->
       routable (call_url k) = true ->
       serve k db = (db, [], http_error 405).
Proof.
  intros Hm. split; [apply step_GET, Hm|].
  intros request_id new_status Hu Hr. unfold serve. rewrite Hr, Hu.
  cbn [methods]. rewrite Hm. reflexivity.
Qed.

Lemma get_or_404_found {A : Type} (key : A -> Z) (pk : option Z)
  (rows : list A) (r : A) :
  get_or_404 key pk rows = Ok r -> pk = Some (key r) /\ In r rows.
Proof.
  unfold get_or_404, get. destruct pk as [e|]; [|discriminate].
  destruct (find _ rows) as [x|] eqn:E;
    [|destruct (fits_int64 e); discriminate].
  intros [= ->]. apply find_some in E. destruct E as [Hin Hk].
  apply Z.eqb_eq in Hk. subst. auto.
Qed.

Lemma get_or_404_get {A : Type} (key : A -> Z) (pk : option Z)
  (rows : list A) (r : A) :
  get_or_404 key pk rows = Ok r -> get key (key r) rows = Some r.
Proof.
  unfold get_or_404. destruct pk as [e|]; [|discriminate].
  destruct (get key e rows) as [x|] eqn:E;
    [|destruct (fits_int64 e); discriminate].
  intros [= ->]. unfold get in *. pose proof (find_some _ _ E) as [_ Hk].
  apply Z.eqb_eq in Hk. rewrite Hk. exact E.
Qed.

(** A profile edit commits nothing, or new values for the row of the
    employee of the session, which keeps its key, its code and its
    recovery phrase. *)
Lemma edit_employee_profile_commits (e : env) (rq : request)
  (db : database) :
  committed (handle (edit_employee_profile e rq) db) = db
  \/ exists emp emp',
       Session.employee_logged_in (session rq) = true
       /\ get_or_404 Employee.id (Session.employee_id (session rq))
            (employees db) = Ok emp
       /\ committed (handle (edit_employee_profile e rq) db)
          = with_employees
              (update Employee.id (Employee.id emp) (fun _ => emp')
                 (employees db)) db
       /\ Employee.id emp' = Employee.id emp
       /\ Employee.emp_id emp' = Employee.emp_id emp
       /\ Employee.unique_phrase emp' = Employee.unique_phrase emp
       /\ unique_ok emp' (employees db) = true.
Proof.
  unfold edit_employee_profile, committed. open_view.
  destruct (Session.employee_logged_in (session rq)); cbn [negb];
    [|left; reflexivity].
  destruct (get_or_404 Employee.id (Session.employee_id (session rq))
              (employees db)) as [emp|] eqn:Hg; [|left; reflexivity].
  view_cases; cbn [fst]; try (left; reflexivity); right;
    exists emp; eexists; (split; [reflexivity|]); (split; [reflexivity|]);
    (split; [reflexivity|]); repeat split; assumption.
Qed.

(** The dashboard commits nothing, or what its POST part commits for the
    employee of the session. *)
Lemma employee_dashboard_commits_for (c : clock) (rq : request)
  (db : database) :
  committed (handle (employee_dashboard c rq) db) = db
  \/ exists emp,
       Session.employee_logged_in (session rq) = true
       /\ Session.employee_id (session rq) = Some (Employee.id emp)
       /\ committed (handle (employee_dashboard c rq) db)
          = fst (check_in_out c rq emp db).
Proof.
  unfold employee_dashboard, committed. open_view.
  destruct (Session.employee_logged_in (session rq)); cbn [negb];
    [|left; reflexivity].
  destruct (get_or_404 Employee.id (Session.employee_id (session rq))
              (employees db)) as [emp|] eqn:E; [|left; reflexivity].
  apply get_or_404_found in E. destruct E as [E _].
  destruct (method rq); [left; reflexivity|].
  right. exists emp. split; [reflexivity|]. split; [exact E|].
  destruct (check_in_out c rq emp db). reflexivity.
Qed.


(** Without the admin's login a call adds and deletes no employee and
    changes no row of the employee table but, through the profile form,
    the row of the employee of the session, which keeps its key, its code
    and its recovery phrase; it adds and changes no notification; and it
    changes no request that is in the table (it may file one). *)
Theorem without_admin_session (k : call) (db : database) :
  Session.admin_logged_in (session (call_request k)) = false ->
  (employees (step k db) = employees db
   \/ exists l1 l2 emp emp',
        call_url k = url_edit_employee_profile
        /\ method (call_request k) = POST
        /\ Session.employee_logged_in (session (call_request k)) = true
        /\ Session.employee_id (session (call_request k))
           = Some (Employee.id emp)
        /\ employees db = (l1 ++ emp :: l2)%list
        /\ employees (step k db) = (l1 ++ emp' :: l2)%list
        /\ Employee.id emp' = Employee.id emp
        /\ Employee.emp_id emp' = Employee.emp_id emp
        /\ Employee.unique_phrase emp' = Employee.unique_phrase emp)
  /\ notifications (step k db) = notifications db
  /\ exists more, requests (step k db) = (requests db ++ more)%list.
Proof.
  intros Ha.
  assert (Hnil : forall l : list EmployeeRequest.t,
             exists more, l = (l ++ more)%list)
    by (intros l; exists []; symmetry; apply app_nil_r).
  destruct (method (call_request k)) eqn:Hm.
  { rewrite (step_GET k db Hm).
    split; [left; reflexivity|]. split; [reflexivity|apply Hnil]. }
  unfold step, serve.
  destruct (routable _);
    [|split; [left; reflexivity|split; [reflexivity|apply Hnil]]].
  destruct (existsb _ _);
    [|split; [left; reflexivity|split; [reflexivity|apply Hnil]]].
  unfold dispatch.
  destruct (call_url k) eqn:Hu.
  - destruct (employee_dashboard_commits (call_clock k) (call_request k) db)
      as [E|[emp E]]; rewrite E;
      [split; [left; reflexivity|split; [reflexivity|apply Hnil]]|].
    unfold check_in_out.
    view_cases; cbn [fst];
      (split; [left; reflexivity|split; [reflexivity|apply Hnil]]).
  - unfold employee_create_request. open_view.
    view_cases; cbn [fst];
      (split; [left; reflexivity|split; [reflexivity|]]);
      first [apply Hnil|eexists; reflexivity].
  - unfold employee_request. open_view.
    view_cases; cbn [fst];
      (split; [left; reflexivity|split; [reflexivity|]]);
      first [apply Hnil|eexists; reflexivity].
  - unfold update_employee_request_status. open_view. rewrite Ha.
    cbn [negb fst].
    split; [left; reflexivity|split; [reflexivity|apply Hnil]].
  - unfold admin_notifications. open_view. rewrite Ha. cbn [negb fst].
    split; [left; reflexivity|split; [reflexivity|apply Hnil]].
  - unfold add_employee. open_view. rewrite Ha. cbn [negb fst].
    split; [left; reflexivity|split; [reflexivity|apply Hnil]].
  - unfold edit_employee. open_view. rewrite Ha. cbn [negb fst].
    split; [left; reflexivity|split; [reflexivity|apply Hnil]].
  - destruct (edit_employee_profile_commits (call_env k) (call_request k) db)
      as [E|[emp [emp' [Hs [Hg [E [H1 [H2 [H3 _]]]]]]]]];
      unfold committed in E; rewrite E;
      [split; [left; reflexivity|split; [reflexivity|apply Hnil]]|].
    cbn [employees notifications requests with_employees].
    split; [|split; [reflexivity|apply Hnil]].
    right.
    destruct (update_first Employee.id (Employee.id emp) (fun _ => emp') _
                emp (get_or_404_get _ _ _ _ Hg))
      as [_ [l1 [l2 [E1 [E2 _]]]]].
    apply get_or_404_found in Hg. destruct Hg as [Hpk _].
    exists l1, l2, emp, emp'. rewrite E2.
    repeat split; first [reflexivity|assumption].
  - split; [left; reflexivity|split; [reflexivity|apply Hnil]].
  - open_page. rewrite Ha. cbn [negb fst].
    split; [left; reflexivity|split; [reflexivity|apply Hnil]].
  - open_page. rewrite Ha. cbn [negb fst].
    split; [left; reflexivity|split; [reflexivity|apply Hnil]].
  - split; [left; reflexivity|split; [reflexivity|apply Hnil]].
Qed.

(** Without an employee's login a call changes no attendance record and
    files no request. *)
Theorem without_employee_session (k : call) (db : database) :
  Session.employee_logged_in (session (call_request k)) = false ->
  attendance (step k db) = attendance db
  /\ List.length (requests (step k db)) = List.length (requests db).
Proof.
  intros He. unfold step, serve.
  destruct (routable _); [|split; reflexivity].
  destruct (existsb _ _); [|split; reflexivity].
  unfold dispatch.
  destruct (call_url k).
  - unfold employee_dashboard. open_view. rewrite He. split; reflexivity.
  - unfold employee_create_request. open_view. rewrite He. split; reflexivity.
  - unfold employee_request. open_view. rewrite He. split; reflexivity.
  - unfold update_employee_request_status. open_view.
    view_cases; cbn; split; try reflexivity.
    clear. induction (requests db) as [|x l IH]; cbn; [reflexivity|].
    destruct (EmployeeRequest.id x =? EmployeeRequest.id a)%Z; cbn;
      [reflexivity|rewrite IH; reflexivity].
  - unfold admin_notifications. open_view. view_cases; split; reflexivity.
  - unfold add_employee. open_view. view_cases; split; reflexivity.
  - unfold edit_employee. open_view. view_cases; split; reflexivity.
  - unfold edit_employee_profile. open_view. rewrite He. split; reflexivity.
  - split; reflexivity.
  - open_page. view_cases; split; reflexivity.
  - open_page. view_cases; split; reflexivity.
  - split; reflexivity.
Qed.

Lemma filter_update_out {A : Type} (key : A -> Z) (f : A -> A)
  (P : A -> bool) (l : list A) (r : A) :
  In r l -> NoDup (map key l) -> P r = false -> P (f r) = false ->
  filter P (update key (key r) f l) = filter P l.
Proof.
  intros Hin Hnd Hr Hfr.
  destruct (update_split key f l r Hin Hnd) as [l1 [l2 [E1 E2]]].
  rewrite E2, E1, !filter_app. cbn [filter]. rewrite Hr, Hfr. reflexivity.
Qed.

(** An employee's call touches no attendance record of another employee:
    the records of the others are the same before and after. *)
Theorem attendance_of_others_untouched (k : call) (db : database) (e : Z) :
  Session.employee_id (session (call_request k)) = Some e ->
  NoDup (map AttendanceRecord.id (attendance db)) ->
  filter (fun a => negb (AttendanceRecord.employee_id a =? e)%Z)
    (attendance (step k db))
  = filter (fun a => negb (AttendanceRecord.employee_id a =? e)%Z)
      (attendance db).
Proof.
  intros Hs Hnd.
  destruct (call_url k) eqn:Hu;
    try (rewrite other_views_keep_attendance by congruence; reflexivity).
  unfold step, serve. rewrite Hu. cbn [routable].
  destruct (existsb _ _); [|reflexivity].
  unfold dispatch. rewrite Hu.
  destruct (employee_dashboard_commits_for (call_clock k) (call_request k) db)
    as [E|[emp [_ [He E]]]]; unfold committed in E; rewrite E; [reflexivity|].
  rewrite Hs in He. injection He as ->.
  unfold check_in_out.
  destruct (is_str _ "check_in").
  - destruct (todays_record _ _ db); [reflexivity|].
    cbn [fst attendance with_attendance]. rewrite filter_app. cbn [filter].
    cbn [AttendanceRecord.employee_id]. rewrite Z.eqb_refl. cbn [negb].
    apply app_nil_r.
  - destruct (is_str _ "check_out"); [|reflexivity].
    destruct (todays_record _ _ db) as [r|] eqn:Hr; [|reflexivity].
    destruct (negb (Py.truthy_opt (AttendanceRecord.check_out r)));
      [|reflexivity].
    cbn [fst attendance with_attendance].
    rewrite todays_record_find in Hr. apply find_some in Hr.
    destruct Hr as [Hin Hfor]. apply is_for_spec in Hfor.
    destruct Hfor as [Hfor _].
    apply filter_update_out; [exact Hin|exact Hnd| |];
      cbn [AttendanceRecord.set_check_out AttendanceRecord.employee_id];
      rewrite Hfor, Z.eqb_refl; reflexivity.
Qed.

(** The requests an employee's call files are the employee's own and are
    Pending. *)
Theorem requests_filed_as_self (k : call) (db : database) (e : Z) :
  Session.employee_id (session (call_request k)) = Some e ->
  Session.admin_logged_in (session (call_request k)) = false ->
  exists more,
    requests (step k db) = (requests db ++ more)%list
    /\ Forall (fun r => EmployeeRequest.employee_id r = e
                        /\ EmployeeRequest.status r = "Pending") more.
Proof.
  intros Hs Ha. unfold step, serve.
  destruct (routable _);
    [|exists []; split; [symmetry; apply app_nil_r|constructor]].
  destruct (existsb _ _);
    [|exists []; split; [symmetry; apply app_nil_r|constructor]].
  unfold dispatch.
  destruct (call_url k).
  - destruct (employee_dashboard_commits (call_clock k) (call_request k) db)
      as [E|[emp E]]; rewrite E;
      [exists []; split; [symmetry; apply app_nil_r|constructor]|].
    unfold check_in_out.
    view_cases; cbn; exists []; (split; [symmetry; apply app_nil_r|constructor]).
  - unfold employee_create_request. open_view.
    destruct (negb _); [exists []; split; [symmetry; apply app_nil_r|constructor]|].
    destruct (get_or_404 _ _ _) as [emp|] eqn:E;
      [|exists []; split; [symmetry; apply app_nil_r|constructor]].
    apply get_or_404_found in E. destruct E as [E _]. rewrite Hs in E.
    injection E as ->.
    view_cases; cbn;
      try (exists []; split; [symmetry; apply app_nil_r|constructor]).
    eexists. split; [reflexivity|]. constructor; [|constructor].
    split; reflexivity.
  - unfold employee_request. open_view.
    destruct (negb _); [exists []; split; [symmetry; apply app_nil_r|constructor]|].
    destruct (get_or_404 _ _ _) as [emp|] eqn:E;
      [|exists []; split; [symmetry; apply app_nil_r|constructor]].
    apply get_or_404_found in E. destruct E as [E _]. rewrite Hs in E.
    injection E as ->.
    view_cases; cbn;
      try (exists []; split; [symmetry; apply app_nil_r|constructor]).
    eexists. split; [reflexivity|]. constructor; [|constructor].
    split; reflexivity.
  - unfold update_employee_request_status. open_view. rewrite Ha. cbn.
    exists []; split; [symmetry; apply app_nil_r|constructor].
  - unfold admin_notifications. open_view. rewrite Ha. cbn.
    exists []; split; [symmetry; apply app_nil_r|constructor].
  - unfold add_employee. open_view. rewrite Ha. cbn.
    exists []; split; [symmetry; apply app_nil_r|constructor].
  - unfold edit_employee. open_view. rewrite Ha. cbn.
    exists []; split; [symmetry; apply app_nil_r|constructor].
  - unfold edit_employee_profile. open_view.
    view_cases; cbn; exists []; (split; [symmetry; apply app_nil_r|constructor]).
  - exists []; split; [symmetry; apply app_nil_r|constructor].
  - open_page. rewrite Ha. cbn.
    exists []; split; [symmetry; apply app_nil_r|constructor].
  - open_page. rewrite Ha. cbn.
    exists []; split; [symmetry; apply app_nil_r|constructor].
  - exists []; split; [symmetry; apply app_nil_r|constructor].
Qed.

(** ** What the tables keep *)

(** What a call does to the notification table: nothing, or one more
    notification at the end. *)
Lemma step_notifications (k : call) (db : database) :
  exists more, notifications (step k db) = (notifications db ++ more)%list.
Proof.
  unfold step, serve.
  destruct (routable _); [|exists []; symmetry; apply app_nil_r].
  destruct (existsb _ _); [|exists []; symmetry; apply app_nil_r].
  unfold dispatch. destruct (call_url k).
  - destruct (employee_dashboard_commits (call_clock k) (call_request k) db)
      as [E|[emp E]]; rewrite E; [exists []; symmetry; apply app_nil_r|].
    unfold check_in_out. view_cases; exists []; symmetry; apply app_nil_r.
  - unfold employee_create_request. open_view.
    view_cases; exists []; symmetry; apply app_nil_r.
  - unfold employee_request. open_view.
    view_cases; exists []; symmetry; apply app_nil_r.
  - unfold update_employee_request_status. open_view.
    view_cases; exists []; symmetry; apply app_nil_r.
  - unfold admin_notifications. open_view.
    view_cases; try (exists []; symmetry; apply app_nil_r);
      eexists; reflexivity.
  - unfold add_employee. open_view.
    view_cases; exists []; symmetry; apply app_nil_r.
  - unfold edit_employee. open_view.
    view_cases; exists []; symmetry; apply app_nil_r.
  - unfold edit_employee_profile. open_view.
    view_cases; exists []; symmetry; apply app_nil_r.
  - exists []; symmetry; apply app_nil_r.
  - open_page. view_cases; exists []; symmetry; apply app_nil_r.
  - open_page. view_cases; exists []; symmetry; apply app_nil_r.
  - exists []; symmetry; apply app_nil_r.
Qed.

(** Notifications are never changed and never deleted: after any calls the
    table is the table it was, with the new notifications behind. *)
Theorem notifications_append_only (ks : list call) (db : database) :
  exists more, notifications (run ks db) = (notifications db ++ more)%list.
Proof.
  revert db. induction ks as [|k ks IH]; intros db.
  - exists []. symmetry. apply app_nil_r.
  - change (run (k :: ks) db) with (run ks (step k db)).
    destruct (IH (step k db)) as [m2 E2].
    destruct (step_notifications k db) as [m1 E1].
    exists (m1 ++ m2)%list. rewrite E2, E1. symmetry. apply app_assoc.
Qed.

Lemma step_keeps_request (k : call) (db : database) (i : nat)
  (r : EmployeeRequest.t) :
  nth_error (requests db) i = Some r ->
  exists r', nth_error (requests (step k db)) i = Some r' /\ same_request r r'.
Proof.
  intros Hi.
  destruct (step_requests k db) as [E|[[x [E _]]|[pk [s [Hs E]]]]]; rewrite E.
  - exists r. unfold same_request. tauto.
  - exists r. rewrite nth_error_app1 by (apply nth_error_Some; congruence).
    unfold same_request. tauto.
  - destruct (nth_error_update EmployeeRequest.id pk
                (EmployeeRequest.set_status s) _ i r Hi) as [H|H].
    + exists r. unfold same_request. tauto.
    + exists (EmployeeRequest.set_status s r). split; [exact H|].
      unfold same_request. cbn. tauto.
Qed.

(** A request is never deleted, and nothing of it but its status ever
    changes. *)
Theorem requests_kept (ks : list call) (db : database) (i : nat)
  (r : EmployeeRequest.t) :
  nth_error (requests db) i = Some r ->
  exists r', nth_error (requests (run ks db)) i = Some r' /\ same_request r r'.
Proof.
  revert db r. induction ks as [|k ks IH]; intros db r Hi.
  - exists r. unfold same_request. cbn. tauto.
  - destruct (step_keeps_request k db i r Hi) as [r1 [H1 H2]].
    destruct (IH (step k db) r1 H1) as [r2 [H3 H4]].
    exists r2. split; [exact H3|].
    unfold same_request in *. intuition congruence.
Qed.

Lemma nth_error_replaced {A : Type} (l1 l2 : list A) (x y : A) (i : nat)
  (r : A) :
  nth_error (l1 ++ x :: l2) i = Some r ->
  nth_error (l1 ++ y :: l2) i = Some r
  \/ (r = x /\ nth_error (l1 ++ y :: l2) i = Some y).
Proof.
  revert i. induction l1 as [|a l1 IH]; intros [|i]; cbn; auto.
  intros [= ->]. right. auto.
Qed.

Lemma step_keeps_record (k : call) (db : database) (i : nat)
  (r : AttendanceRecord.t) :
  NoDup (map AttendanceRecord.id (attendance db)) ->
  nth_error (attendance db) i = Some r ->
  exists r', nth_error (attendance (step k db)) i = Some r'
             /\ same_record r r'
             /\ (Py.truthy_opt (AttendanceRecord.check_out r) = true ->
                 r' = r).
Proof.
  intros Hnd Hi.
  assert (Hsame : exists r', nth_error (attendance db) i = Some r'
                    /\ same_record r r'
                    /\ (Py.truthy_opt (AttendanceRecord.check_out r) = true ->
                        r' = r))
    by (exists r; unfold same_record; tauto).
  destruct (call_url k) eqn:Hu;
    try (rewrite other_views_keep_attendance by congruence; exact Hsame).
  unfold step, serve. rewrite Hu. cbn [routable].
  destruct (existsb _ _); [|exact Hsame].
  unfold dispatch. rewrite Hu.
  destruct (employee_dashboard_commits (call_clock k) (call_request k) db)
    as [E|[emp E]]; rewrite E; [exact Hsame|].
  unfold check_in_out.
  destruct (is_str _ "check_in").
  - destruct (todays_record _ _ db); [exact Hsame|].
    cbn [fst attendance with_attendance]. exists r.
    rewrite nth_error_app1 by (apply nth_error_Some; congruence).
    unfold same_record. tauto.
  - destruct (is_str _ "check_out"); [|exact Hsame].
    destruct (todays_record _ _ db) as [r0|] eqn:Hr; [|exact Hsame].
    destruct (Py.truthy_opt (AttendanceRecord.check_out r0)) eqn:Ho;
      cbn [negb]; [exact Hsame|].
    cbn [fst attendance with_attendance].
    rewrite todays_record_find in Hr. apply find_some in Hr.
    destruct Hr as [Hin _].
    destruct (update_split AttendanceRecord.id
                (AttendanceRecord.set_check_out
                   (Py.strftime_HMS (now (call_clock k))))
                (attendance db) r0 Hin Hnd) as [l1 [l2 [E1 E2]]].
    rewrite E2. rewrite E1 in Hi.
    destruct (nth_error_replaced l1 l2 r0
                (AttendanceRecord.set_check_out
                   (Py.strftime_HMS (now (call_clock k))) r0) i r Hi)
      as [H|[-> H]].
    + exists r. split; [exact H|]. unfold same_record. tauto.
    + eexists. split; [exact H|]. split.
      * unfold same_record. cbn. tauto.
      * intros Ht. congruence.
Qed.

(** An attendance record is never deleted; its employee, date, status and
    check-in time never change, and its check-out time, once set, never
    changes either. *)
Theorem attendance_kept (ks : list call) (db : database) (i : nat)
  (r : AttendanceRecord.t) :
  ledger_ok db ->
  nth_error (attendance db) i = Some r ->
  exists r', nth_error (attendance (run ks db)) i = Some r'
             /\ same_record r r'
             /\ (Py.truthy_opt (AttendanceRecord.check_out r) = true ->
                 r' = r).
Proof.
  revert db r. induction ks as [|k ks IH]; intros db r Hok Hi.
  - exists r. unfold same_record. cbn. tauto.
  - destruct (step_keeps_record k db i r (keys_distinct db Hok) Hi)
      as [r1 [H1 [H2 H3]]].
    destruct (IH (step k db) r1 (step_ledger_ok k db Hok) H1)
      as [r2 [H4 [H5 H6]]].
    exists r2. split; [exact H4|]. split.
    + unfold same_record in *. intuition congruence.
    + intros Ht. specialize (H3 Ht). subst r1. apply H6, Ht.
Qed.

(** The application stores no status but Present. *)
Lemma step_all_present (k : call) (db : database) :
  (forall r, In r (attendance db) -> AttendanceRecord.status r = "Present") ->
  forall r, In r (attendance (step k db)) ->
            AttendanceRecord.status r = "Present".
Proof.
  intros H.
  destruct (call_url k) eqn:Hu;
    try (rewrite other_views_keep_attendance by congruence; exact H).
  unfold step, serve. rewrite Hu. cbn [routable].
  destruct (existsb _ _); [|exact H].
  unfold dispatch. rewrite Hu.
  destruct (employee_dashboard_commits (call_clock k) (call_request k) db)
    as [E|[emp E]]; rewrite E; [exact H|].
  unfold check_in_out.
  destruct (is_str _ "check_in").
  - destruct (todays_record _ _ db); [exact H|].
    cbn [fst attendance with_attendance]. intros r Hr.
    apply in_app_or in Hr. destruct Hr as [Hr|[<-|[]]];
      [apply H, Hr|reflexivity].
  - destruct (is_str _ "check_out"); [|exact H].
    destruct (todays_record _ _ db) as [r0|]; [|exact H].
    destruct (negb _); [|exact H].
    cbn [fst attendance with_attendance]. intros r Hr.
    apply update_In in Hr. destruct Hr as [Hr|[r1 [Hr ->]]];
      [apply H, Hr|]. cbn. apply H, Hr.
Qed.

Lemma run_all_present (ks : list call) (db : database) :
  (forall r, In r (attendance db) -> AttendanceRecord.status r = "Present") ->
  forall r, In r (attendance (run ks db)) ->
            AttendanceRecord.status r = "Present".
Proof.
  revert db. induction ks as [|k ks IH]; intros db H; [exact H|].
  change (run (k :: ks) db) with (run ks (step k db)).
  apply IH, step_all_present, H.
Qed.

(** Since Present is the only status the application ever stores, the
    rating it shows is 0, for an employee without a record, or 10.0. *)
Theorem reachable_rating (ks : list call) (e : Z) :
  calculate_rating e (run ks empty_db) = Py.Int 0
  \/ exists x, calculate_rating e (run ks empty_db) = Py.Float x
               /\ (x == 10)%Q.
Proof.
  rewrite calculate_rating_counts.
  destruct (total_days e (run ks empty_db) =? 0)%Z eqn:E; [left; reflexivity|].
  right. eexists. split; [reflexivity|].
  apply Z.eqb_neq in E.
  rewrite (all_present_days e (run ks empty_db)).
  - apply rating_of_counts_all.
    pose proof (present_le_total e (run ks empty_db)). lia.
  - intros r Hr _. apply (run_all_present ks empty_db); [intros ? []|exact Hr].
Qed.

(** ** Sending and reading *)

Lemma inbox_In (e : Z) (db : database) (n : Notification.t) :
  In n (inbox e db) <-> In n (notifications db) /\ addressed_to e n = true.
Proof.
  unfold inbox. rewrite <- filter_In. split; apply Permutation_in;
    [symmetry|]; apply (order_by_desc_perm Notification.timestamp).
Qed.

Lemma int_truthy (s : string) (n : Z) : Py.int s = Some n -> Py.truthy s = true.
Proof. destruct s; [discriminate|reflexivity]. Qed.

(** A notification sent to all employees is stored with no addressee and
    is in the inbox of every employee. *)
Theorem broadcast_reaches_all (c : clock) (rq : request) (db : database)
  (message : string) :
  posts_notification rq message ->
  form_get rq "recipient" = Some "all" ->
  exists n,
    committed (handle (admin_notifications c rq) db)
    = with_notifications (notifications db ++ [n]) db
    /\ Notification.message n = message
    /\ Notification.employee_id n = None
    /\ Notification.timestamp n = utcnow c
    /\ forall e, In n (inbox e (committed (handle (admin_notifications c rq)
                                             db))).
Proof.
  intros [Ha [Hm [Hf Ht]]] Hr.
  assert (E : handle (admin_notifications c rq) db
              = (add_notification c message None db,
                 [("Notification sent to all employees!", "success")],
                 redirect "admin_notifications")).
  { unfold admin_notifications. open_view. unfold form_get in *.
    rewrite Ha, Hm, Hf, Ht, Hr. reflexivity. }
  rewrite E. unfold committed, add_notification. cbn [fst].
  eexists. split; [reflexivity|]. repeat (split; [reflexivity|]).
  intros e. apply inbox_In. cbn [notifications with_notifications].
  split; [apply in_or_app; right; left; reflexivity|reflexivity].
Qed.

(** A notification sent to a selected employee, whose key the form gives
    as ASCII text of at most 4300 characters that [int] reads as a 64-bit
    integer, is in the inbox of that employee and of no other; whether the
    table has an employee of that key is not looked at. *)
Theorem selected_reaches_one (c : clock) (rq : request) (db : database)
  (message s : string) (target : Z) :
  posts_notification rq message ->
  form_get rq "recipient" = Some "selected" ->
  form_get rq "employee_id" = Some s ->
  Py.is_ascii s = true -> (String.length s <= 4300)%nat ->
  Py.int s = Some target -> fits_int64 target = true ->
  exists n,
    committed (handle (admin_notifications c rq) db)
    = with_notifications (notifications db ++ [n]) db
    /\ Notification.message n = message
    /\ Notification.employee_id n = Some target
    /\ In n (inbox target (committed (handle (admin_notifications c rq) db)))
    /\ forall e, e <> target ->
         ~ In n (inbox e (committed (handle (admin_notifications c rq) db))).
Proof.
  intros [Ha [Hm [Hf Ht]]] Hr Hs _ _ Hi Hfit.
  assert (E : handle (admin_notifications c rq) db
              = (add_notification c message (Some target) db,
                 [("Notification sent to selected employee!", "success")],
                 redirect "admin_notifications")).
  { unfold admin_notifications. open_view. unfold form_get in *.
    rewrite Ha, Hm, Hf, Ht, Hr, Hs. cbn [negb is_str Py.truthy_opt].
    rewrite (int_truthy s target Hi), Hi, Hfit. reflexivity. }
  rewrite E. unfold committed, add_notification. cbn [fst].
  eexists. split; [reflexivity|]. repeat (split; [reflexivity|]). split.
  - apply inbox_In. cbn [notifications with_notifications]. split.
    + apply in_or_app; right; left; reflexivity.
    + unfold addressed_to. cbn. apply Z.eqb_refl.
  - intros e Hne H. apply inbox_In in H. destruct H as [_ H].
    unfold addressed_to in H. cbn in H. apply Z.eqb_eq in H. congruence.
Qed.

(** The dashboard lists the requests of the employee of the session. *)
Lemma dashboard_lists_requests (c : clock) (rq : request) (emp : Employee.t)
  (db : database) :
  sent_by rq emp db ->
  exists ctx,
    responded (handle (employee_dashboard c rq) db)
    = render_template "employee_dashboard.html" ctx
    /\ forall r, In r (Ctx.requests ctx) <->
                 In r (requests db)
                 /\ EmployeeRequest.employee_id r = Employee.id emp.
Proof.
  intros [Hs He]. unfold employee_dashboard. open_view. rewrite Hs, He.
  cbn [negb].
  assert (HP : forall r,
             In r (order_by_desc request_leb
                     (filter (fun r => (EmployeeRequest.employee_id r
                                        =? Employee.id emp)%Z) (requests db)))
             <-> In r (requests db)
                 /\ EmployeeRequest.employee_id r = Employee.id emp).
  { intros r. rewrite <- Z.eqb_eq.
    rewrite <- (filter_In (fun r => (EmployeeRequest.employee_id r
                                     =? Employee.id emp)%Z)).
    split; apply Permutation_in; [symmetry|];
      apply (order_by_desc_perm EmployeeRequest.timestamp). }
  destruct (method rq); [|destruct (check_in_out c rq emp db)];
    eexists; (split; [reflexivity|exact HP]).
Qed.

(** A request filed through the form of [/employee/create_request] is
    stored as Pending under the employee of the session, and from then on
    the dashboard of an employee lists it exactly when the employee is
    that one. *)
Theorem filed_request_on_dashboard (c c' : clock) (rq rq' : request)
  (emp emp' : Employee.t) (db : database) (t m : string) :
  sent_by rq emp db -> method rq = POST ->
  form_get rq "request_type" = Some t -> Py.truthy t = true ->
  form_get rq "message" = Some m -> Py.truthy m = true ->
  sent_by rq' emp' (committed (handle (employee_create_request c rq) db)) ->
  exists r ctx,
    committed (handle (employee_create_request c rq) db)
    = with_requests (requests db ++ [r]) db
    /\ EmployeeRequest.employee_id r = Employee.id emp
    /\ EmployeeRequest.request_type r = t
    /\ EmployeeRequest.message r = m
    /\ EmployeeRequest.status r = "Pending"
    /\ responded
         (handle (employee_dashboard c' rq')
            (committed (handle (employee_create_request c rq) db)))
       = render_template "employee_dashboard.html" ctx
    /\ (In r (Ctx.requests ctx) <-> Employee.id emp' = Employee.id emp).
Proof.
  intros Hs Hm Ht Htt Hmm Hmt Hs'.
  destruct (employee_create_request_validates c rq emp db Hs Hm) as [_ H].
  destruct (H t m Ht Htt Hmm Hmt) as [E _].
  rewrite E in *. unfold committed in *. cbn [fst] in *.
  destruct (dashboard_lists_requests c' rq' emp' _ Hs') as [ctx [Hr Hin]].
  exists (new_request c (Employee.id emp) t m db), ctx.
  split; [reflexivity|]. repeat (split; [reflexivity|]).
  split; [exact Hr|]. rewrite Hin. cbn. split.
  - intros [_ H1]. congruence.
  - intros H1. split; [|congruence].
    apply in_or_app. right. left. reflexivity.
Qed.

(** ** The attendance history *)

Section OrderByLeb.
Context {A : Type} (leb : A -> A -> bool).
Hypothesis leb_total : forall a b, leb a b = true \/ leb b a = true.
Hypothesis leb_trans :
  forall a b c, leb a b = true -> leb b c = true -> leb a c = true.

Lemma insert_desc_perm_leb (x : A) (l : list A) :
  Permutation (x :: l) (insert_desc leb x l).
Proof.
  induction l as [|y l IH]; cbn; [reflexivity|].
  destruct (leb y x); [reflexivity|].
  rewrite perm_swap. constructor. exact IH.
Qed.

Lemma order_by_desc_perm_leb (l : list A) :
  Permutation l (order_by_desc leb l).
Proof.
  induction l as [|x l IH]; cbn; [constructor|].
  rewrite <- insert_desc_perm_leb. constructor. exact IH.
Qed.

Lemma insert_desc_sorted_leb (x : A) (l : list A) :
  StronglySorted (fun a b => leb b a = true) l ->
  StronglySorted (fun a b => leb b a = true) (insert_desc leb x l).
Proof.
  induction l as [|y l IH]; intros Hs; cbn.
  - constructor; constructor.
  - inversion Hs as [|? ? Hl Hy]; subst.
    destruct (leb y x) eqn:E.
    + constructor; [exact Hs|]. constructor; [exact E|].
      rewrite Forall_forall in *. intros z Hz.
      apply (leb_trans z y x); [apply Hy, Hz|exact E].
    + constructor; [apply IH, Hl|].
      rewrite Forall_forall in *. intros z Hz.
      apply (Permutation_in _ (Permutation_sym (insert_desc_perm_leb x l)))
        in Hz.
      destruct Hz as [<-|Hz]; [|apply Hy, Hz].
      destruct (leb_total x y) as [H|H]; [exact H|congruence].
Qed.

Lemma order_by_desc_sorted_leb (l : list A) :
  StronglySorted (fun a b => leb b a = true) (order_by_desc leb l).
Proof.
  induction l as [|x l IH]; cbn; [constructor|].
  apply insert_desc_sorted_leb, IH.
Qed.

End OrderByLeb.

Lemma date_leb_spec (a b : Py.date) :
  Py.date_leb a b = true <->
  (Py.year a < Py.year b
   \/ (Py.year a = Py.year b
       /\ (Py.month a < Py.month b
           \/ (Py.month a = Py.month b /\ Py.day a <= Py.day b))))%Z.
Proof.
  unfold Py.date_leb.
  rewrite !orb_true_iff, !andb_true_iff, !orb_true_iff, !andb_true_iff,
    !Z.ltb_lt, !Z.eqb_eq, Z.leb_le. tauto.
Qed.

Lemma date_leb_total (a b : Py.date) :
  Py.date_leb a b = true \/ Py.date_leb b a = true.
Proof. rewrite !date_leb_spec. lia. Qed.

Lemma date_leb_trans (a b c : Py.date) :
  Py.date_leb a b = true -> Py.date_leb b c = true -> Py.date_leb a c = true.
Proof. rewrite !date_leb_spec. lia. Qed.

(** The history of employee [e] holds exactly the attendance records of
    [e], each as often as the table holds it, the latest date first. *)
Theorem history_latest_first (e : Z) (db : database) :
  Permutation (history e db)
    (filter (fun a => (AttendanceRecord.employee_id a =? e)%Z)
       (attendance db))
  /\ StronglySorted
       (fun a b => Py.date_leb (AttendanceRecord.date b)
                     (AttendanceRecord.date a) = true)
       (history e db)
  /\ (forall a, In a (history e db) <->
                In a (attendance db) /\ AttendanceRecord.employee_id a = e).
Proof.
  assert (HP : Permutation (history e db)
                 (filter (fun a => (AttendanceRecord.employee_id a =? e)%Z)
                    (attendance db)))
    by (symmetry; apply order_by_desc_perm_leb).
  split; [exact HP|]. split.
  - apply (order_by_desc_sorted_leb attendance_date_leb).
    + intros a b. apply date_leb_total.
    + intros a b c. apply date_leb_trans.
  - intros a. rewrite <- Z.eqb_eq.
    rewrite <- (filter_In (fun a => (AttendanceRecord.employee_id a =? e)%Z)).
    split; apply Permutation_in; [|symmetry]; exact HP.
Qed.

Lemma get_own_row {A : Type} (key : A -> Z) (l more : list A) (a : A) :
  NoDup (map key l) -> In a l -> get key (key a) (l ++ more) = Some a.
Proof.
  unfold get. induction l as [|x l IH]; cbn; [tauto|].
  intros Hnd Hin. inversion Hnd as [|? ? Hx Hnd']; subst.
  destruct Hin as [->|Hin]; [rewrite Z.eqb_refl; reflexivity|].
  destruct (key x =? key a)%Z eqn:E; [|apply IH; assumption].
  apply Z.eqb_eq in E. exfalso. apply Hx. rewrite E. apply in_map, Hin.
Qed.

(** The page that answers a successful check-in shows the history as it
    was read before the check-in: the record just stored, which the
    history of the store now holds, is not on it. *)
Theorem check_in_page_lacks_new_record (c : clock) (rq : request)
  (emp : Employee.t) (db : database) :
  posts_action rq emp "check_in" db ->
  ~ has_record (Employee.id emp) (today c) db ->
  NoDup (map AttendanceRecord.id (attendance db)) ->
  exists ctx,
    responded (handle (employee_dashboard c rq) db)
    = render_template "employee_dashboard.html" ctx
    /\ Ctx.attendance ctx = history (Employee.id emp) db
    /\ ~ In (checked_in_record c (Employee.id emp) db) (Ctx.attendance ctx)
    /\ In (checked_in_record c (Employee.id emp) db)
         (history (Employee.id emp)
            (committed (handle (employee_dashboard c rq) db))).
Proof.
  intros Hp Hno Hnd.
  assert (Ha : form_get rq "action" = Some "check_in") by apply Hp.
  apply todays_record_none in Hno.
  pose proof (check_in_new c rq emp db Ha Hno) as Hcio.
  destruct Hp as [Hm [Hs [He _]]].
  unfold employee_dashboard, responded, committed. open_view.
  rewrite Hs, He, Hm, Hcio. cbn [negb fst snd].
  eexists. split; [reflexivity|]. cbn [Ctx.attendance].
  assert (Hold : forall a, In a (history (Employee.id emp) db) ->
                           In a (attendance db)).
  { intros a H.
    apply (Permutation_in _
             (Permutation_sym (order_by_desc_perm_leb _ _))) in H.
    apply filter_In in H. tauto. }
  assert (Hmap : map (reload
                        (with_attendance
                           (attendance db
                            ++ [checked_in_record c (Employee.id emp) db]) db))
                   (history (Employee.id emp) db)
                 = history (Employee.id emp) db).
  { rewrite <- (map_id (history (Employee.id emp) db)) at 2.
    apply map_ext_in. intros a H. unfold reload.
    cbn [attendance with_attendance].
    rewrite (get_own_row AttendanceRecord.id _ _ a Hnd (Hold a H)).
    reflexivity. }
  split; [exact Hmap|]. rewrite Hmap. split.
  - intros H. apply Hold in H.
    apply (next_id_fresh AttendanceRecord.id (attendance db)).
    change (next_id AttendanceRecord.id (attendance db))
      with (AttendanceRecord.id (checked_in_record c (Employee.id emp) db)).
    apply in_map, H.
  - apply (Permutation_in _ (order_by_desc_perm_leb _ _)).
    apply filter_In. cbn [attendance with_attendance]. split.
    + apply in_or_app. right. left. reflexivity.
    + cbn. apply Z.eqb_refl.
Qed.

(** ** Keys and codes *)

Lemma NoDup_snoc {A : Type} (l : list A) (x : A) :
  NoDup l -> ~ In x l -> NoDup (l ++ [x]).
Proof.
  intros Hl Hx. apply NoDup_rev in Hl. rewrite <- (rev_involutive (l ++ [x])).
  apply NoDup_rev. rewrite rev_app_distr. cbn [rev app].
  constructor; [rewrite <- in_rev; exact Hx|exact Hl].
Qed.

Lemma unique_ok_code (e o : Employee.t) (rows : list Employee.t) :
  unique_ok e rows = true -> In o rows -> Employee.id o <> Employee.id e ->
  Employee.emp_id o <> Employee.emp_id e.
Proof.
  unfold unique_ok. rewrite forallb_forall. intros H Hin Hid Hcode.
  specialize (H o Hin). apply orb_true_iff in H. destruct H as [H|H].
  - apply Z.eqb_eq in H. contradiction.
  - apply andb_true_iff in H. destruct H as [H _].
    apply negb_true_iff, String.eqb_neq in H. contradiction.
Qed.

(** What a call does to the employee table: nothing, one more employee
    with a fresh key, or new values for the row of a key; in both cases
    the unique constraints were checked. *)
Lemma step_employees (k : call) (db : database) :
  employees (step k db) = employees db
  \/ (exists e, employees (step k db) = (employees db ++ [e])%list
                /\ Employee.id e = next_id Employee.id (employees db)
                /\ unique_ok e (employees db) = true)
  \/ (exists old e, In old (employees db)
                    /\ employees (step k db)
                       = update Employee.id (Employee.id old) (fun _ => e)
                           (employees db)
                    /\ Employee.id e = Employee.id old
                    /\ unique_ok e (employees db) = true).
Proof.
  unfold step, serve. destruct (routable _); [|left; reflexivity].
  destruct (existsb _ _); [|left; reflexivity].
  unfold dispatch. destruct (call_url k).
  - destruct (employee_dashboard_commits (call_clock k) (call_request k) db)
      as [E|[emp E]]; rewrite E; [left; reflexivity|].
    left. unfold check_in_out. view_cases; reflexivity.
  - unfold employee_create_request. open_view. view_cases; left; reflexivity.
  - unfold employee_request. open_view. view_cases; left; reflexivity.
  - unfold update_employee_request_status. open_view.
    view_cases; left; reflexivity.
  - unfold admin_notifications. open_view. view_cases; left; reflexivity.
  - unfold add_employee. open_view.
    view_cases; try (left; reflexivity);
      right; left; eexists; cbn [fst employees with_employees];
      (split; [reflexivity|]); (split; [reflexivity|assumption]).
  - unfold edit_employee. open_view.
    destruct (negb _); [left; reflexivity|].
    destruct (get_or_404 Employee.id (Some emp_id) (employees db))
      as [emp|] eqn:Hg; [|left; reflexivity].
    apply get_or_404_found in Hg. destruct Hg as [_ Hin].
    view_cases; try (left; reflexivity);
      right; right; eexists emp, _; cbn [fst employees with_employees];
      (split; [exact Hin|]); (split; [reflexivity|]);
      (split; [reflexivity|eassumption]).
  - destruct (edit_employee_profile_commits (call_env k) (call_request k) db)
      as [E|[emp [emp' [_ [Hg [E [H1 [_ [_ H2]]]]]]]]];
      unfold committed in E; rewrite E; [left; reflexivity|].
    apply get_or_404_found in Hg. destruct Hg as [_ Hin].
    right; right. exists emp, emp'. cbn [employees with_employees].
    repeat split; assumption.
  - left; reflexivity.
  - open_page. view_cases; left; reflexivity.
  - open_page. view_cases; left; reflexivity.
  - left; reflexivity.
Qed.

Lemma update_map_key_at {A : Type} (key : A -> Z) (pk : Z) (f : A -> A)
  (l : list A) :
  (forall r, key r = pk -> key (f r) = pk) ->
  map key (update key pk f l) = map key l.
Proof.
  intros Hf. induction l as [|x l IH]; cbn; [reflexivity|].
  destruct (key x =? pk)%Z eqn:E; cbn; [|rewrite IH; reflexivity].
  apply Z.eqb_eq in E. rewrite (Hf x E), E. reflexivity.
Qed.

Lemma update_keeps_codes (rows : list Employee.t) (old e : Employee.t) :
  NoDup (map Employee.id rows) -> NoDup (map Employee.emp_id rows) ->
  In old rows -> Employee.id e = Employee.id old ->
  unique_ok e rows = true ->
  NoDup (map Employee.emp_id
           (update Employee.id (Employee.id old) (fun _ => e) rows)).
Proof.
  intros Hid Hcode Hin He Hu.
  destruct (update_split Employee.id (fun _ => e) rows old Hin Hid)
    as [l1 [l2 [E1 E2]]].
  rewrite E2. rewrite E1 in Hcode, Hid.
  rewrite map_app in *. cbn [map] in *.
  apply NoDup_remove in Hcode. destruct Hcode as [Hcode _].
  apply NoDup_remove in Hid. destruct Hid as [_ Hfresh].
  apply (Permutation_NoDup (Permutation_middle _ _ _)).
  constructor; [|exact Hcode].
  intros H. rewrite <- map_app in H. apply in_map_iff in H.
  destruct H as [o [Ho Hino]].
  apply (unique_ok_code e o rows Hu).
  - rewrite E1. apply in_app_or in Hino. apply in_or_app.
    destruct Hino; [left|right; right]; assumption.
  - intros Heq. apply Hfresh. rewrite <- map_app. rewrite <- He, <- Heq.
    apply in_map, Hino.
  - exact Ho.
Qed.

Lemma step_keys_ok (k : call) (db : database) :
  keys_ok db -> keys_ok (step k db).
Proof.
  intros [H1 H2 H3 H4 H5]. split.
  - destruct (step_employees k db)
      as [E|[[e [E [Hid _]]]|[old [e [Hin [E [Hid _]]]]]]]; rewrite E.
    + exact H1.
    + rewrite map_app. cbn [map]. apply NoDup_snoc; [exact H1|].
      rewrite Hid. apply next_id_fresh.
    + rewrite update_map_key_at; [exact H1|]. intros _ _. exact Hid.
  - destruct (step_employees k db)
      as [E|[[e [E [Hid Hu]]]|[old [e [Hin [E [Hid Hu]]]]]]]; rewrite E.
    + exact H2.
    + rewrite map_app. cbn [map]. apply NoDup_snoc; [exact H2|].
      intros H. apply in_map_iff in H. destruct H as [o [Ho Hino]].
      apply (unique_ok_code e o _ Hu Hino); [|exact Ho].
      rewrite Hid. intros Heq.
      apply (next_id_fresh Employee.id (employees db)). rewrite <- Heq.
      apply in_map, Hino.
    + apply update_keeps_codes; assumption.
  - destruct (call_url k) eqn:Hu;
      try (rewrite other_views_keep_attendance by congruence; exact H3).
    unfold step, serve. rewrite Hu. cbn [routable].
    destruct (existsb _ _); [|exact H3].
    unfold dispatch. rewrite Hu.
    destruct (employee_dashboard_commits (call_clock k) (call_request k) db)
      as [E|[emp E]]; rewrite E; [exact H3|].
    unfold check_in_out. view_cases; try exact H3;
      cbn [fst attendance with_attendance].
    + rewrite map_app. cbn [map]. apply NoDup_snoc; [exact H3|].
      apply next_id_fresh.
    + rewrite update_map_key; [exact H3|reflexivity].
  - destruct (step_notifications k db) as [more E].
    revert E. unfold step, serve.
    destruct (routable _); [|intros _; exact H4].
    destruct (existsb _ _); [intros _|intros _; exact H4].
    unfold dispatch. destruct (call_url k).
    + destruct (employee_dashboard_commits (call_clock k) (call_request k) db)
        as [E|[emp E]]; rewrite E; [exact H4|].
      unfold check_in_out. view_cases; exact H4.
    + unfold employee_create_request. open_view. view_cases; exact H4.
    + unfold employee_request. open_view. view_cases; exact H4.
    + unfold update_employee_request_status. open_view. view_cases; exact H4.
    + unfold admin_notifications. open_view.
      view_cases; try exact H4;
        cbn [fst notifications add_notification with_notifications];
        rewrite map_app; cbn [map]; (apply NoDup_snoc; [exact H4|]);
        apply next_id_fresh.
    + unfold add_employee. open_view. view_cases; exact H4.
    + unfold edit_employee. open_view. view_cases; exact H4.
    + unfold edit_employee_profile. open_view. view_cases; exact H4.
    + exact H4.
    + open_page. view_cases; exact H4.
    + open_page. view_cases; exact H4.
    + exact H4.
  - unfold step, serve. destruct (routable _); [|exact H5].
    destruct (existsb _ _); [|exact H5].
    unfold dispatch. destruct (call_url k).
    + destruct (employee_dashboard_commits (call_clock k) (call_request k) db)
        as [E|[emp E]]; rewrite E; [exact H5|].
      unfold check_in_out. view_cases; exact H5.
    + unfold employee_create_request. open_view.
      view_cases; try exact H5;
        cbn [fst requests add_request with_requests];
        rewrite map_app; cbn [map]; (apply NoDup_snoc; [exact H5|]);
        apply next_id_fresh.
    + unfold employee_request. open_view.
      view_cases; try exact H5;
        cbn [fst requests add_request with_requests];
        rewrite map_app; cbn [map]; (apply NoDup_snoc; [exact H5|]);
        apply next_id_fresh.
    + unfold update_employee_request_status. open_view.
      view_cases; try exact H5. cbn [fst requests with_requests].
      rewrite update_map_key; [exact H5|reflexivity].
    + unfold admin_notifications. open_view. view_cases; exact H5.
    + unfold add_employee. open_view. view_cases; exact H5.
    + unfold edit_employee. open_view. view_cases; exact H5.
    + unfold edit_employee_profile. open_view. view_cases; exact H5.
    + exact H5.
    + open_page. view_cases; exact H5.
    + open_page. view_cases; exact H5.
    + exact H5.
Qed.

(** Whatever calls have been served since the tables were created, no two
    rows of a table have the same primary key and no two employees have
    the same code. *)
Theorem keys_stay_distinct (ks : list call) : keys_ok (run ks empty_db).
Proof.
  assert (H : forall db, keys_ok db -> keys_ok (run ks db)).
  { induction ks as [|k ks IH]; intros db Hok; [exact Hok|].
    change (run (k :: ks) db) with (run ks (step k db)).
    apply IH, step_keys_ok, Hok. }
  apply H. split; constructor.
Qed.

(** ** Logging in and out *)

Lemma find_code (rows : list Employee.t) (emp : Employee.t) :
  NoDup (map Employee.emp_id rows) -> In emp rows ->
  find (fun o => Employee.emp_id o =? Employee.emp_id emp) rows = Some emp.
Proof.
  induction rows as [|x rows IH]; cbn; [tauto|].
  intros Hnd Hin. inversion Hnd as [|? ? Hx Hnd']; subst.
  destruct Hin as [->|Hin]; [rewrite String.eqb_refl; reflexivity|].
  destruct (Employee.emp_id x =? Employee.emp_id emp) eqn:E;
    [|apply IH; assumption].
  apply String.eqb_eq in E. exfalso. apply Hx. rewrite E. apply in_map, Hin.
Qed.

(** A login that fails answers the same whether no employee has the code
    or the password is wrong, and leaves the session as it was. *)
Theorem employee_login_failure (check : string -> string -> bool)
  (rq : request) (db : database) (code password : string) :
  method rq = POST ->
  form_get rq "emp_id" = Some code ->
  form_get rq "password" = Some password ->
  (forall o, In o (employees db) -> Employee.emp_id o = code ->
             check (Employee.password_hash o) password = false) ->
  employee_login check rq db
  = Ok (session rq, [("Invalid Employee ID or password", "danger")],
        render_template "employee_login.html" Ctx.empty).
Proof.
  intros Hm Hc Hp Hno. unfold employee_login, bind, form_item, form_get in *.
  rewrite Hm, Hc, Hp.
  destruct (find _ (employees db)) as [emp|] eqn:E; [|reflexivity].
  apply find_some in E. destruct E as [Hin Hcode].
  apply String.eqb_eq in Hcode.
  unfold employee_check_password. rewrite (Hno emp Hin Hcode). reflexivity.
Qed.

(** A login with the code of an employee and a password that checks
    against the stored hash puts the key of that employee in the session,
    keeps what the session says of the admin, and the views of employees
    then serve that employee. *)
Theorem employee_login_success (check : string -> string -> bool)
  (rq : request) (db : database) (emp : Employee.t) (password : string) :
  method rq = POST ->
  form_get rq "emp_id" = Some (Employee.emp_id emp) ->
  form_get rq "password" = Some password ->
  In emp (employees db) ->
  NoDup (map Employee.id (employees db)) ->
  NoDup (map Employee.emp_id (employees db)) ->
  check (Employee.password_hash emp) password = true ->
  employee_login check rq db
  = Ok (log_employee_in (Employee.id emp) (session rq), [],
        redirect "employee_dashboard")
  /\ Session.admin_logged_in (log_employee_in (Employee.id emp) (session rq))
     = Session.admin_logged_in (session rq)
  /\ forall rq', session rq' = log_employee_in (Employee.id emp) (session rq) ->
                 sent_by rq' emp db.
Proof.
  intros Hm Hc Hp Hin Hid Hcode Hok. split; [|split; [reflexivity|]].
  - unfold employee_login, bind, form_item, form_get in *.
    rewrite Hm, Hc, Hp, (find_code _ emp Hcode Hin).
    unfold employee_check_password. rewrite Hok. reflexivity.
  - intros rq' Hs. unfold sent_by. rewrite Hs. split; [reflexivity|].
    cbn [Session.employee_id log_employee_in]. unfold get_or_404.
    rewrite <- (app_nil_r (employees db)).
    rewrite (get_own_row Employee.id _ [] emp Hid Hin). reflexivity.
Qed.

(** Logging out as employee takes the employee out of the session and
    leaves the admin in it; with that session every view of employees
    answers with the redirect to the login and stores nothing. *)
Theorem employee_logout_closes (rq : request) :
  method rq = GET ->
  employee_logout rq
  = Ok (log_employee_out (session rq),
        [("Logged out successfully", "success")], redirect "employee_login")
  /\ Session.admin_logged_in (log_employee_out (session rq))
     = Session.admin_logged_in (session rq)
  /\ forall e c rq' db,
       session rq' = log_employee_out (session rq) ->
       handle (employee_dashboard c rq') db = employee_refused db
       /\ handle (employee_create_request c rq') db = employee_refused db
       /\ handle (employee_request c rq') db = employee_refused db
       /\ handle (edit_employee_profile e rq') db = employee_refused db.
Proof.
  intros Hm. unfold employee_logout, get_only. rewrite Hm.
  split; [reflexivity|]. split; [reflexivity|].
  intros e c rq' db Hs.
  unfold employee_refused, employee_dashboard, employee_create_request, employee_request,
    edit_employee_profile.
  open_view. rewrite Hs. cbn. repeat split; reflexivity.
Qed.

(** Logging out as admin takes the admin out of the session and leaves
    the employee in it; with that session every view of the admin answers
    with the redirect to the login and stores nothing. *)
Theorem admin_logout_closes (rq : request) :
  method rq = GET ->
  admin_logout rq
  = Ok (log_admin_out (session rq),
        [("Logged out successfully", "success")], redirect "admin_login")
  /\ Session.employee_id (log_admin_out (session rq))
     = Session.employee_id (session rq)
  /\ forall e c rq' pk decision db,
       session rq' = log_admin_out (session rq) ->
       handle (add_employee e rq') db = admin_refused db
       /\ handle (edit_employee e rq' pk) db = admin_refused db
       /\ handle (update_employee_request_status rq' pk decision) db
          = admin_refused db
       /\ handle (admin_notifications c rq') db = admin_refused db.
Proof.
  intros Hm. unfold admin_logout, get_only. rewrite Hm.
  split; [reflexivity|]. split; [reflexivity|].
  intros e c rq' pk decision db Hs.
  unfold admin_refused, add_employee, edit_employee, update_employee_request_status,
    admin_notifications.
  open_view. rewrite Hs. cbn. repeat split; reflexivity.
Qed.

(** ** Adding and editing employees *)

(** When [add_employee] answers with its redirect to the list of
    employees, it has stored one employee: the code and the mobile number
    of the form are digits, the password of the form is stored hashed,
    the key is fresh and the unique constraints were checked. *)
Lemma add_employee_stored (e : env) (rq : request) (db : database) :
  responded (handle (add_employee e rq) db) = redirect "admin_employees" ->
  exists new code mobile pw,
    committed (handle (add_employee e rq) db)
    = with_employees (employees db ++ [new]) db
    /\ form_get rq "emp_id" = Some code
    /\ form_get rq "mobile_number" = Some mobile
    /\ form_get rq "password" = Some pw
    /\ Employee.emp_id new = code /\ Py.isdigit code = true
    /\ Employee.mobile_number new = Some mobile
    /\ Py.isdigit mobile = true
    /\ Employee.password_hash new = generate_password_hash e pw
    /\ Employee.unique_phrase new = Some (random_phrase e)
    /\ Employee.id new = next_id Employee.id (employees db)
    /\ unique_ok new (employees db) = true.
Proof.
  unfold add_employee, responded, committed. open_view.
  view_cases; cbn [fst snd]; try discriminate; intros _;
    eexists _, _, _, _; (split; [reflexivity|]);
    repeat (split; [first [reflexivity|eassumption]|]);
    try eassumption;
    repeat match goal with
           | H : negb _ = false |- _ => apply negb_false_iff in H
           end;
    repeat (split; [first [reflexivity|eassumption]|]);
    first [reflexivity|eassumption].
Qed.

(** An upload whose secured name is empty cannot be saved: the answer is
    the 500 response, and the employee of the form is not stored. *)
Example upload_without_name :
  handle (add_employee Demo.strict Demo.dots) Day.morning
  = (Day.morning, [], http_error 500)
  /\ responded (handle (add_employee Demo.strict
                          (Day.post Day.admin_session Demo.employee_form))
                  Day.morning)
     = redirect "admin_employees".
Proof. split; reflexivity. Qed.

Lemma find_last {A : Type} (P : A -> bool) (l : list A) (x : A) :
  (forall o, In o l -> P o = false) -> P x = true ->
  find P (l ++ [x]) = Some x.
Proof.
  intros Hl Hx. induction l as [|y l IH]; cbn; [rewrite Hx; reflexivity|].
  rewrite (Hl y (or_introl eq_refl)). apply IH.
  intros o Ho. apply Hl. right. exact Ho.
Qed.

(** An employee the admin has added can log in with the code and the
    password of the form, whenever the password checks against its own
    hash; the session then holds the key of the new employee. *)
Theorem added_employee_can_log_in (check : string -> string -> bool)
  (e : env) (rq rq2 : request) (db : database) (code pw : string) :
  responded (handle (add_employee e rq) db) = redirect "admin_employees" ->
  form_get rq "emp_id" = Some code ->
  form_get rq "password" = Some pw ->
  check (generate_password_hash e pw) pw = true ->
  method rq2 = POST ->
  form_get rq2 "emp_id" = Some code ->
  form_get rq2 "password" = Some pw ->
  employee_login check rq2 (committed (handle (add_employee e rq) db))
  = Ok (log_employee_in (next_id Employee.id (employees db)) (session rq2),
        [], redirect "employee_dashboard").
Proof.
  intros Hr Hc Hp Hok Hm Hc2 Hp2.
  destruct (add_employee_stored e rq db Hr)
    as [new [code' [mobile [pw' [E [H1 [_ [H2 [H3 [_ [_ [_ [H4 [_ [H5 H6]]]]]]]]]]]]]]].
  rewrite Hc in H1. injection H1 as <-. rewrite Hp in H2. injection H2 as <-.
  rewrite E. unfold employee_login, bind, form_item, form_get in *.
  rewrite Hm, Hc2, Hp2. cbn [employees with_employees].
  rewrite (find_last _ _ new).
  - unfold employee_check_password. rewrite H4, Hok, H5. reflexivity.
  - intros o Ho. apply String.eqb_neq. rewrite <- H3.
    apply (unique_ok_code new o _ H6 Ho). rewrite H5. intros Heq.
    apply (next_id_fresh Employee.id (employees db)). rewrite <- Heq.
    apply in_map, Ho.
  - apply String.eqb_eq. exact H3.
Qed.

(** When [edit_employee] answers with its redirect to the list of
    employees, it has rewritten the row of the key in the URL and nothing
    else; the row keeps its key, and it keeps its password hash, its image
    and its recovery phrase where the form leaves them empty. *)
Lemma edit_employee_stored (e : env) (rq : request) (emp_id : Z)
  (db : database) :
  responded (handle (edit_employee e rq emp_id) db)
  = redirect "admin_employees" ->
  exists emp emp' code,
    get Employee.id emp_id (employees db) = Some emp
    /\ committed (handle (edit_employee e rq emp_id) db)
       = with_employees
           (update Employee.id emp_id (fun _ => emp') (employees db)) db
    /\ Employee.id emp' = emp_id
    /\ form_get rq "emp_id" = Some code /\ Employee.emp_id emp' = code
    /\ unique_ok emp' (employees db) = true
    /\ (Py.truthy_opt (form_get rq "password") = false ->
        Employee.password_hash emp' = Employee.password_hash emp)
    /\ (forall pw, form_get rq "password" = Some pw -> Py.truthy pw = true ->
                   Employee.password_hash emp' = generate_password_hash e pw)
    /\ (Py.truthy_opt (form_get rq "unique_phrase") = false ->
        Employee.unique_phrase emp' = Employee.unique_phrase emp)
    /\ (uploaded_image e rq = Ok None ->
        Employee.image emp' = Employee.image emp).
Proof.
  unfold edit_employee, responded, committed, get_or_404. open_view.
  destruct (negb _); [discriminate|].
  destruct (get Employee.id emp_id (employees db)) as [emp|] eqn:Hg;
    [|destruct (fits_int64 emp_id); discriminate].
  assert (Hid : Employee.id emp = emp_id).
  { unfold get in Hg. apply find_some in Hg. apply Z.eqb_eq. apply Hg. }
  unfold form_get.
  view_cases; cbn [fst snd]; try discriminate; intros _;
    eexists emp, _, _; (split; [reflexivity|]);
    rewrite Hid; (split; [reflexivity|]);
    cbn [Employee.id Employee.emp_id Employee.password_hash
         Employee.unique_phrase Employee.image Py.truthy_opt];
    repeat split;
    try first [reflexivity|assumption|discriminate|congruence];
    intros; congruence.
Qed.

(** After the admin has edited an employee, the employee logs in with the
    code of the form: with the old password when the form left the
    password empty, with the new one otherwise. *)
Theorem edited_employee_can_log_in (check : string -> string -> bool)
  (e : env) (rq rq2 : request) (emp_id : Z) (db : database)
  (emp : Employee.t) (code pw : string) :
  NoDup (map Employee.id (employees db)) ->
  NoDup (map Employee.emp_id (employees db)) ->
  responded (handle (edit_employee e rq emp_id) db)
  = redirect "admin_employees" ->
  get Employee.id emp_id (employees db) = Some emp ->
  form_get rq "emp_id" = Some code ->
  (Py.truthy_opt (form_get rq "password") = false
   /\ check (Employee.password_hash emp) pw = true)
  \/ (form_get rq "password" = Some pw /\ Py.truthy pw = true
      /\ check (generate_password_hash e pw) pw = true) ->
  method rq2 = POST ->
  form_get rq2 "emp_id" = Some code ->
  form_get rq2 "password" = Some pw ->
  employee_login check rq2 (committed (handle (edit_employee e rq emp_id) db))
  = Ok (log_employee_in emp_id (session rq2), [],
        redirect "employee_dashboard").
Proof.
  intros Hid Hcodes Hr Hg Hc Hpw Hm Hc2 Hp2.
  destruct (edit_employee_stored e rq emp_id db Hr)
    as [emp0 [emp' [code' [Hg' [E [H1 [H2 [H3 [H4 [H5 [H6 _]]]]]]]]]]].
  rewrite Hg in Hg'. injection Hg' as <-.
  rewrite Hc in H2. injection H2 as <-.
  assert (Hold : Employee.id emp = emp_id /\ In emp (employees db)).
  { unfold get in Hg. apply find_some in Hg. destruct Hg as [Hin Hk].
    apply Z.eqb_eq in Hk. auto. }
  destruct Hold as [Hk Hin].
  rewrite E. unfold employee_login, bind, form_item, form_get in *.
  rewrite Hm, Hc2, Hp2. cbn [employees with_employees].
  rewrite <- H3.
  assert (Hnew : In emp' (update Employee.id emp_id (fun _ => emp')
                            (employees db))).
  { destruct (update_first Employee.id emp_id (fun _ => emp') _ emp Hg)
      as [_ [l1 [l2 [_ [E2 _]]]]].
    rewrite E2. apply in_or_app. right. left. reflexivity. }
  rewrite (find_code _ emp').
  - unfold employee_check_password.
    assert (Hchk : check (Employee.password_hash emp') pw = true).
    { destruct Hpw as [[Hb Hok]|[Hs [Ht Hok]]].
      - rewrite (H5 Hb). exact Hok.
      - rewrite (H6 pw Hs Ht). exact Hok. }
    rewrite Hchk, H1. reflexivity.
  - rewrite <- Hk. apply update_keeps_codes; try assumption. congruence.
  - exact Hnew.
Qed.

(** ** The profile of an employee *)

(** A profile edit that is stored rewrites the row of the employee of the
    session and nothing else: the rows before and after it and the other
    tables are as they were, and the row keeps its key, its code and its
    recovery phrase. *)
Theorem profile_edit_is_own (e : env) (rq : request) (db : database) :
  committed (handle (edit_employee_profile e rq) db) = db
  \/ exists l1 l2 emp emp',
       employees db = (l1 ++ emp :: l2)%list
       /\ committed (handle (edit_employee_profile e rq) db)
          = with_employees (l1 ++ emp' :: l2) db
       /\ Session.employee_id (session rq) = Some (Employee.id emp)
       /\ Employee.id emp' = Employee.id emp
       /\ Employee.emp_id emp' = Employee.emp_id emp
       /\ Employee.unique_phrase emp' = Employee.unique_phrase emp
       /\ unique_ok emp' (employees db) = true.
Proof.
  unfold edit_employee_profile, committed, get_or_404. open_view.
  destruct (negb _); [left; reflexivity|].
  destruct (Session.employee_id (session rq)) as [pk|]; [|left; reflexivity].
  destruct (get Employee.id pk (employees db)) as [emp|] eqn:Hg;
    [|destruct (fits_int64 pk); left; reflexivity].
  view_cases; cbn [fst]; try (left; reflexivity); right;
    match goal with
    | |- context [update Employee.id _ (fun _ => ?x) _] =>
        destruct (update_first Employee.id pk (fun _ => x) _ emp Hg)
          as [Hk [l1 [l2 [E1 [E2 _]]]]]
    end;
    rewrite <- Hk in E2; exists l1, l2, emp; eexists; rewrite E2;
    repeat split; first [exact E1|reflexivity|congruence|assumption].
Qed.

(** A date of birth in ASCII text that is not a date makes the profile
    edit raise: the answer is the 500 response, and nothing is stored. *)
Theorem profile_edit_bad_date (e : env) (rq : request) (db : database)
  (emp : Employee.t) (name gender address mobile email dob : string) :
  sent_by rq emp db -> method rq = POST ->
  form_get rq "name" = Some name -> form_get rq "gender" = Some gender ->
  form_get rq "address" = Some address ->
  form_get rq "mobile_number" = Some mobile ->
  form_get rq "email" = Some email ->
  form_get rq "date_of_birth" = Some dob ->
  Py.is_ascii dob = true ->
  Py.truthy dob = true -> Py.strptime_ymd dob = None ->
  handle (edit_employee_profile e rq) db = (db, [], http_error 500).
Proof.
  intros [Hs He] Hm H1 H2 H3 H4 H5 H6 _ Ht Hp.
  unfold edit_employee_profile. open_view. unfold form_get in *.
  rewrite Hs, He, Hm, H1, H2, H3, H4, H5, H6, Ht, Hp. reflexivity.
Qed.

(** A selected employee id in ASCII text that [int] refuses makes the
    notification form raise: the answer is the 500 response, and nothing
    is stored. *)
Lemma notification_bad_id (c : clock) (rq : request) (db : database)
  (message s : string) :
  posts_notification rq message ->
  form_get rq "recipient" = Some "selected" ->
  form_get rq "employee_id" = Some s ->
  Py.is_ascii s = true ->
  Py.truthy s = true -> Py.int s = None ->
  handle (admin_notifications c rq) db = (db, [], http_error 500).
Proof.
  intros [Ha [Hm [Hf Ht]]] Hr Hs _ Hts Hi.
  unfold admin_notifications. open_view. unfold form_get in *.
  rewrite Ha, Hm, Hf, Ht, Hr, Hs. cbn [negb is_str Py.truthy_opt].
  rewrite Hts, Hi. reflexivity.
Qed.

(** ** Provisioning admins *)

Lemma find_username_none (admins : list Admin.t) (u : string) :
  find (fun a => Admin.username a =? u) admins = None <->
  ~ In u (map Admin.username admins).
Proof.
  induction admins as [|a l IH]; cbn; [tauto|].
  destruct (Admin.username a =? u) eqn:E.
  - apply String.eqb_eq in E. split; [discriminate|]. intros H. exfalso. auto.
  - apply String.eqb_neq in E. rewrite IH. tauto.
Qed.

(** The command keeps user names and keys distinct. *)
Theorem create_admin_keeps_distinct (e : env) (username password : string)
  (admins : list Admin.t) :
  NoDup (map Admin.username admins) -> NoDup (map Admin.id admins) ->
  NoDup (map Admin.username (fst (create_admin e username password admins)))
  /\ NoDup (map Admin.id (fst (create_admin e username password admins))).
Proof.
  intros Hu Hi. unfold create_admin.
  destruct (find _ admins) eqn:E; cbn [fst]; [split; assumption|].
  rewrite !map_app. cbn [map Admin.username Admin.id]. split.
  - apply NoDup_snoc; [exact Hu|]. apply find_username_none, E.
  - apply NoDup_snoc; [exact Hi|]. apply next_id_fresh.
Qed.

(** Run a second time with the same user name, the command changes
    nothing, whatever the password: the first password stays. *)
Theorem create_admin_again (e e' : env) (username password password' : string)
  (admins : list Admin.t) :
  create_admin e' username password'
    (fst (create_admin e username password admins))
  = (fst (create_admin e username password admins), already_exists username).
Proof.
  unfold create_admin at 2 3.
  destruct (find _ admins) eqn:E; cbn [fst]; unfold create_admin.
  - rewrite E. reflexivity.
  - rewrite (find_last _ admins); [reflexivity| |apply String.eqb_refl].
    intros o Ho. apply (find_none _ _ E o Ho).
Qed.

(** An admin the command has created logs in with the user name and the
    password given to it, whenever the password checks against its own
    hash, and the session then opens the views of the admin. *)
Theorem created_admin_can_log_in (check : string -> string -> bool)
  (e : env) (username password : string) (admins : list Admin.t)
  (rq : request) :
  ~ In username (map Admin.username admins) ->
  check (generate_password_hash e password) password = true ->
  method rq = POST ->
  form_get rq "username" = Some username ->
  form_get rq "password" = Some password ->
  admin_login check rq (fst (create_admin e username password admins))
  = Ok (log_admin_in (session rq), [], redirect "admin_employees")
  /\ Session.admin_logged_in (log_admin_in (session rq)) = true
  /\ snd (create_admin e username password admins) = created username.
Proof.
  intros Hnew Hok Hm Hu Hp. apply find_username_none in Hnew.
  unfold create_admin. rewrite Hnew. cbn [fst snd].
  split; [|split; reflexivity].
  unfold admin_login, bind, form_item, form_get in *. rewrite Hm, Hu, Hp.
  rewrite (find_last _ admins).
  - unfold admin_check_password. cbn [Admin.password_hash]. rewrite Hok.
    reflexivity.
  - intros o Ho. apply (find_none _ _ Hnew o Ho).
  - apply String.eqb_refl.
Qed.

(** The script of [create_admins.py] succeeds once: run on the table it
    has left, it fails on the unique constraint and adds nothing. *)
Theorem create_admins_twice (e e' : env) (admins admins' : list Admin.t)
  (out : printed) :
  create_admins e admins = Ok (admins', out) ->
  create_admins e' admins' = Raise IntegrityError.
Proof.
  unfold create_admins.
  destruct (existsb _ admins); [discriminate|]. intros [= <- _].
  rewrite existsb_app. cbn [existsb Admin.username].
  rewrite String.eqb_refl, orb_true_r. reflexivity.
Qed.

(** ** The forgotten password *)

(** Whoever sends the code, the e-mail address and the recovery phrase of
    an employee is shown the stored password hash, logged in or not; a
    triple that no employee has is answered with the refusal. *)
Theorem forgot_password_shows_hash (rq : request) (db : database)
  (code email phrase : string) :
  method rq = POST ->
  form_get rq "emp_id" = Some code ->
  form_get rq "email" = Some email ->
  form_get rq "unique_phrase" = Some phrase ->
  NoDup (map Employee.emp_id (employees db)) ->
  (forall emp, In emp (employees db) -> Employee.emp_id emp = code ->
               Employee.email emp = Some email ->
               Employee.unique_phrase emp = Some phrase ->
               employee_forgot_password rq db
               = Ok ([("Your password is: " ++ Employee.password_hash emp,
                       "success")],
                     render_template "employee_forgot_password.html"
                       Ctx.empty))
  /\ ((forall emp, In emp (employees db) ->
                   ~ (Employee.emp_id emp = code
                      /\ Employee.email emp = Some email
                      /\ Employee.unique_phrase emp = Some phrase)) ->
      employee_forgot_password rq db
      = Ok ([("Invalid credentials or unique phrase", "danger")],
            render_template "employee_forgot_password.html" Ctx.empty)).
Proof.
  intros Hm Hc He Hp Hnd.
  unfold employee_forgot_password, bind, form_item, form_get in *.
  rewrite Hm, Hc, He, Hp. split.
  - intros emp Hin H1 H2 H3.
    destruct (find _ (employees db)) as [o|] eqn:E.
    + apply find_some in E. destruct E as [Ho Hf].
      apply andb_true_iff in Hf. destruct Hf as [Hf _].
      apply andb_true_iff in Hf. destruct Hf as [Hf _].
      apply String.eqb_eq in Hf.
      assert (o = emp).
      { pose proof (find_code _ emp Hnd Hin) as F1.
        pose proof (find_code _ o Hnd Ho) as F2.
        rewrite Hf, <- H1 in F2. congruence. }
      subst o. reflexivity.
    + pose proof (find_none _ _ E emp Hin) as Hf. cbn in Hf.
      rewrite H1, H2, H3 in Hf. cbn in Hf. rewrite !String.eqb_refl in Hf.
      discriminate.
  - intros Hno.
    destruct (find _ (employees db)) as [o|] eqn:E; [|reflexivity].
    apply find_some in E. destruct E as [Ho Hf].
    apply andb_true_iff in Hf. destruct Hf as [Hf H3].
    apply andb_true_iff in Hf. destruct Hf as [H1 H2].
    apply String.eqb_eq in H1. exfalso.
    apply (Hno o Ho). split; [exact H1|]. split.
    + unfold is_str in H2. destruct (Employee.email o); [|discriminate].
      apply String.eqb_eq in H2. congruence.
    + unfold is_str in H3. destruct (Employee.unique_phrase o); [|discriminate].
      apply String.eqb_eq in H3. congruence.
Qed.


(** ** The statements at work *)

Lemma noon_ledger_ok : ledger_ok Day.noon.
Proof.
  split.
  - exact noon_keys_distinct.
  - intros e d. unfold records_for. cbn.
    destruct (is_for e d Day.record_in); cbn; lia.
  - intros r [<-|[]]. reflexivity.
Defined.

Lemma morning_has_no_record : ~ has_record 1 Day.day Day.morning.
Proof. intros [r [[] _]]. Defined.

Lemma get_changes_nothing_witness :
  step (Demo.call_of url_employee_dashboard (Demo.get Day.employee_session))
    Day.noon = Day.noon
  /\ serve (Demo.call_of (url_update_employee_request_status 1 "Approved")
              (Demo.get Day.admin_session)) Day.board
     = (Day.board, [], http_error 405).
Proof.
  split.
  - apply (proj1 (get_changes_nothing
                    (Demo.call_of url_employee_dashboard
                       (Demo.get Day.employee_session)) Day.noon eq_refl)).
  - apply (proj2 (get_changes_nothing
                    (Demo.call_of
                       (url_update_employee_request_status 1 "Approved")
                       (Demo.get Day.admin_session)) Day.board eq_refl)
             1%Z "Approved" eq_refl eq_refl).
Defined.


(** The employee edits the own address: the one row is rewritten, and the
    statement names it. *)
Lemma without_admin_session_witness :
  employees (step Demo.edit_address Day.morning) <> employees Day.morning
  /\ (employees (step Demo.edit_address Day.morning) = employees Day.morning
      \/ exists l1 l2 emp emp',
           call_url Demo.edit_address = url_edit_employee_profile
           /\ method (call_request Demo.edit_address) = POST
           /\ Session.employee_logged_in
                (session (call_request Demo.edit_address)) = true
           /\ Session.employee_id (session (call_request Demo.edit_address))
              = Some (Employee.id emp)
           /\ employees Day.morning = (l1 ++ emp :: l2)%list
           /\ employees (step Demo.edit_address Day.morning)
              = (l1 ++ emp' :: l2)%list
           /\ Employee.id emp' = Employee.id emp
           /\ Employee.emp_id emp' = Employee.emp_id emp
           /\ Employee.unique_phrase emp' = Employee.unique_phrase emp)
  /\ notifications (step Demo.edit_address Day.morning)
     = notifications Day.morning.
Proof.
  split; [discriminate|].
  destruct (without_admin_session Demo.edit_address Day.morning eq_refl)
    as [H1 [H2 _]].
  split; [exact H1|exact H2].
Defined.

Lemma without_employee_session_witness :
  attendance (step (Demo.call_of url_employee_dashboard
                      (Day.post Day.admin_session [("action", "check_in")]))
                Day.morning)
  = attendance Day.morning.
Proof.
  apply (proj1 (without_employee_session
                  (Demo.call_of url_employee_dashboard
                     (Day.post Day.admin_session [("action", "check_in")]))
                  Day.morning eq_refl)).
Defined.

(** Employee 1001 checks in on a day on which employee 1002 has checked
    in: a record is stored, and the record of 1002 is as it was. *)
Lemma attendance_of_others_untouched_witness :
  attendance (step (Demo.call_of url_employee_dashboard Day.check_in)
                Demo.two)
  = [Demo.bo_record;
     AttendanceRecord.mk 2 1 Day.day "Present" (Some "09:00:00") None]
  /\ filter (fun a => negb (AttendanceRecord.employee_id a =? 1)%Z)
       (attendance (step (Demo.call_of url_employee_dashboard Day.check_in)
                      Demo.two))
     = filter (fun a => negb (AttendanceRecord.employee_id a =? 1)%Z)
         (attendance Demo.two).
Proof.
  split; [reflexivity|].
  apply (attendance_of_others_untouched
           (Demo.call_of url_employee_dashboard Day.check_in) Demo.two 1
           eq_refl).
  constructor; [intros []|constructor].
Defined.

Lemma requests_filed_as_self_witness :
  exists more,
    requests (step (Demo.call_of url_employee_create_request Demo.file_leave)
                Day.morning)
    = (requests Day.morning ++ more)%list
    /\ Forall (fun r => EmployeeRequest.employee_id r = 1%Z
                        /\ EmployeeRequest.status r = "Pending") more.
Proof. apply requests_filed_as_self; reflexivity. Defined.

Lemma requests_kept_witness :
  exists r',
    nth_error (requests (run [Day.resolve "Approved"] Day.board)) 0 = Some r'
    /\ same_request Day.leave r'.
Proof. apply requests_kept. reflexivity. Defined.

Lemma attendance_kept_witness :
  exists r',
    nth_error
      (attendance
         (run [Demo.call_of url_employee_dashboard Day.check_out] Day.noon)) 0
    = Some r'
    /\ same_record Day.record_in r'
    /\ (Py.truthy_opt (AttendanceRecord.check_out Day.record_in) = true ->
        r' = Day.record_in).
Proof. apply attendance_kept; [exact noon_ledger_ok|reflexivity]. Defined.

Lemma broadcast_reaches_all_witness :
  exists n,
    committed (handle (admin_notifications Day.at_0900
                         (Demo.notify [("recipient", "all")])) Day.morning)
    = with_notifications (notifications Day.morning ++ [n]) Day.morning
    /\ Notification.message n = "Meeting at noon"
    /\ Notification.employee_id n = None
    /\ Notification.timestamp n = utcnow Day.at_0900
    /\ forall e,
         In n (inbox e
                 (committed
                    (handle (admin_notifications Day.at_0900
                               (Demo.notify [("recipient", "all")]))
                       Day.morning))).
Proof. apply broadcast_reaches_all; repeat split; reflexivity. Defined.

Lemma selected_reaches_one_witness :
  exists n,
    committed (handle (admin_notifications Day.at_0900
                         (Demo.notify [("recipient", "selected");
                                       ("employee_id", "1")])) Day.morning)
    = with_notifications (notifications Day.morning ++ [n]) Day.morning
    /\ Notification.message n = "Meeting at noon"
    /\ Notification.employee_id n = Some 1%Z
    /\ In n (inbox 1
               (committed
                  (handle (admin_notifications Day.at_0900
                             (Demo.notify [("recipient", "selected");
                                           ("employee_id", "1")]))
                     Day.morning)))
    /\ forall e, e <> 1%Z ->
         ~ In n (inbox e
                   (committed
                      (handle (admin_notifications Day.at_0900
                                 (Demo.notify [("recipient", "selected");
                                               ("employee_id", "1")]))
                         Day.morning))).
Proof.
  apply (selected_reaches_one Day.at_0900 _ Day.morning "Meeting at noon" "1");
    try (repeat split; reflexivity).
  cbn. lia.
Defined.

Lemma filed_request_on_dashboard_witness :
  exists r ctx,
    committed (handle (employee_create_request Day.at_0900 Demo.file_leave)
                 Day.morning)
    = with_requests (requests Day.morning ++ [r]) Day.morning
    /\ EmployeeRequest.employee_id r = Employee.id Day.emp
    /\ EmployeeRequest.request_type r = "Leave"
    /\ EmployeeRequest.message r = "Two days off"
    /\ EmployeeRequest.status r = "Pending"
    /\ responded
         (handle (employee_dashboard Day.at_1730
                    (Demo.get Day.employee_session))
            (committed
               (handle (employee_create_request Day.at_0900 Demo.file_leave)
                  Day.morning)))
       = render_template "employee_dashboard.html" ctx
    /\ (In r (Ctx.requests ctx) <-> Employee.id Day.emp = Employee.id Day.emp).
Proof.
  apply (filed_request_on_dashboard Day.at_0900 Day.at_1730 Demo.file_leave
           (Demo.get Day.employee_session) Day.emp Day.emp Day.morning
           "Leave" "Two days off");
    repeat split; reflexivity.
Defined.

Lemma check_in_page_lacks_new_record_witness :
  exists ctx,
    responded (handle (employee_dashboard Day.at_0900 Day.check_in)
                 Day.morning)
    = render_template "employee_dashboard.html" ctx
    /\ Ctx.attendance ctx = history (Employee.id Day.emp) Day.morning
    /\ ~ In (checked_in_record Day.at_0900 (Employee.id Day.emp) Day.morning)
         (Ctx.attendance ctx)
    /\ In (checked_in_record Day.at_0900 (Employee.id Day.emp) Day.morning)
         (history (Employee.id Day.emp)
            (committed (handle (employee_dashboard Day.at_0900 Day.check_in)
                          Day.morning))).
Proof.
  apply check_in_page_lacks_new_record.
  - exact posts_check_in_morning.
  - exact morning_has_no_record.
  - constructor.
Defined.

Lemma employee_login_failure_witness :
  employee_login Demo.check (Demo.login "1001" "guess") Day.morning
  = Ok (session (Demo.login "1001" "guess"),
        [("Invalid Employee ID or password", "danger")],
        render_template "employee_login.html" Ctx.empty).
Proof.
  apply (employee_login_failure Demo.check _ Day.morning "1001" "guess");
    try reflexivity.
  intros o [<-|[]] _. reflexivity.
Defined.

Lemma employee_login_success_witness :
  employee_login Demo.check (Demo.login "1001" "hash") Day.morning
  = Ok (log_employee_in 1 Demo.anonymous, [], redirect "employee_dashboard").
Proof.
  apply (proj1 (employee_login_success Demo.check (Demo.login "1001" "hash")
                  Day.morning Day.emp "hash" eq_refl eq_refl eq_refl
                  (or_introl eq_refl)
                  (NoDup_cons _ (fun H : In _ [] => H) (NoDup_nil _))
                  (NoDup_cons _ (fun H : In _ [] => H) (NoDup_nil _))
                  eq_refl)).
Defined.

Lemma employee_logout_closes_witness :
  employee_logout (Demo.get Day.employee_session)
  = Ok (log_employee_out Day.employee_session,
        [("Logged out successfully", "success")], redirect "employee_login").
Proof.
  apply (proj1 (employee_logout_closes (Demo.get Day.employee_session)
                  eq_refl)).
Defined.

Lemma admin_logout_closes_witness :
  admin_logout (Demo.get Day.admin_session)
  = Ok (log_admin_out Day.admin_session,
        [("Logged out successfully", "success")], redirect "admin_login").
Proof.
  apply (proj1 (admin_logout_closes (Demo.get Day.admin_session) eq_refl)).
Defined.

Lemma added_employee_can_log_in_witness :
  employee_login Demo.check (Demo.login "1002" "secret")
    (committed (handle (add_employee Day.libraries Demo.add_bo) Day.morning))
  = Ok (log_employee_in (next_id Employee.id (employees Day.morning))
          (session (Demo.login "1002" "secret")),
        [], redirect "employee_dashboard").
Proof.
  apply (added_employee_can_log_in Demo.check Day.libraries Demo.add_bo
           (Demo.login "1002" "secret") Day.morning "1002" "secret");
    reflexivity.
Defined.

Lemma edited_employee_can_log_in_witness :
  employee_login Demo.check (Demo.login "2001" "hash")
    (committed (handle (edit_employee Day.libraries Demo.rename_asha 1)
                  Day.morning))
  = Ok (log_employee_in 1 (session (Demo.login "2001" "hash")), [],
        redirect "employee_dashboard").
Proof.
  apply (edited_employee_can_log_in Demo.check Day.libraries Demo.rename_asha
           (Demo.login "2001" "hash") 1 Day.morning Day.emp "2001" "hash");
    try reflexivity.
  - constructor; [intros []|constructor].
  - constructor; [intros []|constructor].
  - left. split; reflexivity.
Defined.

Lemma profile_edit_bad_date_witness :
  handle (edit_employee_profile Day.libraries Demo.bad_profile) Day.morning
  = (Day.morning, [], http_error 500).
Proof.
  apply (profile_edit_bad_date Day.libraries Demo.bad_profile Day.morning
           Day.emp "Asha" "F" "12 Hill Road" "5550100" "asha@example.org"
           "10/01/1990");
    try reflexivity.
  split; reflexivity.
Defined.

Lemma create_admin_keeps_distinct_witness :
  NoDup (map Admin.username
           (fst (create_admin Day.libraries "root" "secret"
                   [Admin.mk 1 "admin1" "pbkdf2:sha256:1$salt$password123"])))
  /\ NoDup (map Admin.id
              (fst (create_admin Day.libraries "root" "secret"
                      [Admin.mk 1 "admin1"
                         "pbkdf2:sha256:1$salt$password123"]))).
Proof.
  apply create_admin_keeps_distinct;
    (constructor; [intros []|constructor]).
Defined.

Lemma created_admin_can_log_in_witness :
  admin_login Demo.check (Demo.admin_login_form "root" "secret")
    (fst (create_admin Day.libraries "root" "secret" []))
  = Ok (log_admin_in Demo.anonymous, [], redirect "admin_employees").
Proof.
  apply (proj1 (created_admin_can_log_in Demo.check Day.libraries "root"
                  "secret" [] (Demo.admin_login_form "root" "secret")
                  (fun H : In _ [] => H) eq_refl eq_refl eq_refl eq_refl)).
Defined.

Lemma create_admins_twice_witness :
  create_admins Day.libraries
    [Admin.mk 1 "admin1" "pbkdf2:sha256:1$salt$password123"]
  = Raise IntegrityError.
Proof.
  apply (create_admins_twice Day.libraries Day.libraries []
           [Admin.mk 1 "admin1" "pbkdf2:sha256:1$salt$password123"]
           (created "admin1")).
  reflexivity.
Defined.

Lemma forgot_password_shows_hash_witness :
  employee_forgot_password Demo.forgot Day.morning
  = Ok ([("Your password is: " ++ Employee.password_hash Day.emp, "success")],
        render_template "employee_forgot_password.html" Ctx.empty).
Proof.
  apply (proj1 (forgot_password_shows_hash Demo.forgot Day.morning "1001"
                  "asha@example.org" "Xy12Zw34" eq_refl eq_refl eq_refl
                  eq_refl
                  (NoDup_cons _ (fun H : In _ [] => H) (NoDup_nil _)))
           Day.emp (or_introl eq_refl) eq_refl eq_refl eq_refl).
Defined.

